(** * bpftui: the navigation and interaction state machine

    A shallow embedding of the package [internal/tui]: the root model of
    tui.go, the menu, the program and map list models, the program and
    map detail models, the map dump model and the service types, followed
    by the properties of the navigation history, the error paths, the key
    routing and the hex dump rendering.

    The Bubble Tea widgets the package builds on ([list.Model],
    [viewport.Model]) and the Lip Gloss styles are libraries outside the
    package.  They are kept abstract behind the interfaces
    [bubbles_list.Widget], [bubbles_viewport.Widget] and [Theme]; the facts
    about the list widget that the navigation invariants depend on are
    collected in [bubbles_list.Laws].  A small implementation of each
    interface ([refList], [refViewport], [plainTheme]) is given after the
    model and is used to run it on the data of the integration tests. *)

From Stdlib Require Import ZArith NArith List String Ascii Bool Lia.
From Stdlib.Strings Require Import Byte.
From Stdlib Require Import DecimalString.
Import ListNotations.

Local Open Scope list_scope.
Local Open Scope string_scope.
Local Open Scope Z_scope.

Set Implicit Arguments.
Set Primitive Projections.

(* ===================================================================== *)
(** ** Formatting helpers ([fmt], [strings]) *)

(** The digits of the verb [%x], in order of value. *)
Definition hexDigits : string := "0123456789abcdef".

(** One lowercase hexadecimal digit, as printed by the verb [%x]. *)
Definition hexDigit (n : N) : ascii :=
  match String.get (N.to_nat n) hexDigits with
  | Some c => c
  | None => "f"%char
  end.

(** [fmt.Sprintf("%02x", b)] for a byte [b]: two digits, zero padded. *)
Definition sprintf_02x (b : byte) : string :=
  let n := Byte.to_N b in
  String (hexDigit (n / 16)) (String (hexDigit (n mod 16)) EmptyString).

(** [strings.Join(parts, sep)]. *)
Fixpoint strings_Join (parts : list string) (sep : string) : string :=
  match parts with
  | [] => ""
  | [p] => p
  | p :: rest => (p ++ sep ++ strings_Join rest sep)%string
  end.

(** [fmt.Sprintf("%d", n)] for an unsigned value. *)
Definition sprintf_d (n : N) : string :=
  NilZero.string_of_uint (N.to_uint n).

(** [formatHex] (mapdump.go): a byte slice as space-separated hex. *)
Definition formatHex (data : list byte) : string :=
  if (List.length data =? 0)%nat then "(empty)"
  else strings_Join (map sprintf_02x data) " ".

(** The reader of the format [formatHex] writes: tokens of exactly two
    hexadecimal digits separated by one space.  It is the decoder against
    which the rendering is shown to be reversible. *)
Definition unhexDigit (c : ascii) : option N :=
  option_map N.of_nat (String.index 0 (String c EmptyString) hexDigits).

Definition unhexByte (h l : ascii) : option byte :=
  match unhexDigit h, unhexDigit l with
  | Some a, Some b => Byte.of_N (16 * a + b)
  | _, _ => None
  end.

Fixpoint decodeHex (s : string) : option (list byte) :=
  match s with
  | String h (String l rest) =>
      match unhexByte h l with
      | Some b =>
          match rest with
          | EmptyString => Some [b]
          | String " " rest' =>
              match decodeHex rest' with
              | Some bs => Some (b :: bs)
              | None => None
              end
          | String _ _ => None
          end
      | None => None
      end
  | _ => None
  end.

Definition isHexDigit (c : ascii) : bool :=
  match unhexDigit c with Some _ => true | None => false end.

(** The rendering of the bytes after the first one: each is preceded by
    one space. *)
Fixpoint hexTail (bs : list byte) : string :=
  match bs with
  | [] => ""
  | c :: rest => (" " ++ sprintf_02x c ++ hexTail rest)%string
  end.


(** A line feed, the Go string ["\n"]. *)
Definition nl : string := String "010"%char EmptyString.

(* ===================================================================== *)
(** ** Bubble Tea: messages and commands *)

Module tea.

(** [tea.Msg].  A key message is represented by [msg.String()], the only
    observation the package makes of it; every message that is neither a
    key press nor a resize (filter matches, ticks, ...) is [OtherMsg]. *)
Inductive Msg : Type :=
| KeyMsg (s : string)
| WindowSizeMsg (Width Height : Z)
| OtherMsg (tag : nat).

(** [tea.Cmd]: [nil], [tea.Quit], or some other command of a widget. *)
Inductive Cmd : Type :=
| Nil
| Quit
| OtherCmd (tag : nat).

End tea.

(* ===================================================================== *)
(** ** Key bindings ([bubbles/key] and keys.go) *)

Module key.

Record Binding : Type := NewBinding { Keys : list string; Enabled : bool }.

(** [key.Matches(msg, b)]: the key's string is one of the binding's keys
    and the binding is enabled. *)
Definition Matches (k : string) (b : Binding) : bool :=
  existsb (fun v => String.eqb k v && Enabled b) (Keys b).

Definition WithKeys (ks : list string) : Binding :=
  {| Keys := ks; Enabled := true |}.

End key.

Record keyMap : Type := {
  Up : key.Binding;
  Down : key.Binding;
  Enter : key.Binding;
  Back : key.Binding;
  Quit : key.Binding;
  Search : key.Binding;
  Help : key.Binding
}.

(** Modelled from the spec: keys.go (the declaration of [defaultKeyMap]) is
    not among the sources.  The spec names a quit key, a help-toggle key and
    a back key; the key strings bound to them are the ones keys_test.go
    asserts of [defaultKeyMap] (TestDefaultKeyMapBindings). *)
Definition defaultKeyMap : keyMap := {|
  Up := key.WithKeys ["up"; "k"];
  Down := key.WithKeys ["down"; "j"];
  Enter := key.WithKeys ["enter"];
  Back := key.WithKeys ["esc"; "backspace"];
  Quit := key.WithKeys ["q"; "ctrl+c"];
  Search := key.WithKeys ["/"];
  Help := key.WithKeys ["?"]
|}.

(* ===================================================================== *)
(** ** Errors (services.go) *)

#[local] Set Warnings "-register-all".

(** Go [error] values as the package sees them: a plain error
    ([errors.New]), a [*PermissionError] with its optional cause, or an
    error of another type wrapping a cause ([Unwrap]). *)
Inductive error : Type :=
| errors_New (text : string)
| PermissionError (Err : option error)
| wrapError (text : string) (cause : error).

(** The [Error()] method. *)
Fixpoint Error (e : error) : string :=
  match e with
  | errors_New text => text
  | PermissionError (Some cause) => "insufficient permissions: " ++ Error cause
  | PermissionError None => "insufficient permissions"
  | wrapError text _ => text
  end.

(** [errors.As(err, &permErr)] along the [Unwrap] chain. *)
Fixpoint errors_As_PermissionError (e : error) : bool :=
  match e with
  | errors_New _ => false
  | PermissionError _ => true
  | wrapError _ cause => errors_As_PermissionError cause
  end.

(** [IsPermissionError]; [None] is the [nil] error. *)
Definition IsPermissionError (err : option error) : bool :=
  match err with
  | None => false
  | Some e => errors_As_PermissionError e
  end.

(* ===================================================================== *)
(** ** Service data (services.go) *)

Module ProgramInfo.
Record t : Type := {
  ID : N;
  Type_ : string;
  Name : string;
  Tag : string;
  GPL : bool;
  LoadedAt : string;
  UID : N;
  BytesXlated : N;
  BytesJIT : N;
  MemLock : N;
  MapIDs : list N;
  Pinned : bool;
  PinnedPaths : list string
}.
End ProgramInfo.

Module MapInfo.
Record t : Type := {
  ID : N;
  Type_ : string;
  Name : string;
  KeySize : N;
  ValueSize : N;
  MaxEntries : N;
  Flags : N;
  MemLock : N;
  LoadedAt : string;
  UID : N;
  Pinned : bool;
  PinnedPaths : list string
}.
End MapInfo.

Module MapEntry.
Record t : Type := { Key : list byte; Value : list byte }.
End MapEntry.

(** The service interfaces.  A call returns the Go pair (value, error);
    a [nil] slice is the empty list and a [nil] pointer is [None]. *)
Module ProgService.
Record t : Type := {
  List : list ProgramInfo.t * option error;
  Get : N -> option ProgramInfo.t * option error
}.
End ProgService.

Module MapsService.
Record t : Type := {
  List : list MapInfo.t * option error;
  Get : N -> option MapInfo.t * option error;
  Dump : N -> list MapEntry.t * option error
}.
End MapsService.

(* ===================================================================== *)
(** ** The widget and style libraries, as interfaces *)

Module bubbles_list.

(** [list.FilterState]. *)
Inductive FilterState : Type := Unfiltered | Filtering | FilterApplied.

Definition FilterState_eqb (a b : FilterState) : bool :=
  match a, b with
  | Unfiltered, Unfiltered => true
  | Filtering, Filtering => true
  | FilterApplied, FilterApplied => true
  | _, _ => false
  end.

(** [list.DefaultItem]: what an item must provide. *)
Class Item (A : Type) : Type := {
  FilterValue : A -> string;
  Title : A -> string;
  Description : A -> string
}.

(** The settings the package applies to a fresh list. *)
Record Config : Type := {
  cfgTitle : string;
  ShowStatusBar : bool;
  FilteringEnabled : bool;
  ShowHelp : bool
}.

(** [list.Model] holding items of type [A] (each list of the package
    holds items of one Go type, so that the type assertion on
    [SelectedItem()] succeeds exactly when an item is selected). *)
Class Widget : Type := {
  Model : Type -> Type;
  New : forall A, Item A -> list A -> Config -> Z -> Z -> Model A;
  SetItems : forall A, Item A -> list A -> Model A -> Model A;
  Items : forall A, Model A -> list A;
  SelectedItem : forall A, Item A -> Model A -> option A;
  Update : forall A, Item A -> Model A -> tea.Msg -> Model A * tea.Cmd;
  View : forall A, Item A -> Model A -> string;
  SetSize : forall A, Z -> Z -> Model A -> Model A;
  GetFilterState : forall A, Model A -> FilterState;
  ResetFilter : forall A, Item A -> Model A -> Model A
}.

Arguments Model {Widget} A.
Arguments New {Widget} {A} {_} items cfg width height.
Arguments SetItems {Widget} {A} {_} items l.
Arguments Items {Widget} {A} l.
Arguments SelectedItem {Widget} {A} {_} l.
Arguments Update {Widget} {A} {_} l msg.
Arguments View {Widget} {A} {_} l.
Arguments SetSize {Widget} {A} width height l.
Arguments GetFilterState {Widget} {A} l.
Arguments ResetFilter {Widget} {A} {_} l.

(** What the navigation invariants use of the list widget. *)
Class Laws (W : Widget) : Prop := {
  New_Items : forall A (I : Item A) xs cfg w h,
    Items (New xs cfg w h) = xs;
  New_FilterState : forall A (I : Item A) xs cfg w h,
    GetFilterState (New xs cfg w h) = Unfiltered;
  SetItems_Items : forall A (I : Item A) xs (l : Model A),
    Items (SetItems xs l) = xs;
  SetItems_FilterState : forall A (I : Item A) xs (l : Model A),
    GetFilterState (SetItems xs l) = GetFilterState l;
  SetSize_Items : forall A w h (l : Model A),
    Items (SetSize w h l) = Items l;
  SetSize_FilterState : forall A w h (l : Model A),
    GetFilterState (SetSize w h l) = GetFilterState l;
  ResetFilter_Items : forall A (I : Item A) (l : Model A),
    Items (ResetFilter l) = Items l;
  ResetFilter_FilterState : forall A (I : Item A) (l : Model A),
    GetFilterState (ResetFilter l) = Unfiltered;
  Update_Items : forall A (I : Item A) (l : Model A) msg,
    Items (fst (Update l msg)) = Items l;
  Update_FilterState : forall A (I : Item A) (l : Model A) msg,
    (forall k, msg <> tea.KeyMsg k) ->
    GetFilterState (fst (Update l msg)) = Filtering ->
    GetFilterState l = Filtering;
  SelectedItem_In : forall A (I : Item A) (l : Model A) x,
    SelectedItem l = Some x -> In x (Items l)
}.

End bubbles_list.

Module bubbles_viewport.

(** [viewport.Model]; [zero] is the Go zero value of the struct. *)
Class Widget : Type := {
  Model : Type;
  zero : Model;
  New : Z -> Z -> Model;
  SetContent : string -> Model -> Model;
  set_Width : Z -> Model -> Model;
  set_Height : Z -> Model -> Model;
  Update : Model -> tea.Msg -> Model * tea.Cmd;
  View : Model -> string
}.

End bubbles_viewport.

(** styles.go: each style is used through [Render] only. *)
Class Theme : Type := {
  titleStyle : string -> string;
  selectedStyle : string -> string;
  helpStyle : string -> string;
  errorStyle : string -> string;
  normalStyle : string -> string;
  dimStyle : string -> string;
  labelStyle : string -> string;
  valueStyle : string -> string
}.

(** [ViewState] (tui.go): the six named constants.  The Go type is an
    [int]; the package builds no other value of it. *)
Inductive ViewState : Type :=
| ViewMenu
| ViewProgList
| ViewProgDetail
| ViewMapList
| ViewMapDetail
| ViewMapDump.

Definition ViewState_eqb (a b : ViewState) : bool :=
  match a, b with
  | ViewMenu, ViewMenu => true
  | ViewProgList, ViewProgList => true
  | ViewProgDetail, ViewProgDetail => true
  | ViewMapList, ViewMapList => true
  | ViewMapDetail, ViewMapDetail => true
  | ViewMapDump, ViewMapDump => true
  | _, _ => false
  end.

Definition ViewState_String (v : ViewState) : string :=
  match v with
  | ViewMenu => "Menu"
  | ViewProgList => "Programs"
  | ViewProgDetail => "Program Detail"
  | ViewMapList => "Maps"
  | ViewMapDetail => "Map Detail"
  | ViewMapDump => "Map Dump"
  end.

(* ===================================================================== *)
(** ** The menu (menu.go) *)

Record menuItem : Type := {
  title : string;
  description : string;
  target : ViewState
}.

#[export] Instance menuItem_Item : bubbles_list.Item menuItem := {|
  bubbles_list.FilterValue := title;
  bubbles_list.Title := title;
  bubbles_list.Description := description
|}.

(** The height left to a list once title and help bar are taken off. *)
Definition listHeight (height : Z) : Z :=
  let listHeight := height - 6 in
  if (listHeight <? 3)%Z then 3 else listHeight.

Module menuModel.
Section WithWidgets.
Context {LW : bubbles_list.Widget}.

Record t : Type := { list_ : bubbles_list.Model menuItem }.

Definition menuItems : list menuItem :=
  [ {| title := "Programs";
       description := "Browse loaded BPF programs";
       target := ViewProgList |};
    {| title := "Maps";
       description := "Browse loaded BPF maps";
       target := ViewMapList |} ].

Definition newMenuModel (width height : Z) : t :=
  {| list_ := bubbles_list.New menuItems
               {| bubbles_list.cfgTitle := "BPF TUI Explorer";
                  bubbles_list.ShowStatusBar := false;
                  bubbles_list.FilteringEnabled := false;
                  bubbles_list.ShowHelp := false |}
               width (listHeight height) |}.

(** The tail of [Update]: the message goes to the list. *)
Definition toList (m : t) (msg : tea.Msg) : t * tea.Cmd * option ViewState :=
  let '(l, cmd) := bubbles_list.Update (list_ m) msg in
  ({| list_ := l |}, cmd, None).

Definition Update (m : t) (msg : tea.Msg) : t * tea.Cmd * option ViewState :=
  match msg with
  | tea.KeyMsg k =>
      if String.eqb k "enter" then
        match bubbles_list.SelectedItem (list_ m) with
        | Some item => (m, tea.Nil, Some (target item))
        | None => toList m msg
        end
      else toList m msg
  | _ => toList m msg
  end.

Definition View (m : t) : string := bubbles_list.View (list_ m).

Definition SetSize (width height : Z) (m : t) : t :=
  {| list_ := bubbles_list.SetSize width (listHeight height) (list_ m) |}.

Definition SelectedItem (m : t) : option menuItem :=
  bubbles_list.SelectedItem (list_ m).

End WithWidgets.
End menuModel.

(* ===================================================================== *)
(** ** The program list (proglist.go) *)

Record progItem : Type := { progItem_info : ProgramInfo.t }.

#[export] Instance progItem_Item : bubbles_list.Item progItem := {|
  bubbles_list.FilterValue := fun i => ProgramInfo.Name (progItem_info i);
  bubbles_list.Title := fun i =>
    "[" ++ sprintf_d (ProgramInfo.ID (progItem_info i)) ++ "] "
        ++ ProgramInfo.Name (progItem_info i);
  bubbles_list.Description := fun i =>
    "Type: " ++ ProgramInfo.Type_ (progItem_info i)
             ++ " | Tag: " ++ ProgramInfo.Tag (progItem_info i)
|}.

Module progListModel.
Section WithWidgets.
Context {LW : bubbles_list.Widget} {TH : Theme}.

Record t : Type := {
  list_ : bubbles_list.Model progItem;
  programs : list ProgramInfo.t;
  err : option error
}.

Definition newProgListModel (width height : Z) : t :=
  {| list_ := bubbles_list.New (@nil progItem)
               {| bubbles_list.cfgTitle := "BPF Programs";
                  bubbles_list.ShowStatusBar := true;
                  bubbles_list.FilteringEnabled := true;
                  bubbles_list.ShowHelp := false |}
               width (listHeight height);
     programs := [];
     err := None |}.

Definition SetPrograms (programs : list ProgramInfo.t) (m : t) : t :=
  {| list_ := bubbles_list.SetItems
               (map (fun prog => {| progItem_info := prog |}) programs) (list_ m);
     programs := programs;
     err := err m |}.

Definition toList (m : t) (msg : tea.Msg) : t * tea.Cmd * option ProgramInfo.t :=
  let '(l, cmd) := bubbles_list.Update (list_ m) msg in
  ({| list_ := l; programs := programs m; err := err m |}, cmd, None).

Definition Update (m : t) (msg : tea.Msg) : t * tea.Cmd * option ProgramInfo.t :=
  match msg with
  | tea.KeyMsg k =>
      if bubbles_list.FilterState_eqb
           (bubbles_list.GetFilterState (list_ m)) bubbles_list.Filtering
      then toList m msg
      else if String.eqb k "enter" then
        match bubbles_list.SelectedItem (list_ m) with
        | Some item => (m, tea.Nil, Some (progItem_info item))
        | None => toList m msg
        end
      else toList m msg
  | _ => toList m msg
  end.

Definition View (m : t) : string :=
  if (List.length (programs m) =? 0)%nat
     && (match err m with None => true | Some _ => false end)
  then titleStyle "BPF Programs" ++ nl ++ nl ++ dimStyle "No BPF programs loaded"
  else match err m with
       | Some e =>
           titleStyle "BPF Programs" ++ nl ++ nl
             ++ errorStyle ("Error: " ++ Error e)
       | None => bubbles_list.View (list_ m)
       end.

Definition SetSize (width height : Z) (m : t) : t :=
  {| list_ := bubbles_list.SetSize width (listHeight height) (list_ m);
     programs := programs m;
     err := err m |}.

Definition SetError (e : option error) (m : t) : t :=
  {| list_ := list_ m; programs := programs m; err := e |}.

Definition SelectedItem (m : t) : option ProgramInfo.t :=
  match bubbles_list.SelectedItem (list_ m) with
  | Some item => Some (progItem_info item)
  | None => None
  end.

Definition IsFiltering (m : t) : bool :=
  bubbles_list.FilterState_eqb
    (bubbles_list.GetFilterState (list_ m)) bubbles_list.Filtering.

Definition ResetFilter (m : t) : t :=
  {| list_ := bubbles_list.ResetFilter (list_ m);
     programs := programs m;
     err := err m |}.

End WithWidgets.
End progListModel.

(* ===================================================================== *)
(** ** The map list (maplist.go) *)

Record mapItem : Type := { mapItem_info : MapInfo.t }.

#[export] Instance mapItem_Item : bubbles_list.Item mapItem := {|
  bubbles_list.FilterValue := fun i => MapInfo.Name (mapItem_info i);
  bubbles_list.Title := fun i =>
    "[" ++ sprintf_d (MapInfo.ID (mapItem_info i)) ++ "] "
        ++ MapInfo.Name (mapItem_info i);
  bubbles_list.Description := fun i =>
    "Type: " ++ MapInfo.Type_ (mapItem_info i)
      ++ " | Key: " ++ sprintf_d (MapInfo.KeySize (mapItem_info i))
      ++ " | Value: " ++ sprintf_d (MapInfo.ValueSize (mapItem_info i))
      ++ " | Max: " ++ sprintf_d (MapInfo.MaxEntries (mapItem_info i))
|}.

Module mapListModel.
Section WithWidgets.
Context {LW : bubbles_list.Widget} {TH : Theme}.

Record t : Type := {
  list_ : bubbles_list.Model mapItem;
  maps : list MapInfo.t;
  err : option error
}.

Definition newMapListModel (width height : Z) : t :=
  {| list_ := bubbles_list.New (@nil mapItem)
               {| bubbles_list.cfgTitle := "BPF Maps";
                  bubbles_list.ShowStatusBar := true;
                  bubbles_list.FilteringEnabled := true;
                  bubbles_list.ShowHelp := false |}
               width (listHeight height);
     maps := [];
     err := None |}.

Definition SetMaps (maps : list MapInfo.t) (m : t) : t :=
  {| list_ := bubbles_list.SetItems
               (map (fun mapInfo => {| mapItem_info := mapInfo |}) maps) (list_ m);
     maps := maps;
     err := err m |}.

Definition toList (m : t) (msg : tea.Msg) : t * tea.Cmd * option MapInfo.t :=
  let '(l, cmd) := bubbles_list.Update (list_ m) msg in
  ({| list_ := l; maps := maps m; err := err m |}, cmd, None).

Definition Update (m : t) (msg : tea.Msg) : t * tea.Cmd * option MapInfo.t :=
  match msg with
  | tea.KeyMsg k =>
      if bubbles_list.FilterState_eqb
           (bubbles_list.GetFilterState (list_ m)) bubbles_list.Filtering
      then toList m msg
      else if String.eqb k "enter" then
        match bubbles_list.SelectedItem (list_ m) with
        | Some item => (m, tea.Nil, Some (mapItem_info item))
        | None => toList m msg
        end
      else toList m msg
  | _ => toList m msg
  end.

Definition View (m : t) : string :=
  if (List.length (maps m) =? 0)%nat
     && (match err m with None => true | Some _ => false end)
  then titleStyle "BPF Maps" ++ nl ++ nl ++ dimStyle "No BPF maps loaded"
  else match err m with
       | Some e =>
           titleStyle "BPF Maps" ++ nl ++ nl
             ++ errorStyle ("Error: " ++ Error e)
       | None => bubbles_list.View (list_ m)
       end.

Definition SetSize (width height : Z) (m : t) : t :=
  {| list_ := bubbles_list.SetSize width (listHeight height) (list_ m);
     maps := maps m;
     err := err m |}.

Definition SetError (e : option error) (m : t) : t :=
  {| list_ := list_ m; maps := maps m; err := e |}.

Definition SelectedItem (m : t) : option MapInfo.t :=
  match bubbles_list.SelectedItem (list_ m) with
  | Some item => Some (mapItem_info item)
  | None => None
  end.

Definition IsFiltering (m : t) : bool :=
  bubbles_list.FilterState_eqb
    (bubbles_list.GetFilterState (list_ m)) bubbles_list.Filtering.

Definition ResetFilter (m : t) : t :=
  {| list_ := bubbles_list.ResetFilter (list_ m);
     maps := maps m;
     err := err m |}.

End WithWidgets.
End mapListModel.

(* ===================================================================== *)
(** ** The program detail view (progdetail.go) *)

(** [len(s)] as a Go [int]. *)
Definition len {A : Type} (s : list A) : Z := Z.of_nat (List.length s).

Module progDetailModel.
Section WithWidgets.
Context {VW : bubbles_viewport.Widget} {TH : Theme}.

Record t : Type := {
  program : option ProgramInfo.t;
  viewport : bubbles_viewport.Model;
  mapIDs : list N;
  cursor : Z;
  width : Z;
  height : Z;
  ready : bool
}.

Definition newProgDetailModel (width height : Z) : t :=
  {| program := None;
     viewport := bubbles_viewport.zero;
     mapIDs := [];
     cursor := -1;
     width := width;
     height := height;
     ready := false |}.

Definition set_cursor (c : Z) (m : t) : t :=
  {| program := program m; viewport := viewport m; mapIDs := mapIDs m;
     cursor := c; width := width m; height := height m; ready := ready m |}.

Definition set_viewport (v : bubbles_viewport.Model) (m : t) : t :=
  {| program := program m; viewport := v; mapIDs := mapIDs m;
     cursor := cursor m; width := width m; height := height m;
     ready := ready m |}.

(** The loop over [m.mapIDs] in [renderContent]; [i] is the index of
    the head of [ids]. *)
Fixpoint renderMapIDs (i : Z) (ids : list N) (cursor : Z) : string :=
  match ids with
  | [] => ""
  | mapID :: rest =>
      (if i =? cursor
       then selectedStyle ("▶ Map ID: " ++ sprintf_d mapID)
       else normalStyle ("  Map ID: " ++ sprintf_d mapID))
      ++ nl ++ renderMapIDs (i + 1) rest cursor
  end.

Definition renderContent (m : t) : string :=
  match program m with
  | None => dimStyle "No program selected"
  | Some p =>
      labelStyle "ID:          " ++ valueStyle (sprintf_d (ProgramInfo.ID p)) ++ nl
      ++ labelStyle "Name:        " ++ valueStyle (ProgramInfo.Name p) ++ nl
      ++ labelStyle "Type:        " ++ valueStyle (ProgramInfo.Type_ p) ++ nl
      ++ labelStyle "Tag:         " ++ valueStyle (ProgramInfo.Tag p) ++ nl
      ++ labelStyle "GPL:         "
      ++ valueStyle (if ProgramInfo.GPL p then "Yes" else "No") ++ nl
      ++ labelStyle "Loaded At:   " ++ valueStyle (ProgramInfo.LoadedAt p) ++ nl
      ++ labelStyle "UID:         " ++ valueStyle (sprintf_d (ProgramInfo.UID p)) ++ nl
      ++ labelStyle "Bytes Xlated:"
      ++ valueStyle (sprintf_d (ProgramInfo.BytesXlated p)) ++ nl
      ++ labelStyle "Bytes JIT:   "
      ++ valueStyle (sprintf_d (ProgramInfo.BytesJIT p)) ++ nl
      ++ labelStyle "MemLock:     "
      ++ valueStyle (sprintf_d (ProgramInfo.MemLock p)) ++ nl
      ++ nl ++ titleStyle "Associated Maps" ++ nl
      ++ (if len (mapIDs m) =? 0
          then dimStyle "No associated maps" ++ nl
          else renderMapIDs 0 (mapIDs m) (cursor m) ++ nl
               ++ dimStyle "Press Enter to view map details")
  end.

Definition updateViewport (m : t) : t :=
  match program m with
  | None => m
  | Some _ =>
      let content := renderContent m in
      if negb (ready m) then
        {| program := program m;
           viewport := bubbles_viewport.SetContent content
                         (bubbles_viewport.New (width m) (height m - 4));
           mapIDs := mapIDs m; cursor := cursor m;
           width := width m; height := height m;
           ready := true |}
      else set_viewport (bubbles_viewport.SetContent content (viewport m)) m
  end.

Definition SetProgram (prog : option ProgramInfo.t) (m : t) : t :=
  let hasMaps :=
    match prog with
    | Some p => 0 <? len (ProgramInfo.MapIDs p)
    | None => false
    end in
  updateViewport
    {| program := prog;
       viewport := viewport m;
       mapIDs := match prog with
                 | Some p => if hasMaps then ProgramInfo.MapIDs p else []
                 | None => []
                 end;
       cursor := if hasMaps then 0 else -1;
       width := width m; height := height m; ready := ready m |}.

Definition SetSize (width height : Z) (m : t) : t :=
  updateViewport
    {| program := program m;
       viewport := if ready m
                   then bubbles_viewport.set_Height (height - 4)
                          (bubbles_viewport.set_Width width (viewport m))
                   else viewport m;
       mapIDs := mapIDs m; cursor := cursor m;
       width := width; height := height; ready := ready m |}.

(** The tail of [Update]: the message scrolls the viewport. *)
Definition toViewport (m : t) (msg : tea.Msg) : t * tea.Cmd * option N :=
  let '(v, cmd) := bubbles_viewport.Update (viewport m) msg in
  (set_viewport v m, cmd, None).

Definition Update (m : t) (msg : tea.Msg) : t * tea.Cmd * option N :=
  match msg with
  | tea.KeyMsg k =>
      if String.eqb k "up" || String.eqb k "k" then
        if (0 <? len (mapIDs m)) && (0 <? cursor m)
        then (updateViewport (set_cursor (cursor m - 1) m), tea.Nil, None)
        else (m, tea.Nil, None)
      else if String.eqb k "down" || String.eqb k "j" then
        if (0 <? len (mapIDs m)) && (cursor m <? len (mapIDs m) - 1)
        then (updateViewport (set_cursor (cursor m + 1) m), tea.Nil, None)
        else (m, tea.Nil, None)
      else if String.eqb k "enter" then
        if (0 <? len (mapIDs m)) && (0 <=? cursor m)
           && (cursor m <? len (mapIDs m))
        then (m, tea.Nil, Some (nth (Z.to_nat (cursor m)) (mapIDs m) 0%N))
        else (m, tea.Nil, None)
      else toViewport m msg
  | _ => toViewport m msg
  end.

Definition View (m : t) : string :=
  match program m with
  | None => titleStyle "Program Details" ++ nl ++ nl
            ++ dimStyle "No program selected"
  | Some p =>
      let title := titleStyle ("Program: " ++ ProgramInfo.Name p) in
      if negb (ready m) then title ++ nl ++ nl ++ "Loading..."
      else title ++ nl ++ nl ++ bubbles_viewport.View (viewport m)
  end.

Definition HasMaps (m : t) : bool := 0 <? len (mapIDs m).

Definition SelectedMapID (m : t) : option N :=
  if (0 <? len (mapIDs m)) && (0 <=? cursor m) && (cursor m <? len (mapIDs m))
  then Some (nth (Z.to_nat (cursor m)) (mapIDs m) 0%N)
  else None.

End WithWidgets.
End progDetailModel.

(* ===================================================================== *)
(** ** The map detail view (mapdetail.go) *)

Module mapDetailModel.
Section WithWidgets.
Context {VW : bubbles_viewport.Widget} {TH : Theme}.

Record t : Type := {
  mapInfo : option MapInfo.t;
  viewport : bubbles_viewport.Model;
  cursor : Z;
  width : Z;
  height : Z;
  ready : bool
}.

Definition newMapDetailModel (width height : Z) : t :=
  {| mapInfo := None;
     viewport := bubbles_viewport.zero;
     cursor := 0;
     width := width;
     height := height;
     ready := false |}.

Definition set_viewport (v : bubbles_viewport.Model) (m : t) : t :=
  {| mapInfo := mapInfo m; viewport := v; cursor := cursor m;
     width := width m; height := height m; ready := ready m |}.

Definition renderContent (m : t) : string :=
  match mapInfo m with
  | None => dimStyle "No map selected"
  | Some mi =>
      labelStyle "ID:          " ++ valueStyle (sprintf_d (MapInfo.ID mi)) ++ nl
      ++ labelStyle "Name:        " ++ valueStyle (MapInfo.Name mi) ++ nl
      ++ labelStyle "Type:        " ++ valueStyle (MapInfo.Type_ mi) ++ nl
      ++ labelStyle "Key Size:    "
      ++ valueStyle (sprintf_d (MapInfo.KeySize mi)) ++ nl
      ++ labelStyle "Value Size:  "
      ++ valueStyle (sprintf_d (MapInfo.ValueSize mi)) ++ nl
      ++ labelStyle "Max Entries: "
      ++ valueStyle (sprintf_d (MapInfo.MaxEntries mi)) ++ nl
      ++ labelStyle "Flags:       " ++ valueStyle (sprintf_d (MapInfo.Flags mi)) ++ nl
      ++ labelStyle "MemLock:     "
      ++ valueStyle (sprintf_d (MapInfo.MemLock mi)) ++ nl
      ++ labelStyle "Loaded At:   " ++ valueStyle (MapInfo.LoadedAt mi) ++ nl
      ++ labelStyle "UID:         " ++ valueStyle (sprintf_d (MapInfo.UID mi)) ++ nl
      ++ nl ++ titleStyle "Actions" ++ nl
      ++ (if cursor m =? 0
          then selectedStyle "▶ Dump Contents"
          else normalStyle "  Dump Contents")
      ++ nl ++ nl ++ dimStyle "Press Enter to dump map contents"
  end.

Definition updateViewport (m : t) : t :=
  match mapInfo m with
  | None => m
  | Some _ =>
      let content := renderContent m in
      if negb (ready m) then
        {| mapInfo := mapInfo m;
           viewport := bubbles_viewport.SetContent content
                         (bubbles_viewport.New (width m) (height m - 4));
           cursor := cursor m; width := width m; height := height m;
           ready := true |}
      else set_viewport (bubbles_viewport.SetContent content (viewport m)) m
  end.

Definition SetMap (mapInfo : option MapInfo.t) (m : t) : t :=
  updateViewport
    {| mapInfo := mapInfo; viewport := viewport m; cursor := 0;
       width := width m; height := height m; ready := ready m |}.

Definition SetSize (width height : Z) (m : t) : t :=
  updateViewport
    {| mapInfo := mapInfo m;
       viewport := if ready m
                   then bubbles_viewport.set_Height (height - 4)
                          (bubbles_viewport.set_Width width (viewport m))
                   else viewport m;
       cursor := cursor m; width := width; height := height;
       ready := ready m |}.

Definition toViewport (m : t) (msg : tea.Msg) : t * tea.Cmd * bool :=
  let '(v, cmd) := bubbles_viewport.Update (viewport m) msg in
  (set_viewport v m, cmd, false).

Definition Update (m : t) (msg : tea.Msg) : t * tea.Cmd * bool :=
  match msg with
  | tea.KeyMsg k =>
      if String.eqb k "up" || String.eqb k "k" then (m, tea.Nil, false)
      else if String.eqb k "down" || String.eqb k "j" then (m, tea.Nil, false)
      else if String.eqb k "enter" then
        match mapInfo m with
        | Some _ => if cursor m =? 0 then (m, tea.Nil, true)
                    else (m, tea.Nil, false)
        | None => (m, tea.Nil, false)
        end
      else toViewport m msg
  | _ => toViewport m msg
  end.

Definition View (m : t) : string :=
  match mapInfo m with
  | None => titleStyle "Map Details" ++ nl ++ nl ++ dimStyle "No map selected"
  | Some mi =>
      let title := titleStyle ("Map: " ++ MapInfo.Name mi) in
      if negb (ready m) then title ++ nl ++ nl ++ "Loading..."
      else title ++ nl ++ nl ++ bubbles_viewport.View (viewport m)
  end.

Definition GetMapInfo (m : t) : option MapInfo.t := mapInfo m.

Definition GetMapID (m : t) : N :=
  match mapInfo m with
  | Some mi => MapInfo.ID mi
  | None => 0%N
  end.

End WithWidgets.
End mapDetailModel.

(* ===================================================================== *)
(** ** The map dump view (mapdump.go) *)

Module mapDumpModel.
Section WithWidgets.
Context {VW : bubbles_viewport.Widget} {TH : Theme}.

Record t : Type := {
  mapID : N;
  mapName : string;
  entries : list MapEntry.t;
  viewport : bubbles_viewport.Model;
  width : Z;
  height : Z;
  ready : bool;
  loading : bool;
  err : option error
}.

Definition newMapDumpModel (width height : Z) : t :=
  {| mapID := 0%N; mapName := ""; entries := [];
     viewport := bubbles_viewport.zero;
     width := width; height := height;
     ready := false; loading := false; err := None |}.

Definition set_viewport (v : bubbles_viewport.Model) (m : t) : t :=
  {| mapID := mapID m; mapName := mapName m; entries := entries m;
     viewport := v; width := width m; height := height m;
     ready := ready m; loading := loading m; err := err m |}.

(** The loop of [renderContent] over [m.entries]: [i] is the index of
    the head of [es] and [n] is [len(m.entries)]. *)
Fixpoint renderEntries (n i : Z) (es : list MapEntry.t) : string :=
  match es with
  | [] => ""
  | entry :: rest =>
      labelStyle "Key:   " ++ valueStyle (formatHex (MapEntry.Key entry)) ++ nl
      ++ labelStyle "Value: " ++ valueStyle (formatHex (MapEntry.Value entry)) ++ nl
      ++ (if i <? n - 1 then dimStyle "---" ++ nl else "")
      ++ renderEntries n (i + 1) rest
  end.

Definition renderContent (m : t) : string :=
  match err m with
  | Some e => errorStyle ("Error: " ++ Error e)
  | None =>
      if loading m then dimStyle "Loading map contents..."
      else if len (entries m) =? 0 then dimStyle "Map contains no entries"
      else renderEntries (len (entries m)) 0 (entries m)
  end.

Definition updateViewport (m : t) : t :=
  let content := renderContent m in
  if negb (ready m) then
    {| mapID := mapID m; mapName := mapName m; entries := entries m;
       viewport := bubbles_viewport.SetContent content
                     (bubbles_viewport.New (width m) (height m - 4));
       width := width m; height := height m;
       ready := true; loading := loading m; err := err m |}
  else set_viewport (bubbles_viewport.SetContent content (viewport m)) m.

Definition SetMapDump (mapID : N) (mapName : string)
    (entries : list MapEntry.t) (m : t) : t :=
  updateViewport
    {| mapID := mapID; mapName := mapName; entries := entries;
       viewport := viewport m; width := width m; height := height m;
       ready := ready m; loading := false; err := None |}.

Definition SetError (e : option error) (m : t) : t :=
  updateViewport
    {| mapID := mapID m; mapName := mapName m; entries := entries m;
       viewport := viewport m; width := width m; height := height m;
       ready := ready m; loading := false; err := e |}.


Definition SetSize (width height : Z) (m : t) : t :=
  updateViewport
    {| mapID := mapID m; mapName := mapName m; entries := entries m;
       viewport := if ready m
                   then bubbles_viewport.set_Height (height - 4)
                          (bubbles_viewport.set_Width width (viewport m))
                   else viewport m;
       width := width; height := height;
       ready := ready m; loading := loading m; err := err m |}.

Definition Update (m : t) (msg : tea.Msg) : t * tea.Cmd :=
  let '(v, cmd) := bubbles_viewport.Update (viewport m) msg in
  (set_viewport v m, cmd).

Definition View (m : t) : string :=
  let title :=
    if negb (String.eqb (mapName m) "") then
      titleStyle ("Map Dump: " ++ mapName m ++ " (ID: "
                  ++ sprintf_d (mapID m) ++ ")")
    else if negb (N.eqb (mapID m) 0) then
      titleStyle ("Map Dump: ID " ++ sprintf_d (mapID m))
    else titleStyle "Map Dump" in
  if negb (ready m) then title ++ nl ++ nl ++ "Loading..."
  else title ++ nl ++ nl ++ bubbles_viewport.View (viewport m).

Definition GetMapID (m : t) : N := mapID m.

End WithWidgets.
End mapDumpModel.

(* ===================================================================== *)
(** ** The root model (tui.go) *)

Section Root.
Context {LW : bubbles_list.Widget} {VW : bubbles_viewport.Widget} {TH : Theme}.

Record Model : Type := {
  state : ViewState;
  history : list ViewState;
  progSvc : option ProgService.t;
  mapsSvc : option MapsService.t;
  menu : menuModel.t;
  progList : progListModel.t;
  progDetail : progDetailModel.t;
  mapList : mapListModel.t;
  mapDetail : mapDetailModel.t;
  mapDump : mapDumpModel.t;
  width : Z;
  height : Z;
  err : option error;
  keys : keyMap;
  showHelp : bool
}.

Definition NewModel (progSvc : option ProgService.t)
    (mapsSvc : option MapsService.t) : Model :=
  {| state := ViewMenu;
     history := [];
     progSvc := progSvc;
     mapsSvc := mapsSvc;
     menu := menuModel.newMenuModel 80 24;
     progList := progListModel.newProgListModel 80 24;
     progDetail := progDetailModel.newProgDetailModel 80 24;
     mapList := mapListModel.newMapListModel 80 24;
     mapDetail := mapDetailModel.newMapDetailModel 80 24;
     mapDump := mapDumpModel.newMapDumpModel 80 24;
     width := 0;
     height := 0;
     err := None;
     keys := defaultKeyMap;
     showHelp := false |}.

(** Assignments to single fields of the model. *)
Definition set_state (v : ViewState) (m : Model) : Model :=
  {| state := v; history := history m; progSvc := progSvc m;
     mapsSvc := mapsSvc m; menu := menu m; progList := progList m;
     progDetail := progDetail m; mapList := mapList m;
     mapDetail := mapDetail m; mapDump := mapDump m; width := width m;
     height := height m; err := err m; keys := keys m;
     showHelp := showHelp m |}.

Definition set_history (v : list ViewState) (m : Model) : Model :=
  {| state := state m; history := v; progSvc := progSvc m;
     mapsSvc := mapsSvc m; menu := menu m; progList := progList m;
     progDetail := progDetail m; mapList := mapList m;
     mapDetail := mapDetail m; mapDump := mapDump m; width := width m;
     height := height m; err := err m; keys := keys m;
     showHelp := showHelp m |}.

Definition set_menu (v : menuModel.t) (m : Model) : Model :=
  {| state := state m; history := history m; progSvc := progSvc m;
     mapsSvc := mapsSvc m; menu := v; progList := progList m;
     progDetail := progDetail m; mapList := mapList m;
     mapDetail := mapDetail m; mapDump := mapDump m; width := width m;
     height := height m; err := err m; keys := keys m;
     showHelp := showHelp m |}.

Definition set_progList (v : progListModel.t) (m : Model) : Model :=
  {| state := state m; history := history m; progSvc := progSvc m;
     mapsSvc := mapsSvc m; menu := menu m; progList := v;
     progDetail := progDetail m; mapList := mapList m;
     mapDetail := mapDetail m; mapDump := mapDump m; width := width m;
     height := height m; err := err m; keys := keys m;
     showHelp := showHelp m |}.

Definition set_progDetail (v : progDetailModel.t) (m : Model) : Model :=
  {| state := state m; history := history m; progSvc := progSvc m;
     mapsSvc := mapsSvc m; menu := menu m; progList := progList m;
     progDetail := v; mapList := mapList m;
     mapDetail := mapDetail m; mapDump := mapDump m; width := width m;
     height := height m; err := err m; keys := keys m;
     showHelp := showHelp m |}.

Definition set_mapList (v : mapListModel.t) (m : Model) : Model :=
  {| state := state m; history := history m; progSvc := progSvc m;
     mapsSvc := mapsSvc m; menu := menu m; progList := progList m;
     progDetail := progDetail m; mapList := v;
     mapDetail := mapDetail m; mapDump := mapDump m; width := width m;
     height := height m; err := err m; keys := keys m;
     showHelp := showHelp m |}.

Definition set_mapDetail (v : mapDetailModel.t) (m : Model) : Model :=
  {| state := state m; history := history m; progSvc := progSvc m;
     mapsSvc := mapsSvc m; menu := menu m; progList := progList m;
     progDetail := progDetail m; mapList := mapList m;
     mapDetail := v; mapDump := mapDump m; width := width m;
     height := height m; err := err m; keys := keys m;
     showHelp := showHelp m |}.

Definition set_mapDump (v : mapDumpModel.t) (m : Model) : Model :=
  {| state := state m; history := history m; progSvc := progSvc m;
     mapsSvc := mapsSvc m; menu := menu m; progList := progList m;
     progDetail := progDetail m; mapList := mapList m;
     mapDetail := mapDetail m; mapDump := v; width := width m;
     height := height m; err := err m; keys := keys m;
     showHelp := showHelp m |}.

Definition set_err (v : option error) (m : Model) : Model :=
  {| state := state m; history := history m; progSvc := progSvc m;
     mapsSvc := mapsSvc m; menu := menu m; progList := progList m;
     progDetail := progDetail m; mapList := mapList m;
     mapDetail := mapDetail m; mapDump := mapDump m; width := width m;
     height := height m; err := v; keys := keys m;
     showHelp := showHelp m |}.

Definition set_showHelp (v : bool) (m : Model) : Model :=
  {| state := state m; history := history m; progSvc := progSvc m;
     mapsSvc := mapsSvc m; menu := menu m; progList := progList m;
     progDetail := progDetail m; mapList := mapList m;
     mapDetail := mapDetail m; mapDump := mapDump m; width := width m;
     height := height m; err := err m; keys := keys m;
     showHelp := v |}.

(** [pushState]: save the current state to the history, go to the new
    one. *)
Definition pushState (newState : ViewState) (m : Model) : Model :=
  set_state newState (set_history (history m ++ [state m])%list m).

(** [popState]: the model with the history shortened, and the state to
    return to; [ViewMenu] when the history is empty. *)
Definition popState (m : Model) : Model * ViewState :=
  if len (history m) =? 0 then (m, ViewMenu)
  else
    let lastIdx := len (history m) - 1 in
    let prevState := nth (Z.to_nat lastIdx) (history m) ViewMenu in
    (set_history (firstn (Z.to_nat lastIdx) (history m)) m, prevState).

Definition historyLen (m : Model) : Z := len (history m).

Definition clearHistory (m : Model) : Model := set_history [] m.

(** [checkPermissions]: the error to show, if any. *)
Definition checkPermissions (m : Model) : option error :=
  match progSvc m with
  | None => None
  | Some svc =>
      match snd (ProgService.List svc) with
      | Some e =>
          if IsPermissionError (Some e) then Some e
          else Some (PermissionError (Some e))
      | None => None
      end
  end.

(** [Init]: the method has a value receiver, so that its assignment to
    [m.err] is made on a copy; it returns the [nil] command. *)
Definition Init (m : Model) : tea.Cmd := tea.Nil.

Definition loadPrograms (m : Model) : Model :=
  let m := set_progList (progListModel.ResetFilter (progList m)) m in
  match progSvc m with
  | None => set_progList (progListModel.SetPrograms [] (progList m)) m
  | Some svc =>
      let '(programs, err) := ProgService.List svc in
      match err with
      | Some e => set_progList (progListModel.SetError (Some e) (progList m)) m
      | None => set_progList (progListModel.SetPrograms programs (progList m)) m
      end
  end.

Definition loadMaps (m : Model) : Model :=
  let m := set_mapList (mapListModel.ResetFilter (mapList m)) m in
  match mapsSvc m with
  | None => set_mapList (mapListModel.SetMaps [] (mapList m)) m
  | Some svc =>
      let '(maps, err) := MapsService.List svc in
      match err with
      | Some e => set_mapList (mapListModel.SetError (Some e) (mapList m)) m
      | None => set_mapList (mapListModel.SetMaps maps (mapList m)) m
      end
  end.

Definition loadMapByID (id : N) (m : Model) : Model :=
  match mapsSvc m with
  | None => m
  | Some svc =>
      let '(mapInfo, err) := MapsService.Get svc id in
      match err with
      | Some e => set_err (Some e) m
      | None => set_mapDetail (mapDetailModel.SetMap mapInfo (mapDetail m)) m
      end
  end.

Definition loadMapDump (id : N) (m : Model) : Model :=
  match mapsSvc m with
  | None => set_mapDump (mapDumpModel.SetMapDump id "" [] (mapDump m)) m
  | Some svc =>
      let mapName :=
        match mapDetailModel.GetMapInfo (mapDetail m) with
        | Some mapInfo =>
            if N.eqb (MapInfo.ID mapInfo) id then MapInfo.Name mapInfo else ""
        | None => ""
        end in
      let '(entries, err) := MapsService.Dump svc id in
      match err with
      | Some e => set_mapDump (mapDumpModel.SetError (Some e) (mapDump m)) m
      | None =>
          set_mapDump (mapDumpModel.SetMapDump id mapName entries (mapDump m)) m
      end
  end.

Definition handleMenuKeys (m : Model) (msg : tea.Msg) : Model * tea.Cmd :=
  let '(menu', cmd, targetView) := menuModel.Update (menu m) msg in
  let m := set_menu menu' m in
  match targetView with
  | Some targetView =>
      let m := pushState targetView m in
      (match targetView with
       | ViewProgList => loadPrograms m
       | ViewMapList => loadMaps m
       | _ => m
       end, cmd)
  | None => (m, cmd)
  end.

Definition handleProgListKeys (m : Model) (msg : tea.Msg) : Model * tea.Cmd :=
  let '(progList', cmd, selectedProg) := progListModel.Update (progList m) msg in
  let m := set_progList progList' m in
  match selectedProg with
  | Some prog =>
      let m := pushState ViewProgDetail m in
      (set_progDetail (progDetailModel.SetProgram (Some prog) (progDetail m)) m, cmd)
  | None => (m, cmd)
  end.

Definition handleProgDetailKeys (m : Model) (msg : tea.Msg) : Model * tea.Cmd :=
  let '(progDetail', cmd, selectedMapID) :=
    progDetailModel.Update (progDetail m) msg in
  let m := set_progDetail progDetail' m in
  match selectedMapID with
  | Some id => (loadMapByID id (pushState ViewMapDetail m), cmd)
  | None => (m, cmd)
  end.

Definition handleMapListKeys (m : Model) (msg : tea.Msg) : Model * tea.Cmd :=
  let '(mapList', cmd, selectedMap) := mapListModel.Update (mapList m) msg in
  let m := set_mapList mapList' m in
  match selectedMap with
  | Some mi =>
      let m := pushState ViewMapDetail m in
      (set_mapDetail (mapDetailModel.SetMap (Some mi) (mapDetail m)) m, cmd)
  | None => (m, cmd)
  end.

Definition handleMapDetailKeys (m : Model) (msg : tea.Msg) : Model * tea.Cmd :=
  let '(mapDetail', cmd, dumpSelected) :=
    mapDetailModel.Update (mapDetail m) msg in
  let m := set_mapDetail mapDetail' m in
  if dumpSelected then
    let m := pushState ViewMapDump m in
    (loadMapDump (mapDetailModel.GetMapID (mapDetail m)) m, cmd)
  else (m, cmd).

Definition handleMapDumpKeys (m : Model) (msg : tea.Msg) : Model * tea.Cmd :=
  let '(mapDump', cmd) := mapDumpModel.Update (mapDump m) msg in
  (set_mapDump mapDump' m, cmd).

(** [handleKeyMsg], last part: the key goes to the handler of the
    current view. *)
Definition handleViewKeys (m : Model) (msg : tea.Msg) : Model * tea.Cmd :=
  match state m with
  | ViewMenu => handleMenuKeys m msg
  | ViewProgList => handleProgListKeys m msg
  | ViewProgDetail => handleProgDetailKeys m msg
  | ViewMapList => handleMapListKeys m msg
  | ViewMapDetail => handleMapDetailKeys m msg
  | ViewMapDump => handleMapDumpKeys m msg
  end.

(** [handleKeyMsg], from "Handle back navigation" on. *)
Definition handleBackKey (m : Model) (k : string) : Model * tea.Cmd :=
  if key.Matches k (Back (keys m)) then
    if ViewState_eqb (state m) ViewProgList
       && progListModel.IsFiltering (progList m)
    then handleProgListKeys m (tea.KeyMsg k)
    else if ViewState_eqb (state m) ViewMapList
            && mapListModel.IsFiltering (mapList m)
    then handleMapListKeys m (tea.KeyMsg k)
    else if negb (ViewState_eqb (state m) ViewMenu) then
      let '(m, prevState) := popState m in
      (set_err None (set_state prevState m), tea.Nil)
    else (m, tea.Nil)
  else handleViewKeys m (tea.KeyMsg k).

(** [handleKeyMsg], from "If help is showing, any key closes it" on. *)
Definition handleHelpShowing (m : Model) (k : string) : Model * tea.Cmd :=
  if showHelp m then (set_showHelp false m, tea.Nil)
  else handleBackKey m k.

(** [handleKeyMsg], from "Handle help toggle" on. *)
Definition handleHelpKey (m : Model) (k : string) : Model * tea.Cmd :=
  if key.Matches k (Help (keys m)) then
    if ViewState_eqb (state m) ViewProgList
       && progListModel.IsFiltering (progList m)
    then handleHelpShowing m k
    else if ViewState_eqb (state m) ViewMapList
            && mapListModel.IsFiltering (mapList m)
    then handleHelpShowing m k
    else (set_showHelp (negb (showHelp m)) m, tea.Nil)
  else handleHelpShowing m k.

(** [handleKeyMsg]: the key [k] is the message's [String()]. *)
Definition handleKeyMsg (m : Model) (k : string) : Model * tea.Cmd :=
  if key.Matches k (Quit (keys m)) then
    if ViewState_eqb (state m) ViewProgList
       && progListModel.IsFiltering (progList m)
    then handleHelpKey m k
    else if ViewState_eqb (state m) ViewMapList
            && mapListModel.IsFiltering (mapList m)
    then handleHelpKey m k
    else (m, tea.Quit)
  else handleHelpKey m k.

Definition handleOtherMsg (m : Model) (msg : tea.Msg) : Model * tea.Cmd :=
  match state m with
  | ViewProgList =>
      let '(progList', cmd, _) := progListModel.Update (progList m) msg in
      (set_progList progList' m, cmd)
  | ViewMapList =>
      let '(mapList', cmd, _) := mapListModel.Update (mapList m) msg in
      (set_mapList mapList' m, cmd)
  | ViewMapDump =>
      let '(mapDump', cmd) := mapDumpModel.Update (mapDump m) msg in
      (set_mapDump mapDump' m, cmd)
  | _ => (m, tea.Nil)
  end.

(** [Update]. *)
Definition Update (m : Model) (msg : tea.Msg) : Model * tea.Cmd :=
  match msg with
  | tea.KeyMsg k => handleKeyMsg m k
  | tea.WindowSizeMsg Width Height =>
      ({| state := state m; history := history m; progSvc := progSvc m;
          mapsSvc := mapsSvc m;
          menu := menuModel.SetSize Width Height (menu m);
          progList := progListModel.SetSize Width Height (progList m);
          progDetail := progDetailModel.SetSize Width Height (progDetail m);
          mapList := mapListModel.SetSize Width Height (mapList m);
          mapDetail := mapDetailModel.SetSize Width Height (mapDetail m);
          mapDump := mapDumpModel.SetSize Width Height (mapDump m);
          width := Width; height := Height;
          err := err m; keys := keys m; showHelp := showHelp m |}, tea.Nil)
  | tea.OtherMsg _ => handleOtherMsg m msg
  end.

Definition renderError (m : Model) : string :=
  errorStyle ("Error: "
              ++ match err m with Some e => Error e | None => "<nil>" end
              ++ nl ++ nl ++ "Press 'q' to quit.").

Definition renderHelp (m : Model) : string :=
  let content :=
    "Navigation:" ++ nl
    ++ "  ↑/k      Move up" ++ nl
    ++ "  ↓/j      Move down" ++ nl
    ++ "  Enter    Select" ++ nl
    ++ match state m with
       | ViewMenu =>
           nl ++ "Menu:" ++ nl
           ++ "  Enter    Open selected option" ++ nl
       | ViewProgList | ViewMapList =>
           nl ++ "List:" ++ nl
           ++ "  /        Start fuzzy search" ++ nl
           ++ "  Esc      Exit search / Go back" ++ nl
           ++ "  Enter    View details" ++ nl
       | ViewProgDetail =>
           nl ++ "Program Detail:" ++ nl
           ++ "  ↑/↓      Navigate associated maps" ++ nl
           ++ "  Enter    View selected map" ++ nl
           ++ "  Esc      Go back to list" ++ nl
       | ViewMapDetail =>
           nl ++ "Map Detail:" ++ nl
           ++ "  Enter    Dump map contents" ++ nl
           ++ "  Esc      Go back" ++ nl
       | ViewMapDump =>
           nl ++ "Map Dump:" ++ nl
           ++ "  ↑/↓      Scroll through entries" ++ nl
           ++ "  Esc      Go back to map detail" ++ nl
       end
    ++ nl ++ "Global:" ++ nl
    ++ "  ?        Toggle this help" ++ nl
    ++ "  q        Quit application" ++ nl in
  titleStyle "Keyboard Shortcuts" ++ nl ++ nl
  ++ helpStyle content ++ nl
  ++ dimStyle "Press any key to close".

Definition renderHelpBar (m : Model) : string :=
  helpStyle
    match state m with
    | ViewMenu => "↑/↓: navigate • enter: select • q: quit • ?: help"
    | ViewProgList | ViewMapList =>
        if ViewState_eqb (state m) ViewProgList
           && progListModel.IsFiltering (progList m)
        then "↑/↓: navigate • enter: select • esc: cancel search"
        else if ViewState_eqb (state m) ViewMapList
                && mapListModel.IsFiltering (mapList m)
        then "↑/↓: navigate • enter: select • esc: cancel search"
        else "↑/↓: navigate • enter: select • /: search • esc: back • q: quit • ?: help"
    | ViewProgDetail =>
        "↑/↓: select map • enter: view map • esc: back • q: quit • ?: help"
    | ViewMapDetail => "enter: dump contents • esc: back • q: quit • ?: help"
    | ViewMapDump => "↑/↓: scroll • esc: back • q: quit • ?: help"
    end.

Definition renderMenu (m : Model) : string :=
  menuModel.View (menu m) ++ nl ++ renderHelpBar m.
Definition renderProgList (m : Model) : string :=
  progListModel.View (progList m) ++ nl ++ renderHelpBar m.
Definition renderProgDetail (m : Model) : string :=
  progDetailModel.View (progDetail m) ++ nl ++ renderHelpBar m.
Definition renderMapList (m : Model) : string :=
  mapListModel.View (mapList m) ++ nl ++ renderHelpBar m.
Definition renderMapDetail (m : Model) : string :=
  mapDetailModel.View (mapDetail m) ++ nl ++ renderHelpBar m.
Definition renderMapDump (m : Model) : string :=
  mapDumpModel.View (mapDump m) ++ nl ++ renderHelpBar m.

(** [View]. *)
Definition View (m : Model) : string :=
  match err m with
  | Some _ => renderError m
  | None =>
      if showHelp m then renderHelp m
      else match state m with
           | ViewMenu => renderMenu m
           | ViewProgList => renderProgList m
           | ViewProgDetail => renderProgDetail m
           | ViewMapList => renderMapList m
           | ViewMapDetail => renderMapDetail m
           | ViewMapDump => renderMapDump m
           end
  end.

(** [RunWithServices], up to the start of the program: the model that
    is handed to [tea.NewProgram]. *)
Definition RunWithServices (progSvc : option ProgService.t)
    (mapsSvc : option MapsService.t) : Model :=
  let m := NewModel progSvc mapsSvc in
  match checkPermissions m with
  | Some e => set_err (Some e) m
  | None => m
  end.

(** [Run]. *)
Definition Run : Model := RunWithServices None None.

(** The program's loop: the model after the messages [msgs], each one
    handled by [Update]. *)
Definition runMsgs (m : Model) (msgs : list tea.Msg) : Model :=
  fold_left (fun m msg => fst (Update m msg)) msgs m.

(** The command the widget of the current view answers [msg] with. *)
Definition widgetCmd (m : Model) (msg : tea.Msg) : tea.Cmd :=
  match state m with
  | ViewMenu => snd (bubbles_list.Update (menuModel.list_ (menu m)) msg)
  | ViewProgList => snd (bubbles_list.Update (progListModel.list_ (progList m)) msg)
  | ViewMapList => snd (bubbles_list.Update (mapListModel.list_ (mapList m)) msg)
  | ViewProgDetail =>
      snd (bubbles_viewport.Update (progDetailModel.viewport (progDetail m)) msg)
  | ViewMapDetail =>
      snd (bubbles_viewport.Update (mapDetailModel.viewport (mapDetail m)) msg)
  | ViewMapDump =>
      snd (bubbles_viewport.Update (mapDumpModel.viewport (mapDump m)) msg)
  end.

(** The current view is a list in filter-entry mode. *)
Definition filterEntry (m : Model) : bool :=
  (ViewState_eqb (state m) ViewProgList
   && progListModel.IsFiltering (progList m))
  || (ViewState_eqb (state m) ViewMapList
      && mapListModel.IsFiltering (mapList m)).

End Root.

(* ===================================================================== *)
(** ** Reference implementations of the widget interfaces

    Small executable stand-ins for the libraries, used to run the model
    on concrete inputs: a list with a cursor and a substring filter, a
    viewport with a scroll offset, and styles that render text as it is. *)

Module refList.

Import bubbles_list.

Record t (A : Type) : Type := {
  items : list A;
  index : nat;
  filterState : FilterState;
  filterText : string;
  config : Config;
  width : Z;
  height : Z
}.

Definition contains (s sub : string) : bool :=
  match String.index 0 sub s with
  | Some _ => true
  | None => false
  end.

Definition VisibleItems {A} {I : Item A} (l : t A) : list A :=
  match filterState l with
  | Unfiltered => items l
  | _ => filter (fun x => contains (FilterValue x) (filterText l)) (items l)
  end.

Definition withFilter {A} (l : t A) (fs : FilterState) (text : string)
    (i : nat) : t A :=
  {| items := items l; index := i; filterState := fs; filterText := text;
     config := config l; width := width l; height := height l |}.

Definition dropLast (s : string) : string :=
  String.substring 0 (String.length s - 1) s.

Definition handleFiltering {A} {I : Item A} (l : t A) (k : string) : t A :=
  if String.eqb k "esc" then withFilter l Unfiltered "" 0
  else if String.eqb k "enter" then
    match VisibleItems l with
    | [] => withFilter l Unfiltered "" 0
    | _ :: _ => withFilter l FilterApplied (filterText l) (index l)
    end
  else if String.eqb k "backspace" then
    withFilter l Filtering (dropLast (filterText l)) 0
  else if (String.length k =? 1)%nat then
    withFilter l Filtering (filterText l ++ k) 0
  else l.

Definition handleBrowsing {A} {I : Item A} (l : t A) (k : string) : t A :=
  if String.eqb k "up" || String.eqb k "k" then
    withFilter l (filterState l) (filterText l) (Nat.pred (index l))
  else if String.eqb k "down" || String.eqb k "j" then
    if (S (index l) <? List.length (VisibleItems l))%nat
    then withFilter l (filterState l) (filterText l) (S (index l))
    else l
  else if String.eqb k "/" then
    if FilteringEnabled (config l) then withFilter l Filtering "" 0 else l
  else if String.eqb k "esc" then withFilter l Unfiltered "" 0
  else l.

#[export] Instance widget : Widget := {|
  Model := t;
  New := fun A _ xs cfg w h =>
    {| items := xs; index := 0%nat; filterState := Unfiltered;
       filterText := ""; config := cfg; width := w; height := h |};
  SetItems := fun A _ xs l =>
    {| items := xs; index := 0%nat; filterState := filterState l;
       filterText := filterText l; config := config l;
       width := width l; height := height l |};
  Items := fun A l => items l;
  SelectedItem := fun A I l => nth_error (VisibleItems l) (index l);
  Update := fun A I l msg =>
    match msg with
    | tea.KeyMsg k =>
        (match filterState l with
         | Filtering => handleFiltering l k
         | _ => handleBrowsing l k
         end, tea.Nil)
    | _ => (l, tea.Nil)
    end;
  View := fun A I l =>
    cfgTitle (config l) ++ nl
    ++ String.concat nl (map (fun x => Title x) (VisibleItems l));
  SetSize := fun A w h l =>
    {| items := items l; index := index l; filterState := filterState l;
       filterText := filterText l; config := config l;
       width := w; height := h |};
  GetFilterState := fun A l => filterState l;
  ResetFilter := fun A _ l => withFilter l Unfiltered "" 0
|}.

End refList.

Module refViewport.

Record t : Type := {
  Width : Z;
  Height : Z;
  content : string;
  YOffset : Z
}.

#[export] Instance widget : bubbles_viewport.Widget := {|
  bubbles_viewport.Model := t;
  bubbles_viewport.zero :=
    {| Width := 0; Height := 0; content := ""; YOffset := 0 |};
  bubbles_viewport.New := fun w h =>
    {| Width := w; Height := h; content := ""; YOffset := 0 |};
  bubbles_viewport.SetContent := fun s v =>
    {| Width := Width v; Height := Height v; content := s;
       YOffset := YOffset v |};
  bubbles_viewport.set_Width := fun w v =>
    {| Width := w; Height := Height v; content := content v;
       YOffset := YOffset v |};
  bubbles_viewport.set_Height := fun h v =>
    {| Width := Width v; Height := h; content := content v;
       YOffset := YOffset v |};
  bubbles_viewport.Update := fun v msg =>
    match msg with
    | tea.KeyMsg k =>
        if String.eqb k "down" || String.eqb k "j" then
          ({| Width := Width v; Height := Height v; content := content v;
              YOffset := YOffset v + 1 |}, tea.Nil)
        else if String.eqb k "up" || String.eqb k "k" then
          ({| Width := Width v; Height := Height v; content := content v;
              YOffset := Z.max 0 (YOffset v - 1) |}, tea.Nil)
        else (v, tea.Nil)
    | _ => (v, tea.Nil)
    end;
  bubbles_viewport.View := content
|}.

End refViewport.

(** Styles without colour: [Render] returns its argument. *)
Definition plainTheme : Theme := {|
  titleStyle := fun s => s;
  selectedStyle := fun s => s;
  helpStyle := fun s => s;
  errorStyle := fun s => s;
  normalStyle := fun s => s;
  dimStyle := fun s => s;
  labelStyle := fun s => s;
  valueStyle := fun s => s
|}.

(* ===================================================================== *)
(** ** Notions used in the statements *)

(** The forward transitions of the navigation graph. *)
Definition forwardEdge (a b : ViewState) : bool :=
  match a, b with
  | ViewMenu, ViewProgList => true
  | ViewMenu, ViewMapList => true
  | ViewProgList, ViewProgDetail => true
  | ViewProgDetail, ViewMapDetail => true
  | ViewMapList, ViewMapDetail => true
  | ViewMapDetail, ViewMapDump => true
  | _, _ => false
  end.

(** A trail of views: it starts at the menu and each view is entered from
    the one before it by a forward transition. *)
Fixpoint forwardChain (a : ViewState) (rest : list ViewState) : bool :=
  match rest with
  | [] => true
  | b :: rest' => forwardEdge a b && forwardChain b rest'
  end.

Definition trail (vs : list ViewState) : bool :=
  match vs with
  | ViewMenu :: rest => forwardChain ViewMenu rest
  | _ => false
  end.

Section Presses.
Context {LW : bubbles_list.Widget} {VW : bubbles_viewport.Widget} {TH : Theme}.

(** The views shown after each of [n] presses of the key [k]. *)
Fixpoint visited (k : string) (n : nat) (m : Model) : list ViewState :=
  match n with
  | O => []
  | S n' =>
      let m' := fst (Update m (tea.KeyMsg k)) in
      state m' :: visited k n' m'
  end.

(** The views popped off the history by [n] presses of the key [k]:
    the view shown after each press that shortened the history. *)
Fixpoint popped (k : string) (n : nat) (m : Model) : list ViewState :=
  match n with
  | O => []
  | S n' =>
      let m' := fst (Update m (tea.KeyMsg k)) in
      if (List.length (history m') <? List.length (history m))%nat
      then state m' :: popped k n' m'
      else popped k n' m'
  end.

(** [k] is a back key that is neither the quit nor the help key. *)
Definition backKey (m : Model) (k : string) : bool :=
  key.Matches k (Back (keys m))
  && negb (key.Matches k (Quit (keys m)))
  && negb (key.Matches k (Help (keys m))).

End Presses.

(** The dump rendering as the specification words it: one block of a key
    line and a value line per entry, and a separator line between
    consecutive blocks. *)
Section DumpSpec.
Context {TH : Theme}.

Definition entryBlock (e : MapEntry.t) : string :=
  labelStyle "Key:   " ++ valueStyle (formatHex (MapEntry.Key e)) ++ nl
  ++ labelStyle "Value: " ++ valueStyle (formatHex (MapEntry.Value e)) ++ nl.

Definition separatorLine : string := dimStyle "---" ++ nl.

Definition renderDump_spec (err : option error) (loading : bool)
    (entries : list MapEntry.t) : string :=
  match err with
  | Some e => errorStyle ("Error: " ++ Error e)
  | None =>
      if loading then dimStyle "Loading map contents..."
      else match entries with
           | [] => dimStyle "Map contains no entries"
           | _ :: _ => String.concat separatorLine (map entryBlock entries)
           end
  end.

End DumpSpec.

(** The program detail view over a run of messages. *)
Section DetailRun.
Context {VW : bubbles_viewport.Widget} {TH : Theme}.

(** The cursor is "none" (-1) when there is no associated map, and an
    index into [mapIDs] otherwise. *)
Definition cursorOK (m : progDetailModel.t) : Prop :=
  match progDetailModel.mapIDs m with
  | [] => progDetailModel.cursor m = -1
  | _ :: _ => 0 <= progDetailModel.cursor m < len (progDetailModel.mapIDs m)
  end.

(** The detail model after the messages [msgs]. *)
Definition detailAfter (m : progDetailModel.t) (msgs : list tea.Msg)
  : progDetailModel.t :=
  fold_left (fun m msg => fst (fst (progDetailModel.Update m msg))) msgs m.

End DetailRun.

(* ===================================================================== *)
(** ** Scenarios

    The data of the integration tests of tui_test.go, run on the
    reference widgets. *)

Module Scenario.

#[local] Existing Instance refList.widget.
#[local] Existing Instance refViewport.widget.
#[local] Existing Instance plainTheme.

Definition test_prog : ProgramInfo.t := {|
  ProgramInfo.ID := 1; ProgramInfo.Type_ := "kprobe";
  ProgramInfo.Name := "test_prog"; ProgramInfo.Tag := "abc123";
  ProgramInfo.GPL := false; ProgramInfo.LoadedAt := "";
  ProgramInfo.UID := 0; ProgramInfo.BytesXlated := 0;
  ProgramInfo.BytesJIT := 0; ProgramInfo.MemLock := 0;
  ProgramInfo.MapIDs := [10%N];
  ProgramInfo.Pinned := false; ProgramInfo.PinnedPaths := []
|}.

Definition associated_map : MapInfo.t := {|
  MapInfo.ID := 10; MapInfo.Type_ := "hash";
  MapInfo.Name := "associated_map";
  MapInfo.KeySize := 4; MapInfo.ValueSize := 8; MapInfo.MaxEntries := 100;
  MapInfo.Flags := 0; MapInfo.MemLock := 0; MapInfo.LoadedAt := "";
  MapInfo.UID := 0; MapInfo.Pinned := false; MapInfo.PinnedPaths := []
|}.

(** [mockProgService] with one program. *)
Definition progs : ProgService.t := {|
  ProgService.List := ([test_prog], None);
  ProgService.Get := fun id =>
    if N.eqb id 1 then (Some test_prog, None)
    else (None, Some (errors_New "program not found"))
|}.

(** [mockProgService] with [err] set to a plain error. *)
Definition progsFailing : ProgService.t := {|
  ProgService.List := ([], Some (errors_New "some error"));
  ProgService.Get := fun _ => (None, Some (errors_New "some error"))
|}.

(** [mockMapsServiceWithDump] with one map and one entry. *)
Definition maps : MapsService.t := {|
  MapsService.List := ([associated_map], None);
  MapsService.Get := fun id =>
    if N.eqb id 10 then (Some associated_map, None)
    else (None, Some (errors_New "map not found"));
  MapsService.Dump := fun _ =>
    ([ {| MapEntry.Key := [Byte.xde; Byte.xad];
          MapEntry.Value := [Byte.xbe; Byte.xef] |} ], None)
|}.

(** [mockMapsServiceWithDump] without any map: [Get] finds nothing. *)
Definition mapsEmpty : MapsService.t := {|
  MapsService.List := ([], None);
  MapsService.Get := fun _ => (None, Some (errors_New "map not found"));
  MapsService.Dump := fun _ => ([], None)
|}.

(** [mockMapsServiceWithDump] with [dumpErr] set. *)
Definition mapsDumpFailing : MapsService.t := {|
  MapsService.List := ([associated_map], None);
  MapsService.Get := fun id =>
    if N.eqb id 10 then (Some associated_map, None)
    else (None, Some (errors_New "map not found"));
  MapsService.Dump := fun _ =>
    ([], Some (errors_New "failed to dump map contents"))
|}.

Definition enter : tea.Msg := tea.KeyMsg "enter".
Definition down : tea.Msg := tea.KeyMsg "down".
Definition esc : tea.Msg := tea.KeyMsg "esc".

(** Menu, program list, program detail, then the associated map. *)
Definition atCrossRef : Model :=
  runMsgs (RunWithServices (Some progs) (Some maps)) [enter; enter; enter].

(** The same keys when the map service does not find the map. *)
Definition atMissingCrossRef : Model :=
  runMsgs (RunWithServices (Some progs) (Some mapsEmpty)) [enter; enter; enter].

(** Menu, map list, map detail, then a dump that fails. *)
Definition atFailedDump : Model :=
  runMsgs (RunWithServices None (Some mapsDumpFailing))
          [down; enter; enter; enter].

(** The program list in filter-entry mode. *)
Definition atFilterEntry : Model :=
  runMsgs (RunWithServices (Some progs) (Some maps)) [enter; tea.KeyMsg "/"].

End Scenario.

(* ===================================================================== *)
(** ** The navigation invariant *)

Section Invariant.
Context {LW : bubbles_list.Widget} {VW : bubbles_viewport.Widget} {TH : Theme}.

(** What holds of the root model in every state the program reaches:
    the history followed by the current view is a trail from the menu;
    the menu still lists its two entries; a list that is not on screen
    is not in filter-entry mode; and the help overlay is never shown
    over a list in filter-entry mode. *)
Record navInv (m : Model) : Prop := {
  inv_trail : trail (history m ++ [state m])%list = true;
  inv_menu : bubbles_list.Items (menuModel.list_ (menu m)) = menuModel.menuItems;
  inv_progList :
    ViewState_eqb (state m) ViewProgList
    || negb (progListModel.IsFiltering (progList m)) = true;
  inv_mapList :
    ViewState_eqb (state m) ViewMapList
    || negb (mapListModel.IsFiltering (mapList m)) = true;
  inv_help : negb (showHelp m) || negb (filterEntry m) = true
}.

End Invariant.

(** The list models over a run of messages. *)
Section ListRun.
Context {LW : bubbles_list.Widget} {TH : Theme}.

Definition progListAfter (pl : progListModel.t) (msgs : list tea.Msg)
  : progListModel.t :=
  fold_left (fun pl msg => fst (fst (progListModel.Update pl msg))) msgs pl.

Definition mapListAfter (ml : mapListModel.t) (msgs : list tea.Msg)
  : mapListModel.t :=
  fold_left (fun ml msg => fst (fst (mapListModel.Update ml msg))) msgs ml.

End ListRun.

(* ===================================================================== *)
(** ** Notions used in the statements on the data of the views *)

(** The map detail view over a run of messages. *)
Section MapDetailRun.
Context {VW : bubbles_viewport.Widget} {TH : Theme}.

Definition mapDetailAfter (m : mapDetailModel.t) (msgs : list tea.Msg)
  : mapDetailModel.t :=
  fold_left (fun m msg => fst (fst (mapDetailModel.Update m msg))) msgs m.

(** The program detail model is consistent: the cursor fits the list of
    map IDs, the list is the one of the program shown, and a model
    that holds a program has its viewport set up. *)
Definition progDetailOK (pd : progDetailModel.t) : Prop :=
  cursorOK pd
  /\ progDetailModel.mapIDs pd
     = match progDetailModel.program pd with
       | Some p => ProgramInfo.MapIDs p
       | None => []
       end
  /\ (progDetailModel.program pd <> None -> progDetailModel.ready pd = true).

(** The map detail model is consistent: the cursor is on the only
    action, and a model that holds a map has its viewport set up. *)
Definition mapDetailOK (md : mapDetailModel.t) : Prop :=
  mapDetailModel.cursor md = 0
  /\ (mapDetailModel.mapInfo md <> None -> mapDetailModel.ready md = true).

End MapDetailRun.

Section DataInvariant.
Context {LW : bubbles_list.Widget} {VW : bubbles_viewport.Widget} {TH : Theme}.

(** What holds of the data of the views in every state the program
    reaches: the rows of each list are the records the list model
    holds; the detail models are consistent; the dump model is never
    left in the loading state; a program detail view that is on
    screen, or on the way back, holds a program; a dump view on screen
    has its viewport set up and was requested for a map that the map
    detail view holds. *)
Record dataInv (m : Model) : Prop := {
  inv_progRows :
    bubbles_list.Items (progListModel.list_ (progList m))
    = map (fun prog => {| progItem_info := prog |})
          (progListModel.programs (progList m));
  inv_mapRows :
    bubbles_list.Items (mapListModel.list_ (mapList m))
    = map (fun mapInfo => {| mapItem_info := mapInfo |})
          (mapListModel.maps (mapList m));
  inv_progDetail : progDetailOK (progDetail m);
  inv_progShown :
    In ViewProgDetail (history m ++ [state m])%list ->
    progDetailModel.program (progDetail m) <> None;
  inv_mapDetail : mapDetailOK (mapDetail m);
  inv_dumpLoading : mapDumpModel.loading (mapDump m) = false;
  inv_dumpShown :
    state m = ViewMapDump ->
    mapDumpModel.ready (mapDump m) = true
    /\ mapDetailModel.mapInfo (mapDetail m) <> None
}.

End DataInvariant.

(** The rows of the associated maps none of which is under the cursor. *)
Section MapRows.
Context {TH : Theme}.

Definition plainRow (mapID : N) : string :=
  normalStyle ("  Map ID: " ++ sprintf_d mapID) ++ nl.

Definition markedRow (mapID : N) : string :=
  selectedStyle ("▶ Map ID: " ++ sprintf_d mapID) ++ nl.

Definition plainRows (ids : list N) : string :=
  String.concat "" (map plainRow ids).

End MapRows.

(** [n] presses of the key [k]. *)
Definition presses (k : string) (n : nat) : list tea.Msg :=
  repeat (tea.KeyMsg k) n.

(** The states of a program that runs without one of its services. *)
Section AbsentService.
Context {LW : bubbles_list.Widget} {VW : bubbles_viewport.Widget} {TH : Theme}.

(** No program service: nothing is listed, no program is shown, and no
    view reached through a program is on screen or on the way back. *)
Record noProgInv (m : Model) : Prop := {
  np_svc : progSvc m = None;
  np_programs : progListModel.programs (progList m) = [];
  np_rows : bubbles_list.Items (progListModel.list_ (progList m)) = [];
  np_listErr : progListModel.err (progList m) = None;
  np_program : progDetailModel.program (progDetail m) = None;
  np_err : err m = None;
  np_trail : ~ In ViewProgDetail (history m ++ [state m])%list
}.

(** No maps service: nothing is listed, no map is shown, nothing was
    ever dumped, and the map detail view is only reached through a
    program. *)
Record noMapsInv (m : Model) : Prop := {
  nm_svc : mapsSvc m = None;
  nm_maps : mapListModel.maps (mapList m) = [];
  nm_rows : bubbles_list.Items (mapListModel.list_ (mapList m)) = [];
  nm_listErr : mapListModel.err (mapList m) = None;
  nm_mapInfo : mapDetailModel.mapInfo (mapDetail m) = None;
  nm_entries : mapDumpModel.entries (mapDump m) = [];
  nm_dumpErr : mapDumpModel.err (mapDump m) = None;
  nm_state : state m <> ViewMapDump;
  nm_trail :
    In ViewMapDetail (history m ++ [state m])%list ->
    In ViewProgDetail (history m)
}.

End AbsentService.

(* ===================================================================== *)
(** ** Further scenarios

    States on the way of the walks of tui_test.go, and a program with
    three associated maps. *)

Module Walk.

#[local] Existing Instance refList.widget.
#[local] Existing Instance refViewport.widget.
#[local] Existing Instance plainTheme.

(** The program list, entered from the menu. *)
Definition atProgList : Model :=
  runMsgs (RunWithServices (Some Scenario.progs) (Some Scenario.maps))
          [Scenario.enter].

(** The detail view of the listed program. *)
Definition atProgDetail : Model :=
  runMsgs (RunWithServices (Some Scenario.progs) (Some Scenario.maps))
          [Scenario.enter; Scenario.enter].

(** The map list, entered from the menu, with a dump that will fail. *)
Definition atMapList : Model :=
  runMsgs (RunWithServices None (Some Scenario.mapsDumpFailing))
          [Scenario.down; Scenario.enter].

(** The detail view of the listed map. *)
Definition atMapDetail : Model :=
  runMsgs (RunWithServices None (Some Scenario.mapsDumpFailing))
          [Scenario.down; Scenario.enter; Scenario.enter].

Definition three_maps : ProgramInfo.t := {|
  ProgramInfo.ID := 2; ProgramInfo.Type_ := "xdp";
  ProgramInfo.Name := "three_maps"; ProgramInfo.Tag := "def456";
  ProgramInfo.GPL := true; ProgramInfo.LoadedAt := "";
  ProgramInfo.UID := 0; ProgramInfo.BytesXlated := 0;
  ProgramInfo.BytesJIT := 0; ProgramInfo.MemLock := 0;
  ProgramInfo.MapIDs := [10%N; 20%N; 30%N];
  ProgramInfo.Pinned := false; ProgramInfo.PinnedPaths := []
|}.

(** The program detail model showing it. *)
Definition detailOfThree : progDetailModel.t :=
  progDetailModel.SetProgram (Some three_maps)
    (progDetailModel.newProgDetailModel 80 24).

End Walk.

(* ===================================================================== *)
(** * Properties *)
(* ===================================================================== *)
(** ** Hex rendering *)

Lemma unhexByte_sprintf (b : byte) :
  exists h l, sprintf_02x b = String h (String l EmptyString)
              /\ unhexByte h l = Some b
              /\ isHexDigit h = true /\ isHexDigit l = true.
Proof.
  destruct b; do 2 eexists; (split; [reflexivity | split; [reflexivity | split; reflexivity]]).
Qed.

Lemma formatHex_cons (b : byte) (bs : list byte) :
  formatHex (b :: bs) = (sprintf_02x b ++ hexTail bs)%string.
Proof.
  unfold formatHex. cbn [List.length Nat.eqb].
  revert b. induction bs as [|c bs IH]; intro b.
  - destruct (unhexByte_sprintf b) as (h & l & E & _).
    cbn [map strings_Join hexTail]. rewrite E. reflexivity.
  - change (strings_Join (map sprintf_02x (b :: c :: bs)) " ")
      with (sprintf_02x b ++ " " ++ strings_Join (map sprintf_02x (c :: bs)) " ")%string.
    rewrite IH. reflexivity.
Qed.

Lemma decodeHex_formatHex (b : byte) (bs : list byte) :
  decodeHex (formatHex (b :: bs)) = Some (b :: bs).
Proof.
  revert b. induction bs as [|c bs IH]; intro b; rewrite formatHex_cons;
    destruct (unhexByte_sprintf b) as (h & l & E & U & _); rewrite E.
  - cbn. rewrite U. reflexivity.
  - specialize (IH c). rewrite formatHex_cons in IH.
    cbn [hexTail String.append].
    change (decodeHex (String h (String l (String " " (sprintf_02x c ++ hexTail bs)))))
      with (match unhexByte h l with
            | Some b0 =>
                match decodeHex (sprintf_02x c ++ hexTail bs) with
                | Some bs0 => Some (b0 :: bs0)
                | None => None
                end
            | None => None
            end).
    rewrite U, IH. reflexivity.
Qed.

Lemma length_formatHex (b : byte) (bs : list byte) :
  String.length (formatHex (b :: bs)) = (3 * List.length bs + 2)%nat.
Proof.
  rewrite formatHex_cons.
  assert (T : String.length (hexTail bs) = (3 * List.length bs)%nat).
  { induction bs as [|c bs IH]; [reflexivity|].
    cbn [hexTail List.length].
    destruct (unhexByte_sprintf c) as (h & l & E & _). rewrite E.
    cbn [String.append String.length]. rewrite IH. lia. }
  destruct (unhexByte_sprintf b) as (h & l & E & _). rewrite E.
  cbn [String.append String.length]. rewrite T. lia.
Qed.

(** C6 -- Hex round-trip.  [formatHex] writes two hexadecimal characters
    per byte and one space between bytes: a non-empty sequence [b :: bs]
    is rendered as the two digits of [b] followed, for each further byte,
    by a space and its two digits (3 * len - 1 characters in all).
    Decoding the rendering of a non-empty sequence gives the sequence
    back, so the rendering is injective on non-empty sequences.  The empty
    sequence is rendered as the marker ["(empty)"], not as the empty
    string. *)
Theorem formatHex_round_trip :
  (forall b bs, decodeHex (formatHex (b :: bs)) = Some (b :: bs))
  /\ (forall b bs,
        formatHex (b :: bs) = sprintf_02x b ++ hexTail bs
        /\ String.length (formatHex (b :: bs)) = (3 * List.length bs + 2)%nat)
  /\ (forall b, exists h l,
        sprintf_02x b = String h (String l EmptyString)
        /\ isHexDigit h = true /\ isHexDigit l = true)
  /\ (forall b1 bs1 b2 bs2,
        formatHex (b1 :: bs1) = formatHex (b2 :: bs2) -> b1 :: bs1 = b2 :: bs2)
  /\ formatHex [] = "(empty)"
  /\ String.eqb (formatHex []) "" = false.
Proof.
  split; [exact decodeHex_formatHex|].
  split; [intros b bs; split; [apply formatHex_cons | apply length_formatHex]|].
  split.
  { intro b. destruct (unhexByte_sprintf b) as (h & l & E & _ & Hh & Hl).
    exists h, l. auto. }
  split.
  { intros b1 bs1 b2 bs2 E.
    assert (D : decodeHex (formatHex (b1 :: bs1)) = decodeHex (formatHex (b2 :: bs2)))
      by (rewrite E; reflexivity).
    rewrite !decodeHex_formatHex in D. congruence. }
  split; reflexivity.
Qed.

(* ===================================================================== *)
(** ** Strings *)

Lemma string_app_assoc (a b c : string) : (a ++ b) ++ c = a ++ (b ++ c).
Proof. induction a as [|x a IH]; cbn; [reflexivity | now rewrite IH]. Qed.

Lemma string_app_nil_r (a : string) : a ++ "" = a.
Proof. induction a as [|x a IH]; cbn; [reflexivity | now rewrite IH]. Qed.

(* ===================================================================== *)
(** ** The dump view *)

Section DumpView.
Context {VW : bubbles_viewport.Widget} {TH : Theme}.

(** The loop of [renderContent], started at index [i] with [n - i]
    entries left, writes the blocks of the entries with a separator
    line between them. *)
Lemma renderEntries_concat (es : list MapEntry.t) :
  forall (e : MapEntry.t) (n i : Z),
    n = i + len (e :: es) ->
    mapDumpModel.renderEntries n i (e :: es)
    = String.concat separatorLine (map entryBlock (e :: es)).
Proof.
  unfold len.
  induction es as [|e' es IH]; intros e n i Hn.
  - cbn [mapDumpModel.renderEntries map String.concat].
    cbn [List.length] in Hn.
    replace (i <? n - 1) with false by (symmetry; apply Z.ltb_ge; lia).
    unfold entryBlock.
    change ("" ++ "") with "". unfold nl at 2. fold nl.
    rewrite (string_app_nil_r nl). reflexivity.
  - change (mapDumpModel.renderEntries n i (e :: e' :: es))
      with (labelStyle "Key:   " ++ valueStyle (formatHex (MapEntry.Key e)) ++ nl
            ++ labelStyle "Value: " ++ valueStyle (formatHex (MapEntry.Value e)) ++ nl
            ++ (if i <? n - 1 then dimStyle "---" ++ nl else "")
            ++ mapDumpModel.renderEntries n (i + 1) (e' :: es)).
    change (String.concat separatorLine (map entryBlock (e :: e' :: es)))
      with (entryBlock e ++ separatorLine
            ++ String.concat separatorLine (map entryBlock (e' :: es))).
    cbn [List.length] in Hn.
    replace (i <? n - 1) with true by (symmetry; apply Z.ltb_lt; lia).
    rewrite (IH e' n (i + 1)) by (cbn [List.length]; lia).
    unfold entryBlock, separatorLine. rewrite !string_app_assoc. reflexivity.
Qed.

(** C7 -- Dump view rendering priority.  For every state of the dump
    model, [renderContent] is the inline error when an error is set;
    otherwise the loading placeholder when the loading flag is set;
    otherwise the no-entries message when there is no entry; otherwise
    a key line and a value line in hex for each entry, with a separator
    line between consecutive entries and none after the last.  In
    particular a single entry is rendered without any separator. *)
Theorem renderContent_priority :
  (forall m : mapDumpModel.t,
     mapDumpModel.renderContent m
     = renderDump_spec (mapDumpModel.err m) (mapDumpModel.loading m)
         (mapDumpModel.entries m))
  /\ (forall e l es, renderDump_spec (Some e) l es = errorStyle ("Error: " ++ Error e))
  /\ (forall es, renderDump_spec None true es = dimStyle "Loading map contents...")
  /\ renderDump_spec None false [] = dimStyle "Map contains no entries"
  /\ (forall e, renderDump_spec None false [e] = entryBlock e)
  /\ (forall e e' es,
        renderDump_spec None false (e :: e' :: es)
        = entryBlock e ++ separatorLine ++ renderDump_spec None false (e' :: es)).
Proof.
  split.
  { intro m. unfold mapDumpModel.renderContent, renderDump_spec.
    destruct (mapDumpModel.err m); [reflexivity|].
    destruct (mapDumpModel.loading m); [reflexivity|].
    destruct (mapDumpModel.entries m) as [|e es] eqn:E; [reflexivity|].
    replace (len (e :: es) =? 0) with false
      by (symmetry; apply Z.eqb_neq; unfold len; cbn [List.length]; lia).
    apply renderEntries_concat. lia. }
  repeat split; reflexivity.
Qed.

End DumpView.

(* ===================================================================== *)
(** ** The program detail view: the cursor over the associated maps *)

Section DetailCursor.
Context {VW : bubbles_viewport.Widget} {TH : Theme}.

Lemma updateViewport_frame (m : progDetailModel.t) :
  progDetailModel.mapIDs (progDetailModel.updateViewport m)
  = progDetailModel.mapIDs m
  /\ progDetailModel.cursor (progDetailModel.updateViewport m)
     = progDetailModel.cursor m.
Proof.
  unfold progDetailModel.updateViewport.
  destruct (progDetailModel.program m); [|split; reflexivity].
  destruct (negb (progDetailModel.ready m)); split; reflexivity.
Qed.

Lemma cursorOK_updateViewport (m : progDetailModel.t) :
  cursorOK m -> cursorOK (progDetailModel.updateViewport m).
Proof.
  unfold cursorOK. destruct (updateViewport_frame m) as [-> ->]. auto.
Qed.

Lemma SetProgram_cursor (prog : option ProgramInfo.t) (m : progDetailModel.t) :
  let m' := progDetailModel.SetProgram prog m in
  progDetailModel.mapIDs m'
  = match prog with Some p => ProgramInfo.MapIDs p | None => [] end
  /\ progDetailModel.cursor m'
     = match progDetailModel.mapIDs m' with [] => -1 | _ :: _ => 0 end.
Proof.
  cbv zeta. unfold progDetailModel.SetProgram.
  match goal with |- context [progDetailModel.updateViewport ?x] =>
    destruct (updateViewport_frame x) as [-> ->] end.
  cbn [progDetailModel.mapIDs progDetailModel.cursor].
  destruct prog as [p|]; [|split; reflexivity].
  unfold len. destruct (ProgramInfo.MapIDs p) as [|i ids]; split; reflexivity.
Qed.

Lemma cursorOK_Update (m : progDetailModel.t) (msg : tea.Msg) :
  cursorOK m -> cursorOK (fst (fst (progDetailModel.Update m msg))).
Proof.
  intro H. unfold progDetailModel.Update, progDetailModel.toViewport.
  assert (V : forall msg',
    cursorOK (fst (fst (let '(v, cmd) :=
        bubbles_viewport.Update (progDetailModel.viewport m) msg' in
        (progDetailModel.set_viewport v m, cmd, @None N))))).
  { intro msg'. destruct (bubbles_viewport.Update _ msg') as [v c]. exact H. }
  destruct msg as [k| |]; try apply V.
  destruct (String.eqb k "up" || String.eqb k "k").
  { destruct ((0 <? len (progDetailModel.mapIDs m))
              && (0 <? progDetailModel.cursor m)) eqn:C; [|exact H].
    apply andb_prop in C. destruct C as [C1 C2].
    apply Z.ltb_lt in C1, C2. cbn [fst].
    apply cursorOK_updateViewport. unfold cursorOK in *.
    cbn [progDetailModel.set_cursor progDetailModel.mapIDs progDetailModel.cursor].
    destruct (progDetailModel.mapIDs m); [exact (ltac:(unfold len in C1; cbn in C1; lia))|].
    lia. }
  destruct (String.eqb k "down" || String.eqb k "j").
  { destruct ((0 <? len (progDetailModel.mapIDs m))
              && (progDetailModel.cursor m <? len (progDetailModel.mapIDs m) - 1))
      eqn:C; [|exact H].
    apply andb_prop in C. destruct C as [C1 C2].
    apply Z.ltb_lt in C1, C2. cbn [fst].
    apply cursorOK_updateViewport. unfold cursorOK in *.
    cbn [progDetailModel.set_cursor progDetailModel.mapIDs progDetailModel.cursor].
    destruct (progDetailModel.mapIDs m); [exact (ltac:(unfold len in C1; cbn in C1; lia))|].
    lia. }
  destruct (String.eqb k "enter"); [|apply V].
  destruct ((0 <? len (progDetailModel.mapIDs m)) && (0 <=? progDetailModel.cursor m)
            && (progDetailModel.cursor m <? len (progDetailModel.mapIDs m)));
    exact H.
Qed.

Lemma cursorOK_detailAfter (msgs : list tea.Msg) :
  forall m, cursorOK m -> cursorOK (detailAfter m msgs).
Proof.
  induction msgs as [|msg msgs IH]; intros m H; [exact H|].
  apply IH, cursorOK_Update, H.
Qed.

(** C8 -- The cursor over the cross-references of the program detail
    view.  Installing a record ([SetProgram]) resets the cursor to 0
    when the record has associated maps and to -1 ("none") when it has
    none.  After any sequence of messages (up and down presses among
    them) the cursor is within [0, len) when the list is not empty, and
    still -1 when it is empty.  A down press at the last index and an up
    press at index 0 leave the model as it is, and a confirm press with
    no associated map reports nothing. *)
Theorem progDetail_cursor_invariant :
  (forall prog m,
     let m' := progDetailModel.SetProgram prog m in
     progDetailModel.mapIDs m'
     = match prog with Some p => ProgramInfo.MapIDs p | None => [] end
     /\ progDetailModel.cursor m'
        = match progDetailModel.mapIDs m' with [] => -1 | _ :: _ => 0 end)
  /\ (forall prog m msgs,
        let m' := detailAfter (progDetailModel.SetProgram prog m) msgs in
        progDetailModel.mapIDs m'
        = match prog with Some p => ProgramInfo.MapIDs p | None => [] end
        /\ match progDetailModel.mapIDs m' with
           | [] => progDetailModel.cursor m' = -1
           | _ :: _ =>
               0 <= progDetailModel.cursor m' < len (progDetailModel.mapIDs m')
           end)
  /\ (forall m k,
        k = "down" \/ k = "j" ->
        progDetailModel.cursor m = len (progDetailModel.mapIDs m) - 1 ->
        progDetailModel.Update m (tea.KeyMsg k) = (m, tea.Nil, None))
  /\ (forall m k,
        k = "up" \/ k = "k" ->
        progDetailModel.cursor m = 0 ->
        progDetailModel.Update m (tea.KeyMsg k) = (m, tea.Nil, None))
  /\ (forall m,
        progDetailModel.mapIDs m = [] ->
        progDetailModel.Update m (tea.KeyMsg "enter") = (m, tea.Nil, None)).
Proof.
  split; [exact SetProgram_cursor|].
  split.
  { intros prog m msgs m'. split.
    - subst m'. rewrite <- (proj1 (SetProgram_cursor prog m)).
      generalize (progDetailModel.SetProgram prog m). clear.
      induction msgs as [|msg msgs IH]; intro m; [reflexivity|].
      cbn [detailAfter fold_left]. fold (detailAfter (fst (fst (progDetailModel.Update m msg))) msgs).
      rewrite IH. clear IH.
      unfold progDetailModel.Update, progDetailModel.toViewport.
      assert (V : forall msg',
        progDetailModel.mapIDs (fst (fst (let '(v, cmd) :=
            bubbles_viewport.Update (progDetailModel.viewport m) msg' in
            (progDetailModel.set_viewport v m, cmd, @None N))))
        = progDetailModel.mapIDs m).
      { intro msg'. destruct (bubbles_viewport.Update _ msg'). reflexivity. }
      destruct msg as [k| |]; try apply V.
      repeat match goal with
             | |- context [if ?c then _ else _] => destruct c
             end; cbn [fst]; try apply V; try reflexivity;
        match goal with |- context [progDetailModel.updateViewport ?x] =>
          rewrite (proj1 (updateViewport_frame x)) end; reflexivity.
    - apply (cursorOK_detailAfter msgs).
      unfold cursorOK. destruct (SetProgram_cursor prog m) as [_ ->].
      destruct (progDetailModel.mapIDs (progDetailModel.SetProgram prog m)) eqn:E;
        [reflexivity|].
      unfold len. cbn [List.length]. lia. }
  split.
  { intros m k Hk Hc. unfold progDetailModel.Update.
    assert (U : String.eqb k "up" || String.eqb k "k" = false)
      by (destruct Hk as [-> | ->]; reflexivity).
    assert (D : String.eqb k "down" || String.eqb k "j" = true)
      by (destruct Hk as [-> | ->]; reflexivity).
    rewrite U, D.
    replace (progDetailModel.cursor m <? len (progDetailModel.mapIDs m) - 1)
      with false by (symmetry; apply Z.ltb_ge; lia).
    rewrite andb_false_r. reflexivity. }
  split.
  { intros m k Hk Hc. unfold progDetailModel.Update.
    assert (U : String.eqb k "up" || String.eqb k "k" = true)
      by (destruct Hk as [-> | ->]; reflexivity).
    rewrite U, Hc. rewrite andb_false_r. reflexivity. }
  intros m Hm. unfold progDetailModel.Update. cbn [String.eqb Ascii.eqb Bool.eqb orb].
  rewrite Hm. reflexivity.
Qed.

End DetailCursor.

(* ===================================================================== *)
(** ** The reference list widget satisfies the laws *)

Lemma refList_laws : bubbles_list.Laws refList.widget.
Proof.
  split; try reflexivity.
  - (* Update_Items *)
    intros A I l msg. destruct msg as [k| |]; try reflexivity.
    cbn. destruct (refList.filterState l);
      unfold refList.handleBrowsing, refList.handleFiltering;
      repeat match goal with
             | |- context [if ?c then _ else _] => destruct c
             | |- context [match refList.VisibleItems ?l with _ => _ end] =>
                 destruct (refList.VisibleItems l)
             end; reflexivity.
  - (* Update_FilterState *)
    intros A I l msg Hk. destruct msg as [k| |]; cbn; auto.
    exfalso. exact (Hk k eq_refl).
  - (* SelectedItem_In *)
    intros A I l x H. cbn in H. apply nth_error_In in H.
    unfold refList.VisibleItems in H. cbn.
    destruct (refList.filterState l); auto; apply filter_In in H; tauto.
Qed.

(* ===================================================================== *)
(** ** The startup probe *)

Section Startup.
Context {LW : bubbles_list.Widget} {VW : bubbles_viewport.Widget} {TH : Theme}.

Lemma IsPermissionError_wrap (e : error) :
  IsPermissionError
    (Some (if IsPermissionError (Some e) then e else PermissionError (Some e)))
  = true.
Proof.
  destruct (IsPermissionError (Some e)) eqn:E; [exact E | reflexivity].
Qed.

(** C4, as amended -- The failure of the startup probe is classified as
    a permission error or not, and either way it takes the top-level
    fatal path: a permission error is stored as the top-level error as
    it is, any other failure is wrapped in a [PermissionError] and
    stored as the top-level error as well.  The top-level error stays
    unset exactly when no program service is configured or the probe
    succeeds.  A stored top-level error takes over the whole screen. *)
Theorem startup_probe_failure_is_fatal :
  forall (ps : option ProgService.t) (ms : option MapsService.t),
    err (RunWithServices ps ms)
    = match ps with
      | None => None
      | Some svc =>
          match snd (ProgService.List svc) with
          | None => None
          | Some e =>
              Some (if IsPermissionError (Some e) then e
                    else PermissionError (Some e))
          end
      end
    /\ (err (RunWithServices ps ms) = None
        \/ (IsPermissionError (err (RunWithServices ps ms)) = true
            /\ View (RunWithServices ps ms)
               = renderError (RunWithServices ps ms))).
Proof.
  intros ps ms.
  assert (E : err (RunWithServices ps ms)
    = match ps with
      | None => None
      | Some svc =>
          match snd (ProgService.List svc) with
          | None => None
          | Some e =>
              Some (if IsPermissionError (Some e) then e
                    else PermissionError (Some e))
          end
      end).
  { unfold RunWithServices, checkPermissions. cbn [NewModel progSvc].
    destruct ps as [svc|]; [|reflexivity].
    destruct (snd (ProgService.List svc)) as [e|]; [|reflexivity].
    destruct (IsPermissionError (Some e)); reflexivity. }
  split; [exact E|].
  unfold View. rewrite E.
  destruct ps as [svc|]; [|left; reflexivity].
  destruct (snd (ProgService.List svc)) as [e|]; [|left; reflexivity].
  right. split; [apply IsPermissionError_wrap | reflexivity].
Qed.

End Startup.

Section StartupScenario.
#[local] Existing Instance refList.widget.
#[local] Existing Instance refViewport.widget.
#[local] Existing Instance plainTheme.

(** C4, counterexample -- A probe that fails with the plain error
    ["some error"], which is not a permission error, still takes the
    fatal path: the error is stored, wrapped, as the top-level error and
    fills the screen. *)
Lemma other_probe_failure_takes_fatal_path :
  snd (ProgService.List Scenario.progsFailing) = Some (errors_New "some error")
  /\ IsPermissionError (Some (errors_New "some error")) = false
  /\ err (RunWithServices (Some Scenario.progsFailing) None)
     = Some (PermissionError (Some (errors_New "some error")))
  /\ View (RunWithServices (Some Scenario.progsFailing) None)
     = "Error: insufficient permissions: some error" ++ nl ++ nl
       ++ "Press 'q' to quit.".
Proof. repeat split; vm_compute; reflexivity. Qed.

(** C2, the code at the failing input -- Menu, program list, program
    detail, then Enter on the associated map 10 while the map service
    finds no such map: the failure of [Get] is stored as the top-level
    error of the root model and fills the screen; the map detail view
    that was entered holds no error and no record. *)
Lemma missing_cross_reference_sets_top_level_error :
  state Scenario.atMissingCrossRef = ViewMapDetail
  /\ history Scenario.atMissingCrossRef = [ViewMenu; ViewProgList; ViewProgDetail]
  /\ err Scenario.atMissingCrossRef = Some (errors_New "map not found")
  /\ mapDetailModel.mapInfo (mapDetail Scenario.atMissingCrossRef) = None
  /\ View Scenario.atMissingCrossRef
     = "Error: map not found" ++ nl ++ nl ++ "Press 'q' to quit.".
Proof. repeat split; vm_compute; reflexivity. Qed.

(** C3, counterexample -- Menu, map list, map detail, then a dump that
    fails: the error is stored in the dump model.  The back key returns
    to the map detail view and the error is still stored in the dump
    model. *)
Lemma dump_error_survives_back :
  state Scenario.atFailedDump = ViewMapDump
  /\ mapDumpModel.err (mapDump Scenario.atFailedDump)
     = Some (errors_New "failed to dump map contents")
  /\ state (fst (Update Scenario.atFailedDump Scenario.esc)) = ViewMapDetail
  /\ mapDumpModel.err (mapDump (fst (Update Scenario.atFailedDump Scenario.esc)))
     = Some (errors_New "failed to dump map contents").
Proof. repeat split; vm_compute; reflexivity. Qed.

End StartupScenario.

(* ===================================================================== *)
(** ** Trails *)

Lemma trail_cases (h : list ViewState) (s : ViewState) :
  trail (h ++ [s])%list = true ->
  (h = [] /\ s = ViewMenu)
  \/ (h = [ViewMenu] /\ s = ViewProgList)
  \/ (h = [ViewMenu; ViewProgList] /\ s = ViewProgDetail)
  \/ (h = [ViewMenu; ViewProgList; ViewProgDetail] /\ s = ViewMapDetail)
  \/ (h = [ViewMenu; ViewProgList; ViewProgDetail; ViewMapDetail] /\ s = ViewMapDump)
  \/ (h = [ViewMenu] /\ s = ViewMapList)
  \/ (h = [ViewMenu; ViewMapList] /\ s = ViewMapDetail)
  \/ (h = [ViewMenu; ViewMapList; ViewMapDetail] /\ s = ViewMapDump).
Proof.
  destruct h as [|a [|b [|c [|d [|e h]]]]]; cbn [app]; intro H.
  - destruct s; try discriminate H. tauto.
  - destruct a, s; try discriminate H; tauto.
  - destruct a, b, s; try discriminate H; tauto.
  - destruct a, b, c, s; try discriminate H; tauto.
  - destruct a, b, c, d, s; try discriminate H; tauto.
  - exfalso. destruct a, b, c, d, e; try discriminate H;
      destruct h as [|f h]; cbn in H; try discriminate H;
      destruct f; discriminate H.
Qed.

(* ===================================================================== *)
(** ** The steps of the sub-models *)

Section SubModels.
Context {LW : bubbles_list.Widget} {VW : bubbles_viewport.Widget} {TH : Theme}.
Context {LL : bubbles_list.Laws LW}.

Lemma FilterState_eqb_eq (a b : bubbles_list.FilterState) :
  bubbles_list.FilterState_eqb a b = true <-> a = b.
Proof. destruct a, b; cbn; split; congruence. Qed.

Lemma menuModel_Update_spec (mm mm' : menuModel.t) msg c t :
  menuModel.Update mm msg = (mm', c, t) ->
  bubbles_list.Items (menuModel.list_ mm') = bubbles_list.Items (menuModel.list_ mm)
  /\ match t with
     | Some v =>
         mm' = mm /\ c = tea.Nil
         /\ exists item, In item (bubbles_list.Items (menuModel.list_ mm))
                         /\ v = target item
     | None =>
         mm' = {| menuModel.list_ := fst (bubbles_list.Update (menuModel.list_ mm) msg) |}
         /\ c = snd (bubbles_list.Update (menuModel.list_ mm) msg)
     end.
Proof.
  unfold menuModel.Update, menuModel.toList.
  assert (F :
    (let '(l, cmd) := bubbles_list.Update (menuModel.list_ mm) msg in
     ({| menuModel.list_ := l |}, cmd, @None ViewState)) = (mm', c, t) ->
    bubbles_list.Items (menuModel.list_ mm')
    = bubbles_list.Items (menuModel.list_ mm)
    /\ match t with
       | Some v => mm' = mm /\ c = tea.Nil
           /\ exists item, In item (bubbles_list.Items (menuModel.list_ mm))
                           /\ v = target item
       | None =>
           mm' = {| menuModel.list_ :=
                     fst (bubbles_list.Update (menuModel.list_ mm) msg) |}
           /\ c = snd (bubbles_list.Update (menuModel.list_ mm) msg)
       end).
  { destruct (bubbles_list.Update (menuModel.list_ mm) msg) as [l cmd] eqn:U.
    intro E. inversion E; subst. cbn [menuModel.list_ fst snd].
    split; [|split; reflexivity].
    replace l with (fst (bubbles_list.Update (menuModel.list_ mm) msg))
      by (rewrite U; reflexivity).
    apply bubbles_list.Update_Items. }
  destruct msg as [k| |]; try exact F.
  destruct (String.eqb k "enter"); [|exact F].
  destruct (bubbles_list.SelectedItem (menuModel.list_ mm)) as [item|] eqn:S;
    [|exact F].
  intro E. inversion E; subst. split; [reflexivity|]. split; [reflexivity|].
  split; [reflexivity|]. exists item. split; [|reflexivity].
  eapply bubbles_list.SelectedItem_In, S.
Qed.

Lemma progListModel_Update_spec (pl pl' : progListModel.t) msg c sel :
  progListModel.Update pl msg = (pl', c, sel) ->
  progListModel.programs pl' = progListModel.programs pl
  /\ progListModel.err pl' = progListModel.err pl
  /\ bubbles_list.Items (progListModel.list_ pl')
     = bubbles_list.Items (progListModel.list_ pl)
  /\ match sel with
     | Some p =>
         pl' = pl /\ c = tea.Nil /\ progListModel.IsFiltering pl = false
         /\ exists k item, msg = tea.KeyMsg k
              /\ bubbles_list.SelectedItem (progListModel.list_ pl) = Some item
              /\ p = progItem_info item
     | None =>
         progListModel.list_ pl'
         = fst (bubbles_list.Update (progListModel.list_ pl) msg)
         /\ c = snd (bubbles_list.Update (progListModel.list_ pl) msg)
         /\ ((forall k, msg <> tea.KeyMsg k) ->
             progListModel.IsFiltering pl' = true ->
             progListModel.IsFiltering pl = true)
     end.
Proof.
  unfold progListModel.Update, progListModel.toList.
  assert (F :
    (let '(l, cmd) := bubbles_list.Update (progListModel.list_ pl) msg in
     ({| progListModel.list_ := l; progListModel.programs := progListModel.programs pl;
         progListModel.err := progListModel.err pl |}, cmd, @None ProgramInfo.t))
    = (pl', c, sel) ->
    progListModel.programs pl' = progListModel.programs pl
    /\ progListModel.err pl' = progListModel.err pl
    /\ bubbles_list.Items (progListModel.list_ pl')
       = bubbles_list.Items (progListModel.list_ pl)
    /\ match sel with
       | Some p =>
           pl' = pl /\ c = tea.Nil /\ progListModel.IsFiltering pl = false
           /\ exists k item, msg = tea.KeyMsg k
                /\ bubbles_list.SelectedItem (progListModel.list_ pl) = Some item
                /\ p = progItem_info item
       | None =>
           progListModel.list_ pl'
           = fst (bubbles_list.Update (progListModel.list_ pl) msg)
           /\ c = snd (bubbles_list.Update (progListModel.list_ pl) msg)
           /\ ((forall k, msg <> tea.KeyMsg k) ->
               progListModel.IsFiltering pl' = true ->
               progListModel.IsFiltering pl = true)
       end).
  { destruct (bubbles_list.Update (progListModel.list_ pl) msg) as [l cmd] eqn:U.
    intro E. inversion E; subst. cbn [progListModel.list_ progListModel.programs
      progListModel.err fst snd].
    assert (L : l = fst (bubbles_list.Update (progListModel.list_ pl) msg))
      by (rewrite U; reflexivity).
    repeat split.
    - rewrite L. apply bubbles_list.Update_Items.
    - intros Hk. unfold progListModel.IsFiltering. cbn [progListModel.list_].
      rewrite !FilterState_eqb_eq, L.
      apply bubbles_list.Update_FilterState, Hk. }
  destruct msg as [k| |]; try exact F.
  destruct (bubbles_list.FilterState_eqb _ _) eqn:Fs; [exact F|].
  destruct (String.eqb k "enter"); [|exact F].
  destruct (bubbles_list.SelectedItem (progListModel.list_ pl)) as [item|] eqn:S;
    [|exact F].
  intro E. inversion E; subst. repeat split.
  - exact Fs.
  - exists k, item. auto.
Qed.

Lemma mapListModel_Update_spec (ml ml' : mapListModel.t) msg c sel :
  mapListModel.Update ml msg = (ml', c, sel) ->
  mapListModel.maps ml' = mapListModel.maps ml
  /\ mapListModel.err ml' = mapListModel.err ml
  /\ bubbles_list.Items (mapListModel.list_ ml')
     = bubbles_list.Items (mapListModel.list_ ml)
  /\ match sel with
     | Some p =>
         ml' = ml /\ c = tea.Nil /\ mapListModel.IsFiltering ml = false
         /\ exists k item, msg = tea.KeyMsg k
              /\ bubbles_list.SelectedItem (mapListModel.list_ ml) = Some item
              /\ p = mapItem_info item
     | None =>
         mapListModel.list_ ml'
         = fst (bubbles_list.Update (mapListModel.list_ ml) msg)
         /\ c = snd (bubbles_list.Update (mapListModel.list_ ml) msg)
         /\ ((forall k, msg <> tea.KeyMsg k) ->
             mapListModel.IsFiltering ml' = true ->
             mapListModel.IsFiltering ml = true)
     end.
Proof.
  unfold mapListModel.Update, mapListModel.toList.
  assert (F :
    (let '(l, cmd) := bubbles_list.Update (mapListModel.list_ ml) msg in
     ({| mapListModel.list_ := l; mapListModel.maps := mapListModel.maps ml;
         mapListModel.err := mapListModel.err ml |}, cmd, @None MapInfo.t))
    = (ml', c, sel) ->
    mapListModel.maps ml' = mapListModel.maps ml
    /\ mapListModel.err ml' = mapListModel.err ml
    /\ bubbles_list.Items (mapListModel.list_ ml')
       = bubbles_list.Items (mapListModel.list_ ml)
    /\ match sel with
       | Some p =>
           ml' = ml /\ c = tea.Nil /\ mapListModel.IsFiltering ml = false
           /\ exists k item, msg = tea.KeyMsg k
                /\ bubbles_list.SelectedItem (mapListModel.list_ ml) = Some item
                /\ p = mapItem_info item
       | None =>
           mapListModel.list_ ml'
           = fst (bubbles_list.Update (mapListModel.list_ ml) msg)
           /\ c = snd (bubbles_list.Update (mapListModel.list_ ml) msg)
           /\ ((forall k, msg <> tea.KeyMsg k) ->
               mapListModel.IsFiltering ml' = true ->
               mapListModel.IsFiltering ml = true)
       end).
  { destruct (bubbles_list.Update (mapListModel.list_ ml) msg) as [l cmd] eqn:U.
    intro E. inversion E; subst. cbn [mapListModel.list_ mapListModel.maps
      mapListModel.err fst snd].
    assert (L : l = fst (bubbles_list.Update (mapListModel.list_ ml) msg))
      by (rewrite U; reflexivity).
    repeat split.
    - rewrite L. apply bubbles_list.Update_Items.
    - intros Hk. unfold mapListModel.IsFiltering. cbn [mapListModel.list_].
      rewrite !FilterState_eqb_eq, L.
      apply bubbles_list.Update_FilterState, Hk. }
  destruct msg as [k| |]; try exact F.
  destruct (bubbles_list.FilterState_eqb _ _) eqn:Fs; [exact F|].
  destruct (String.eqb k "enter"); [|exact F].
  destruct (bubbles_list.SelectedItem (mapListModel.list_ ml)) as [item|] eqn:S;
    [|exact F].
  intro E. inversion E; subst. repeat split.
  - exact Fs.
  - exists k, item. auto.
Qed.

End SubModels.

(* ===================================================================== *)
(** ** The steps of the root model *)

Section ListSizes.
Context {LW : bubbles_list.Widget} {TH : Theme} {LL : bubbles_list.Laws LW}.

Lemma IsFiltering_SetSize_prog w h (pl : progListModel.t) :
  progListModel.IsFiltering (progListModel.SetSize w h pl)
  = progListModel.IsFiltering pl.
Proof.
  unfold progListModel.IsFiltering, progListModel.SetSize.
  cbn [progListModel.list_]. now rewrite bubbles_list.SetSize_FilterState.
Qed.

Lemma IsFiltering_SetSize_map w h (ml : mapListModel.t) :
  mapListModel.IsFiltering (mapListModel.SetSize w h ml)
  = mapListModel.IsFiltering ml.
Proof.
  unfold mapListModel.IsFiltering, mapListModel.SetSize.
  cbn [mapListModel.list_]. now rewrite bubbles_list.SetSize_FilterState.
Qed.

End ListSizes.

(** One case per branch of the root handlers; the steps of the sub-models
    are kept as equations and replaced by their descriptions. *)
Ltac break_step :=
  match goal with
  | |- context [menuModel.Update ?a ?b] =>
      destruct (menuModel.Update a b) as [[? ?] ?] eqn:?
  | |- context [progListModel.Update ?a ?b] =>
      destruct (progListModel.Update a b) as [[? ?] ?] eqn:?
  | |- context [mapListModel.Update ?a ?b] =>
      destruct (mapListModel.Update a b) as [[? ?] ?] eqn:?
  | |- context [progDetailModel.Update ?a ?b] =>
      destruct (progDetailModel.Update a b) as [[? ?] ?] eqn:?
  | |- context [mapDetailModel.Update ?a ?b] =>
      destruct (mapDetailModel.Update a b) as [[? ?] ?] eqn:?
  | |- context [mapDumpModel.Update ?a ?b] =>
      destruct (mapDumpModel.Update a b) as [? ?] eqn:?
  | |- context [ProgService.List ?a] =>
      destruct (ProgService.List a) as [? ?] eqn:?
  | |- context [MapsService.List ?a] =>
      destruct (MapsService.List a) as [? ?] eqn:?
  | |- context [MapsService.Get ?a ?b] =>
      destruct (MapsService.Get a b) as [? ?] eqn:?
  | |- context [MapsService.Dump ?a ?b] =>
      destruct (MapsService.Dump a b) as [? ?] eqn:?
  | |- context [match ?x with _ => _ end] =>
      lazymatch x with
      | context [match _ with _ => _ end] => fail
      | _ => destruct x eqn:?
      end
  end.

Ltac unfold_root :=
  unfold Update, handleKeyMsg, handleHelpKey, handleHelpShowing, handleBackKey,
    handleViewKeys, handleOtherMsg, handleMenuKeys, handleProgListKeys,
    handleProgDetailKeys, handleMapListKeys, handleMapDetailKeys,
    handleMapDumpKeys, popState, loadPrograms, loadMaps, loadMapByID,
    loadMapDump, pushState.

Ltac use_specs :=
  repeat match goal with
  | H : menuModel.Update _ _ = _ |- _ =>
      apply menuModel_Update_spec in H; destruct H as [? ?]
  | H : progListModel.Update _ _ = _ |- _ =>
      apply progListModel_Update_spec in H; destruct H as (? & ? & ? & ?)
  | H : mapListModel.Update _ _ = _ |- _ =>
      apply mapListModel_Update_spec in H; destruct H as (? & ? & ? & ?)
  end.

Ltac pair_inv :=
  repeat match goal with
  | H : (_, _) = (_, _) |- _ => inversion H; clear H; subst
  end.

Ltac bool_rw :=
  repeat match goal with
  | H : ?x = false |- context [?x] => rewrite H
  | H : ?x = true |- context [?x] => rewrite H
  end.

(** The menu only offers the program list and the map list. *)
Ltac menu_absurd :=
  match goal with
  | H : exists item : menuItem, In item _ /\ _ = target item,
    I : _ = menuModel.menuItems |- _ =>
      let it := fresh in
      let Hin := fresh in
      let Ht := fresh in
      destruct H as (it & Hin & Ht); rewrite I in Hin; cbn in Hin;
      destruct Hin as [<-|[<-|[]]]; discriminate Ht
  end.

Ltac finish_step :=
  pair_inv; cbn in *; intuition idtac; subst; cbn in *;
  rewrite ?IsFiltering_SetSize_prog, ?IsFiltering_SetSize_map,
    ?bubbles_list.SetSize_Items, ?orb_true_r, ?orb_false_r,
    ?andb_true_r, ?andb_false_r in *;
  bool_rw; cbn; rewrite ?orb_true_r;
  try reflexivity; try assumption; try congruence;
  try menu_absurd;
  try (match goal with H : ?a = ?b |- ?a = _ => rewrite H end; assumption).

Section Steps.
Context {LW : bubbles_list.Widget} {VW : bubbles_viewport.Widget} {TH : Theme}.
Context {LL : bubbles_list.Laws LW}.

Lemma navInv_NewModel ps ms : navInv (NewModel ps ms).
Proof.
  constructor; unfold filterEntry; cbn.
  - reflexivity.
  - apply bubbles_list.New_Items.
  - unfold progListModel.IsFiltering. cbn.
    now rewrite bubbles_list.New_FilterState.
  - unfold mapListModel.IsFiltering. cbn.
    now rewrite bubbles_list.New_FilterState.
  - reflexivity.
Qed.

Lemma navInv_RunWithServices ps ms : navInv (RunWithServices ps ms).
Proof.
  unfold RunWithServices.
  destruct (checkPermissions (NewModel ps ms)); [|apply navInv_NewModel].
  destruct (navInv_NewModel ps ms) as [I1 I2 I3 I4 I5].
  constructor; assumption.
Qed.

Lemma navInv_Update m msg : navInv m -> navInv (fst (Update m msg)).
Proof.
  intros [I1 I2 I3 I4 I5].
  destruct m as [s h ps ms mn pl pd ml md dp w hh e ks sh].
  cbn [state history menu progList mapList showHelp] in *.
  unfold filterEntry in I5.
  cbn [state history menu progList mapList showHelp] in *.
  apply trail_cases in I1.
  destruct I1 as
    [[-> ->]|[[-> ->]|[[-> ->]|[[-> ->]|[[-> ->]|[[-> ->]|[[-> ->]|[-> ->]]]]]]]].
  all: unfold_root;
    cbn [state history menu progList mapList showHelp keys progSvc mapsSvc
         ViewState_eqb andb negb].
  all: repeat break_step.
  all: use_specs.
  all: constructor; unfold filterEntry; cbn.
  all: try solve [finish_step].
  all: match goal with
       | H : match ?o with Some _ => _ | None => _ end |- _ =>
           destruct o;
           [ destruct H as (_ & _ & _ & ? & ? & D & _); discriminate D
           | destruct H as (_ & _ & Himp) ]
       end.
  all: destruct sh; cbn; [|reflexivity]; cbn in I5.
  all: rewrite ?orb_false_r in *.
  all: match goal with
       | |- negb ?f = true =>
           destruct f eqn:F; [|reflexivity];
           rewrite Himp in I5 by (auto; discriminate); discriminate I5
       end.
Qed.

Lemma navInv_runMsgs msgs : forall m, navInv m -> navInv (runMsgs m msgs).
Proof.
  induction msgs as [|msg msgs IH]; intros m H; [exact H|].
  apply IH, navInv_Update, H.
Qed.

Lemma navInv_reachable ps ms msgs : navInv (runMsgs (RunWithServices ps ms) msgs).
Proof. apply navInv_runMsgs, navInv_RunWithServices. Qed.

Lemma keys_Update m msg : keys (fst (Update m msg)) = keys m.
Proof. unfold_root. repeat break_step; reflexivity. Qed.

End Steps.

(* ===================================================================== *)
(** ** Back navigation *)

Section BackNavigation.
Context {LW : bubbles_list.Widget} {VW : bubbles_viewport.Widget} {TH : Theme}.

Lemma backKey_inv (m : Model) k :
  backKey m k = true ->
  key.Matches k (Back (keys m)) = true
  /\ key.Matches k (Quit (keys m)) = false
  /\ key.Matches k (Help (keys m)) = false.
Proof.
  unfold backKey. intro H.
  apply andb_prop in H. destruct H as [H H3].
  apply andb_prop in H. destruct H as [H1 H2].
  apply negb_true_iff in H2, H3. auto.
Qed.

Lemma filterEntry_inv (m : Model) :
  filterEntry m = false ->
  ViewState_eqb (state m) ViewProgList && progListModel.IsFiltering (progList m) = false
  /\ ViewState_eqb (state m) ViewMapList && mapListModel.IsFiltering (mapList m) = false.
Proof. unfold filterEntry. intro H. apply orb_false_elim in H. exact H. Qed.

(** A back key, with the help overlay hidden and no filter being
    typed, pops the history unless the menu is shown. *)
Lemma back_press (m : Model) k :
  backKey m k = true -> showHelp m = false -> filterEntry m = false ->
  Update m (tea.KeyMsg k)
  = if negb (ViewState_eqb (state m) ViewMenu)
    then (set_err None (set_state (snd (popState m)) (fst (popState m))), tea.Nil)
    else (m, tea.Nil).
Proof.
  intros Hk Hh Hf.
  destruct (backKey_inv _ _ Hk) as (B & Q & H).
  destruct (filterEntry_inv _ Hf) as [F1 F2].
  unfold Update, handleKeyMsg, handleHelpKey, handleHelpShowing, handleBackKey.
  rewrite Q, H, Hh, B, F1, F2.
  destruct (negb (ViewState_eqb (state m) ViewMenu)); [|reflexivity].
  destruct (popState m); reflexivity.
Qed.

Lemma popState_frame (m : Model) :
  let m' := fst (popState m) in
  menu m' = menu m /\ progList m' = progList m /\ progDetail m' = progDetail m
  /\ mapList m' = mapList m /\ mapDetail m' = mapDetail m
  /\ mapDump m' = mapDump m /\ state m' = state m /\ showHelp m' = showHelp m
  /\ keys m' = keys m.
Proof.
  unfold popState. destruct (len (history m) =? 0); cbn; repeat split.
Qed.

(** C3, as amended -- A back key that navigates backward (help overlay
    hidden, no filter being typed, current view not the menu) makes the
    view popped off the history the current one and clears the
    top-level error of the root model; it leaves every sub-model as it
    is, so that an error stored in the view that is left stays stored
    there.  A failing dump fetch stores its error in the dump model
    only: the top-level error and the map detail model are untouched;
    the stored dump error is replaced by the next load of the dump view
    ([SetMapDump] clears it), not by the back key. *)
Theorem back_clears_top_level_error_only (m : Model) (k : string) :
  backKey m k = true -> showHelp m = false -> filterEntry m = false ->
  ViewState_eqb (state m) ViewMenu = false ->
  let m' := fst (Update m (tea.KeyMsg k)) in
  (err m' = None
   /\ state m' = snd (popState m)
   /\ history m' = history (fst (popState m))
   /\ menu m' = menu m /\ progList m' = progList m
   /\ progDetail m' = progDetail m /\ mapList m' = mapList m
   /\ mapDetail m' = mapDetail m /\ mapDump m' = mapDump m)
  /\ (forall svc id e entries,
        mapsSvc m = Some svc ->
        MapsService.Dump svc id = (entries, Some e) ->
        let m1 := loadMapDump id (pushState ViewMapDump m) in
        mapDumpModel.err (mapDump m1) = Some e
        /\ err m1 = err m
        /\ mapDetail m1 = mapDetail m
        /\ err (fst (Update m1 (tea.KeyMsg k))) = None
        /\ mapDumpModel.err (mapDump (fst (Update m1 (tea.KeyMsg k)))) = Some e)
  /\ (forall id name entries (d : mapDumpModel.t),
        mapDumpModel.err (mapDumpModel.SetMapDump id name entries d) = None).
Proof.
  intros Hk Hh Hf Hs m'.
  assert (Dump_err : forall (d : mapDumpModel.t),
            mapDumpModel.err (mapDumpModel.updateViewport d) = mapDumpModel.err d).
  { intro d. unfold mapDumpModel.updateViewport.
    destruct (negb (mapDumpModel.ready d)); reflexivity. }
  split; [|split].
  - subst m'. rewrite (back_press _ _ Hk Hh Hf), Hs. cbn [negb fst].
    destruct (popState_frame m) as (? & ? & ? & ? & ? & ? & _).
    cbn [err state history menu progList progDetail mapList mapDetail mapDump
         set_err set_state].
    repeat split; assumption.
  - intros svc id e entries Hsvc Hd m1.
    assert (E1 : mapDumpModel.err (mapDump m1) = Some e
                 /\ err m1 = err m /\ mapDetail m1 = mapDetail m
                 /\ state m1 = ViewMapDump /\ showHelp m1 = showHelp m
                 /\ keys m1 = keys m).
    { subst m1. unfold loadMapDump, pushState. cbn [mapsSvc set_state set_history].
      rewrite Hsvc, Hd. cbn.
      unfold mapDumpModel.SetError. rewrite Dump_err. repeat split. }
    destruct E1 as (E1 & E2 & E3 & E4 & E5 & E6).
    split; [exact E1|]. split; [exact E2|]. split; [exact E3|].
    assert (Hk1 : backKey m1 k = true) by (unfold backKey; rewrite E6; exact Hk).
    assert (Hf1 : filterEntry m1 = false) by (unfold filterEntry; rewrite E4; reflexivity).
    rewrite (back_press _ _ Hk1 (eq_trans E5 Hh) Hf1), E4. cbn [ViewState_eqb negb fst].
    destruct (popState_frame m1) as (_ & _ & _ & _ & _ & D & _).
    cbn [err mapDump set_err set_state]. rewrite D. auto.
  - intros id name entries d. unfold mapDumpModel.SetMapDump.
    rewrite Dump_err. reflexivity.
Qed.

End BackNavigation.

(* ===================================================================== *)
(** ** The history stack *)

Section Stack.
Context {LW : bubbles_list.Widget} {VW : bubbles_viewport.Widget} {TH : Theme}.
Context {LL : bubbles_list.Laws LW}.

Lemma backKey_Update (m : Model) msg k :
  backKey (fst (Update m msg)) k = backKey m k.
Proof. unfold backKey. rewrite keys_Update. reflexivity. Qed.

(** Each step leaves view and history alone, or enters a view by a
    forward transition and pushes the view it leaves, or pops. *)
Lemma Update_nav (m : Model) msg :
  navInv m ->
  let m' := fst (Update m msg) in
  (state m' = state m /\ history m' = history m)
  \/ (history m' = (history m ++ [state m])%list
      /\ forwardEdge (state m) (state m') = true)
  \/ (history m = (history m' ++ [state m'])%list).
Proof.
  intros [I1 I2 I3 I4 I5].
  destruct m as [s h ps ms mn pl pd ml md dp w hh e ks sh].
  cbn [state history menu progList mapList showHelp] in *.
  apply trail_cases in I1.
  destruct I1 as
    [[-> ->]|[[-> ->]|[[-> ->]|[[-> ->]|[[-> ->]|[[-> ->]|[[-> ->]|[-> ->]]]]]]]].
  all: unfold_root;
    cbn [state history menu progList mapList showHelp keys progSvc mapsSvc
         ViewState_eqb andb negb].
  all: repeat break_step.
  all: use_specs.
  all: cbn.
  all: try solve [left; split; reflexivity].
  all: try solve [right; left; split; reflexivity].
  all: try solve [right; right; reflexivity].
  all: exfalso; clear I3 I4 I5; finish_step.
Qed.

(** A back key never enters a view. *)
Lemma back_nav (m : Model) k :
  navInv m -> backKey m k = true ->
  let m' := fst (Update m (tea.KeyMsg k)) in
  (state m' = state m /\ history m' = history m)
  \/ (history m = (history m' ++ [state m'])%list).
Proof.
  intros I Hk.
  destruct (backKey_inv _ _ Hk) as (B & Q & H).
  destruct I as [I1 I2 I3 I4 I5].
  destruct m as [s h ps ms mn pl pd ml md dp w hh e ks sh].
  cbn [state history menu progList mapList showHelp keys] in *.
  apply trail_cases in I1.
  destruct I1 as
    [[-> ->]|[[-> ->]|[[-> ->]|[[-> ->]|[[-> ->]|[[-> ->]|[[-> ->]|[-> ->]]]]]]]].
  all: unfold_root;
    cbn [state history menu progList mapList showHelp keys progSvc mapsSvc
         ViewState_eqb andb negb];
    rewrite B, Q, H.
  all: repeat break_step.
  all: use_specs.
  all: cbn.
  all: try solve [left; split; reflexivity].
  all: try solve [right; reflexivity].
  all: exfalso; clear I3 I4 I5; finish_step.
Qed.

Lemma popped_prefix (k : string) (n : nat) :
  forall m, navInv m -> backKey m k = true ->
  exists rest, rev (history m) = (popped k n m ++ rest)%list.
Proof.
  induction n as [|n IH]; intros m I Hk.
  - exists (rev (history m)). reflexivity.
  - cbn [popped].
    destruct (IH (fst (Update m (tea.KeyMsg k))))
      as [rest Hrest];
      [apply navInv_Update, I | rewrite backKey_Update; exact Hk |].
    pose proof (@back_nav m k I Hk) as N. cbv zeta in N.
    set (m' := fst (Update m (tea.KeyMsg k))) in *.
    destruct N as [[_ Hh] | Hh].
    + rewrite Hh, Nat.ltb_irrefl. exists rest. rewrite <- Hh. exact Hrest.
    + rewrite Hh, length_app, rev_unit. cbn [List.length].
      replace (List.length (history m') <? List.length (history m') + 1)%nat
        with true by (symmetry; apply Nat.ltb_lt; lia).
      exists rest. rewrite Hrest. reflexivity.
Qed.

(** After a back key that pops, the help overlay is still hidden and no
    filter is being typed in the view returned to. *)
Lemma back_press_pops (m : Model) k :
  navInv m -> backKey m k = true -> showHelp m = false ->
  filterEntry m = false -> history m <> [] ->
  let m' := fst (Update m (tea.KeyMsg k)) in
  history m = (history m' ++ [state m'])%list
  /\ showHelp m' = false /\ filterEntry m' = false.
Proof.
  intros I Hk Hh Hf Hne m'. subst m'.
  rewrite (back_press _ _ Hk Hh Hf).
  destruct I as [I1 I2 I3 I4 I5].
  destruct m as [s h ps ms mn pl pd ml md dp w hh e ks sh].
  cbn [state history menu progList mapList showHelp keys] in *.
  apply trail_cases in I1.
  destruct I1 as
    [[-> ->]|[[-> ->]|[[-> ->]|[[-> ->]|[[-> ->]|[[-> ->]|[[-> ->]|[-> ->]]]]]]]].
  all: try (exfalso; apply Hne; reflexivity).
  all: unfold filterEntry; cbn in *; rewrite ?orb_false_r.
  all: repeat split; try assumption.
  all: try (apply negb_true_iff; assumption).
Qed.

Lemma visited_all (k : string) (n : nat) :
  forall m, navInv m -> backKey m k = true -> showHelp m = false ->
  filterEntry m = false -> List.length (history m) = n ->
  visited k n m = rev (history m) /\ popped k n m = rev (history m).
Proof.
  induction n as [|n IH]; intros m I Hk Hh Hf Hn.
  - destruct (history m); [split; reflexivity | discriminate Hn].
  - assert (Hne : history m <> []) by (intro E; rewrite E in Hn; discriminate Hn).
    destruct (@back_press_pops m k I Hk Hh Hf Hne) as (H1 & H2 & H3).
    cbn [visited popped].
    set (m' := fst (Update m (tea.KeyMsg k))) in *.
    assert (Hl : List.length (history m') = n).
    { rewrite H1 in Hn. rewrite length_app in Hn. cbn [List.length] in Hn. lia. }
    destruct (IH m') as [V P];
      [apply navInv_Update, I | apply (eq_trans (backKey_Update m _ k) Hk)
      | exact H2 | exact H3 | exact Hl |].
    rewrite V, P, Hl, Hn.
    replace (n <? S n)%nat with true by (symmetry; apply Nat.ltb_lt; lia).
    rewrite H1, rev_unit. split; reflexivity.
Qed.

(** C1 -- Stack symmetry.  In every state the program reaches, the
    history followed by the current view is the trail of forward
    transitions (menu selection, list selection, cross-reference
    follow, dump request) that lead from the menu to the current view;
    each step either keeps view and history, or enters a view by a
    forward transition and pushes the view it leaves, or pops.  The
    views popped by any number of presses of a back key are the first
    views of the reversed history; when the help overlay is hidden and
    no filter is being typed, as many presses as the history is long
    visit exactly the reversed history.  In particular, from the map
    detail view reached through a cross-reference (history: menu,
    program list, program detail) three presses visit the program
    detail, the program list and the menu, in that order. *)
Theorem stack_symmetry (ps : option ProgService.t) (ms : option MapsService.t)
    (msgs : list tea.Msg) (k : string) :
  let m := runMsgs (RunWithServices ps ms) msgs in
  backKey m k = true ->
  trail (history m ++ [state m])%list = true
  /\ (forall msg,
        let m' := fst (Update m msg) in
        (state m' = state m /\ history m' = history m)
        \/ (history m' = (history m ++ [state m])%list
            /\ forwardEdge (state m) (state m') = true)
        \/ history m = (history m' ++ [state m'])%list)
  /\ (forall n, exists rest, rev (history m) = (popped k n m ++ rest)%list)
  /\ (showHelp m = false -> filterEntry m = false ->
      visited k (List.length (history m)) m = rev (history m)
      /\ popped k (List.length (history m)) m = rev (history m))
  /\ (showHelp m = false -> state m = ViewMapDetail ->
      history m = [ViewMenu; ViewProgList; ViewProgDetail] ->
      visited k 3 m = [ViewProgDetail; ViewProgList; ViewMenu]).
Proof.
  intros m Hk.
  pose proof (navInv_reachable ps ms msgs) as I. fold m in I.
  split; [apply (inv_trail I)|].
  split; [intro msg; apply Update_nav, I|].
  split; [intro n; apply popped_prefix; assumption|].
  split; [intros Hh Hf; apply visited_all; auto|].
  intros Hh Hs Hhist.
  assert (Hf : filterEntry m = false) by (unfold filterEntry; rewrite Hs; reflexivity).
  destruct (@visited_all k 3 m I Hk Hh Hf) as [V _];
    [rewrite Hhist; reflexivity|].
  rewrite V, Hhist. reflexivity.
Qed.

(** C10 -- In every state reached from the initial model, the history
    is empty exactly when the current view is the menu, and the menu
    occurs in the history at the bottom only (and does so whenever the
    history is not empty).  Hence, whenever the current view is not the
    menu, which is when the back key calls [popState], the history is
    not empty and [popState] returns its last element, not the
    fallback. *)
Theorem history_empty_iff_menu (ps : option ProgService.t)
    (ms : option MapsService.t) (msgs : list tea.Msg) :
  let m := runMsgs (RunWithServices ps ms) msgs in
  (history m = [] <-> state m = ViewMenu)
  /\ (forall i, nth_error (history m) i = Some ViewMenu <->
                (i = 0%nat /\ history m <> []))
  /\ (state m <> ViewMenu ->
      (len (history m) =? 0) = false
      /\ popState m = (set_history (removelast (history m)) m,
                       last (history m) ViewMenu)).
Proof.
  intro m.
  pose proof (navInv_reachable ps ms msgs) as I. fold m in I.
  destruct I as [I1 _ _ _ _]. unfold popState.
  apply trail_cases in I1.
  destruct I1 as
    [[-> ->]|[[-> ->]|[[-> ->]|[[-> ->]|[[-> ->]|[[-> ->]|[[-> ->]|[-> ->]]]]]]]].
  all: split; [split; intro H; (reflexivity || discriminate H)|].
  all: split;
    [ intro i; split;
      [ intro H; destruct i as [|[|[|[|[|i]]]]]; cbn in H; try discriminate H;
        (split; [reflexivity | discriminate])
      | intros [-> H]; cbn; (reflexivity || (exfalso; apply H; reflexivity)) ]
    | intro H; try (exfalso; apply H; reflexivity) ].
  all: split; reflexivity.
Qed.

End Stack.

(* ===================================================================== *)
(** ** Quitting *)

Section Quit.
Context {LW : bubbles_list.Widget} {VW : bubbles_viewport.Widget} {TH : Theme}.




Lemma keys_runMsgs msgs : forall m : Model, keys (runMsgs m msgs) = keys m.
Proof.
  induction msgs as [|msg msgs IH]; intro m; [reflexivity|].
  cbn [runMsgs fold_left]. fold (runMsgs (fst (Update m msg)) msgs).
  rewrite IH. apply keys_Update.
Qed.

Lemma keys_reachable ps ms msgs :
  keys (runMsgs (RunWithServices ps ms) msgs) = defaultKeyMap.
Proof.
  rewrite keys_runMsgs. unfold RunWithServices.
  destruct (checkPermissions (NewModel ps ms)); reflexivity.
Qed.

Context {LL : bubbles_list.Laws LW}.





End Quit.

(* ===================================================================== *)
(** ** Empty lists *)

Section EmptyLists.
Context {LW : bubbles_list.Widget} {VW : bubbles_viewport.Widget} {TH : Theme}.
Context {LL : bubbles_list.Laws LW}.

Lemma progListAfter_frame msgs : forall pl : progListModel.t,
  progListModel.programs (progListAfter pl msgs) = progListModel.programs pl
  /\ progListModel.err (progListAfter pl msgs) = progListModel.err pl
  /\ bubbles_list.Items (progListModel.list_ (progListAfter pl msgs))
     = bubbles_list.Items (progListModel.list_ pl).
Proof.
  induction msgs as [|msg msgs IH]; intro pl; [repeat split|].
  cbn [progListAfter fold_left].
  fold (progListAfter (fst (fst (progListModel.Update pl msg))) msgs).
  destruct (IH (fst (fst (progListModel.Update pl msg)))) as (-> & -> & ->).
  destruct (progListModel.Update pl msg) as [[pl' c] sel] eqn:E.
  apply progListModel_Update_spec in E. destruct E as (? & ? & ? & _). auto.
Qed.

Lemma mapListAfter_frame msgs : forall ml : mapListModel.t,
  mapListModel.maps (mapListAfter ml msgs) = mapListModel.maps ml
  /\ mapListModel.err (mapListAfter ml msgs) = mapListModel.err ml
  /\ bubbles_list.Items (mapListModel.list_ (mapListAfter ml msgs))
     = bubbles_list.Items (mapListModel.list_ ml).
Proof.
  induction msgs as [|msg msgs IH]; intro ml; [repeat split|].
  cbn [mapListAfter fold_left].
  fold (mapListAfter (fst (fst (mapListModel.Update ml msg))) msgs).
  destruct (IH (fst (fst (mapListModel.Update ml msg)))) as (-> & -> & ->).
  destruct (mapListModel.Update ml msg) as [[ml' c] sel] eqn:E.
  apply mapListModel_Update_spec in E. destruct E as (? & ? & ? & _). auto.
Qed.

Lemma no_items_no_selection {A} {I : bubbles_list.Item A}
    (l : bubbles_list.Model A) :
  bubbles_list.Items l = [] -> bubbles_list.SelectedItem l = None.
Proof.
  intro E. destruct (bubbles_list.SelectedItem l) as [x|] eqn:S; [|reflexivity].
  apply bubbles_list.SelectedItem_In in S. rewrite E in S. destruct S.
Qed.

Lemma progList_empty (pl : progListModel.t) msg :
  bubbles_list.Items (progListModel.list_ pl) = [] ->
  snd (progListModel.Update pl msg) = None
  /\ bubbles_list.Items
       (progListModel.list_ (fst (fst (progListModel.Update pl msg)))) = [].
Proof.
  intro E. destruct (progListModel.Update pl msg) as [[pl' c] sel] eqn:U.
  apply progListModel_Update_spec in U. destruct U as (_ & _ & It & S).
  cbn [fst snd]. rewrite It. split; [|exact E].
  destruct sel as [p|]; [|reflexivity].
  destruct S as (_ & _ & _ & k & item & _ & Sel & _).
  rewrite (no_items_no_selection _ E) in Sel. discriminate Sel.
Qed.

Lemma mapList_empty (ml : mapListModel.t) msg :
  bubbles_list.Items (mapListModel.list_ ml) = [] ->
  snd (mapListModel.Update ml msg) = None
  /\ bubbles_list.Items
       (mapListModel.list_ (fst (fst (mapListModel.Update ml msg)))) = [].
Proof.
  intro E. destruct (mapListModel.Update ml msg) as [[ml' c] sel] eqn:U.
  apply mapListModel_Update_spec in U. destruct U as (_ & _ & It & S).
  cbn [fst snd]. rewrite It. split; [|exact E].
  destruct sel as [p|]; [|reflexivity].
  destruct S as (_ & _ & _ & k & item & _ & Sel & _).
  rewrite (no_items_no_selection _ E) in Sel. discriminate Sel.
Qed.

(** C9 -- The empty-list edge case.  Once a list model has been given
    an empty collection and holds no error, then, whatever messages it
    has handled since: its view is the empty-state message; no item is
    selected, and none is after a further key press such as up or
    down; no key press, confirm included, reports a selection; and so
    the key handler of the root model for that list neither changes
    the view nor the history.  This holds of the program list and of
    the map list. *)
Theorem empty_list_edge_case (pl0 : progListModel.t) (ml0 : mapListModel.t)
    (msgs : list tea.Msg) (k : string) :
  progListModel.err pl0 = None -> mapListModel.err ml0 = None ->
  let pl := progListAfter (progListModel.SetPrograms [] pl0) msgs in
  let ml := mapListAfter (mapListModel.SetMaps [] ml0) msgs in
  (progListModel.View pl
   = titleStyle "BPF Programs" ++ nl ++ nl ++ dimStyle "No BPF programs loaded"
   /\ progListModel.SelectedItem pl = None
   /\ snd (progListModel.Update pl (tea.KeyMsg k)) = None
   /\ progListModel.SelectedItem
        (fst (fst (progListModel.Update pl (tea.KeyMsg k)))) = None
   /\ (forall m : Model,
         progList m = pl ->
         state (fst (handleProgListKeys m (tea.KeyMsg k))) = state m
         /\ history (fst (handleProgListKeys m (tea.KeyMsg k))) = history m))
  /\ (mapListModel.View ml
      = titleStyle "BPF Maps" ++ nl ++ nl ++ dimStyle "No BPF maps loaded"
      /\ mapListModel.SelectedItem ml = None
      /\ snd (mapListModel.Update ml (tea.KeyMsg k)) = None
      /\ mapListModel.SelectedItem
           (fst (fst (mapListModel.Update ml (tea.KeyMsg k)))) = None
      /\ (forall m : Model,
            mapList m = ml ->
            state (fst (handleMapListKeys m (tea.KeyMsg k))) = state m
            /\ history (fst (handleMapListKeys m (tea.KeyMsg k))) = history m)).
Proof.
  intros Ep Em pl ml. split.
  - destruct (progListAfter_frame msgs (progListModel.SetPrograms [] pl0))
      as (P & E & It).
    fold pl in P, E, It. cbn [progListModel.SetPrograms progListModel.programs
      progListModel.err progListModel.list_ map] in P, E, It.
    rewrite bubbles_list.SetItems_Items in It. rewrite Ep in E.
    destruct (progList_empty pl (tea.KeyMsg k) It) as [S It'].
    split; [unfold progListModel.View; rewrite P, E; reflexivity|].
    split; [unfold progListModel.SelectedItem;
            rewrite (no_items_no_selection _ It); reflexivity|].
    split; [exact S|].
    split; [unfold progListModel.SelectedItem;
            rewrite (no_items_no_selection _ It'); reflexivity|].
    intros m Hm. unfold handleProgListKeys. rewrite Hm.
    destruct (progListModel.Update pl (tea.KeyMsg k)) as [[pl' c] sel].
    cbn [snd] in S. subst sel. split; reflexivity.
  - destruct (mapListAfter_frame msgs (mapListModel.SetMaps [] ml0))
      as (P & E & It).
    fold ml in P, E, It. cbn [mapListModel.SetMaps mapListModel.maps
      mapListModel.err mapListModel.list_ map] in P, E, It.
    rewrite bubbles_list.SetItems_Items in It. rewrite Em in E.
    destruct (mapList_empty ml (tea.KeyMsg k) It) as [S It'].
    split; [unfold mapListModel.View; rewrite P, E; reflexivity|].
    split; [unfold mapListModel.SelectedItem;
            rewrite (no_items_no_selection _ It); reflexivity|].
    split; [exact S|].
    split; [unfold mapListModel.SelectedItem;
            rewrite (no_items_no_selection _ It'); reflexivity|].
    intros m Hm. unfold handleMapListKeys. rewrite Hm.
    destruct (mapListModel.Update ml (tea.KeyMsg k)) as [[ml' c] sel].
    cbn [snd] in S. subst sel. split; reflexivity.
Qed.

End EmptyLists.

(* ===================================================================== *)
(** ** The theorems on the scenarios of the integration tests *)

Section OnScenarios.
#[local] Existing Instance refList.widget.
#[local] Existing Instance refViewport.widget.
#[local] Existing Instance plainTheme.

(** Menu, program list, program detail, associated map: three presses
    of Esc go back through the program detail and the program list to
    the menu (TestIntegrationProgDetailToMapDetailAndBack). *)
Lemma stack_symmetry_witness :
  state Scenario.atCrossRef = ViewMapDetail
  /\ history Scenario.atCrossRef = [ViewMenu; ViewProgList; ViewProgDetail]
  /\ visited "esc" 3 Scenario.atCrossRef
     = [ViewProgDetail; ViewProgList; ViewMenu]
  /\ popped "esc" 3 Scenario.atCrossRef
     = rev (history Scenario.atCrossRef).
Proof.
  assert (Hk : backKey Scenario.atCrossRef "esc" = true)
    by (vm_compute; reflexivity).
  destruct (@stack_symmetry refList.widget refViewport.widget plainTheme
              refList_laws (Some Scenario.progs) (Some Scenario.maps)
              [Scenario.enter; Scenario.enter; Scenario.enter] "esc" Hk)
    as (_ & _ & _ & Hall & Hthree).
  split; [vm_compute; reflexivity|].
  split; [vm_compute; reflexivity|].
  split.
  - apply Hthree; vm_compute; reflexivity.
  - apply (Hall ltac:(vm_compute; reflexivity) ltac:(vm_compute; reflexivity)).
Defined.

(** Esc in the dump view whose fetch failed
    (TestIntegrationErrorInMapDumpDoesNotCrash). *)
Lemma back_clears_top_level_error_only_witness :
  err (fst (Update Scenario.atFailedDump Scenario.esc)) = None
  /\ state (fst (Update Scenario.atFailedDump Scenario.esc)) = ViewMapDetail
  /\ mapDump (fst (Update Scenario.atFailedDump Scenario.esc))
     = mapDump Scenario.atFailedDump
  /\ mapDetail (fst (Update Scenario.atFailedDump Scenario.esc))
     = mapDetail Scenario.atFailedDump.
Proof.
  destruct (@back_clears_top_level_error_only refList.widget
              refViewport.widget plainTheme Scenario.atFailedDump "esc"
              ltac:(vm_compute; reflexivity) ltac:(vm_compute; reflexivity)
              ltac:(vm_compute; reflexivity) ltac:(vm_compute; reflexivity))
    as ((E & S & _ & _ & _ & _ & _ & D & Dp) & _ & _).
  split; [exact E|].
  split; [exact (eq_trans S ltac:(vm_compute; reflexivity))|].
  split; [exact Dp | exact D].
Defined.


(** The program list and the map list of services that return nothing
    (TestIntegrationEmptyProgramsList, TestIntegrationEmptyMapsList):
    after Down and Up, Enter selects nothing. *)
Lemma empty_list_edge_case_witness :
  progListModel.View
    (progListAfter
       (progListModel.SetPrograms [] (progListModel.newProgListModel 80 24))
       [Scenario.down; tea.KeyMsg "up"])
  = "BPF Programs" ++ nl ++ nl ++ "No BPF programs loaded"
  /\ snd (progListModel.Update
            (progListAfter
               (progListModel.SetPrograms []
                  (progListModel.newProgListModel 80 24))
               [Scenario.down; tea.KeyMsg "up"])
            Scenario.enter) = None
  /\ snd (mapListModel.Update
            (mapListAfter
               (mapListModel.SetMaps [] (mapListModel.newMapListModel 80 24))
               [Scenario.down; tea.KeyMsg "up"])
            Scenario.enter) = None.
Proof.
  destruct (@empty_list_edge_case refList.widget refViewport.widget plainTheme
              refList_laws (progListModel.newProgListModel 80 24)
              (mapListModel.newMapListModel 80 24)
              [Scenario.down; tea.KeyMsg "up"] "enter" eq_refl eq_refl)
    as ((V & _ & S & _) & (_ & _ & S' & _)).
  split; [exact V|]. split; [exact S | exact S'].
Defined.

(** At the map detail view reached through the cross-reference the
    history is not empty and [popState] returns the program detail
    view. *)
Lemma history_empty_iff_menu_witness :
  (history Scenario.atCrossRef = [] <-> state Scenario.atCrossRef = ViewMenu)
  /\ (len (history Scenario.atCrossRef) =? 0) = false
  /\ snd (popState Scenario.atCrossRef) = ViewProgDetail.
Proof.
  destruct (@history_empty_iff_menu refList.widget refViewport.widget
              plainTheme refList_laws (Some Scenario.progs)
              (Some Scenario.maps)
              [Scenario.enter; Scenario.enter; Scenario.enter])
    as (E & _ & P).
  split; [exact E|].
  destruct (P ltac:(vm_compute; discriminate)) as [L Pop].
  split; [exact L|].
  exact (eq_trans (f_equal snd Pop) ltac:(vm_compute; reflexivity)).
Defined.

End OnScenarios.

(* ===================================================================== *)
(** * Further properties of the code *)
(* ===================================================================== *)
(** ** The history, the help overlay and the top-level error *)

Section RootUnits.
Context {LW : bubbles_list.Widget} {VW : bubbles_viewport.Widget} {TH : Theme}.

Lemma popState_app (m : Model) h s :
  history m = (h ++ [s])%list -> popState m = (set_history h m, s).
Proof.
  intro E. unfold popState, len. rewrite E, length_app. cbn [List.length].
  replace (Z.of_nat (List.length h + 1) =? 0) with false
    by (symmetry; apply Z.eqb_neq; lia).
  replace (Z.to_nat (Z.of_nat (List.length h + 1) - 1)) with (List.length h) by lia.
  rewrite nth_middle, firstn_app, firstn_all, Nat.sub_diag. cbn [firstn].
  rewrite app_nil_r. reflexivity.
Qed.

(** X1 -- The history is a stack.  [popState] after [pushState] gives
    back the state pushed from and the history as it was, so that
    assigning the popped state restores the model; [pushState] makes the
    history one longer.  On an empty history [popState] changes nothing
    and answers [ViewMenu]; on a non-empty one it removes the last entry
    and answers it.  [clearHistory] leaves the empty history. *)
Theorem pushState_popState_round_trip :
  (forall (m : Model) v,
     popState (pushState v m) = (set_state v m, state m)
     /\ set_state (snd (popState (pushState v m))) (fst (popState (pushState v m))) = m
     /\ historyLen (pushState v m) = historyLen m + 1)
  /\ (forall m : Model, history m = [] -> popState m = (m, ViewMenu))
  /\ (forall m : Model,
        history m <> [] ->
        historyLen (fst (popState m)) = historyLen m - 1
        /\ (history (fst (popState m)) ++ [snd (popState m)])%list = history m)
  /\ (forall m : Model,
        historyLen (clearHistory m) = 0
        /\ popState (clearHistory m) = (clearHistory m, ViewMenu)).
Proof.
  split; [|split; [|split]].
  - intros m v.
    assert (P : popState (pushState v m) = (set_state v m, state m)).
    { rewrite (@popState_app (pushState v m) (history m) (state m)) by reflexivity.
      reflexivity. }
    rewrite P. cbn [fst snd]. split; [reflexivity|]. split; [reflexivity|].
    unfold historyLen, pushState, len. cbn [history set_state set_history].
    rewrite length_app. cbn [List.length]. lia.
  - intros m E. unfold popState. rewrite E. reflexivity.
  - intros m Hne.
    destruct (exists_last Hne) as (h & s & E).
    rewrite (@popState_app m h s E). cbn [fst snd history set_history].
    unfold historyLen, len. cbn [history set_history].
    rewrite E, length_app. cbn [List.length].
    split; [lia | reflexivity].
  - intro m. split; reflexivity.
Qed.

(** X2 -- While the help overlay is shown, a key press only closes it:
    the key is not handed to the view, nothing else of the model changes
    and no command is issued; the quit key outside filter entry is the
    one exception.  With the overlay hidden and no filter being typed,
    the help key opens the overlay, and pressed again it leads back to
    the very model it was opened on.  With no top-level error the
    overlay is what [View] renders. *)
Theorem help_overlay_swallows_keys :
  (forall (m : Model) k,
     showHelp m = true ->
     key.Matches k (Quit (keys m)) = false \/ filterEntry m = true ->
     Update m (tea.KeyMsg k) = (set_showHelp false m, tea.Nil))
  /\ (forall (m : Model) k,
        showHelp m = false -> filterEntry m = false ->
        key.Matches k (Help (keys m)) = true ->
        key.Matches k (Quit (keys m)) = false ->
        Update m (tea.KeyMsg k) = (set_showHelp true m, tea.Nil)
        /\ Update (set_showHelp true m) (tea.KeyMsg k) = (m, tea.Nil))
  /\ (forall m : Model,
        showHelp m = true -> err m = None -> View m = renderHelp m).
Proof.
  split; [|split].
  - intros m k Hh Hq.
    unfold Update, handleKeyMsg, handleHelpKey, handleHelpShowing. rewrite Hh.
    unfold filterEntry in Hq.
    destruct (key.Matches k (Quit (keys m))) eqn:Q;
      destruct (key.Matches k (Help (keys m))) eqn:H;
      destruct (ViewState_eqb (state m) ViewProgList
                && progListModel.IsFiltering (progList m)) eqn:A;
      destruct (ViewState_eqb (state m) ViewMapList
                && mapListModel.IsFiltering (mapList m)) eqn:B;
      cbn in Hq; try reflexivity; destruct Hq; discriminate.
  - intros m k Hh Hf H Q.
    destruct (filterEntry_inv _ Hf) as [F1 F2].
    assert (E : Update m (tea.KeyMsg k) = (set_showHelp true m, tea.Nil)).
    { unfold Update, handleKeyMsg, handleHelpKey. rewrite Q, H, F1, F2, Hh. reflexivity. }
    split; [exact E|].
    unfold Update, handleKeyMsg, handleHelpKey.
    cbn [keys state progList mapList showHelp set_showHelp].
    rewrite Q, H, F1, F2. cbn [negb]. rewrite <- Hh. reflexivity.
  - intros m Hh He. unfold View. rewrite He, Hh. reflexivity.
Qed.

(** X3 -- The top-level error plays no part in the handling of a
    message: with any other value in [m.err], [Update] issues the same
    command and computes the same model up to [m.err], which is either
    still the value put in or the value the step assigns anyway. *)
Theorem top_level_error_does_not_affect_handling (m : Model)
    (e : option error) (msg : tea.Msg) :
  snd (Update (set_err e m) msg) = snd (Update m msg)
  /\ set_err None (fst (Update (set_err e m) msg))
     = set_err None (fst (Update m msg))
  /\ (err (fst (Update (set_err e m) msg)) = e
      \/ err (fst (Update (set_err e m) msg)) = err (fst (Update m msg))).
Proof.
  destruct m as [s h ps ms mn pl pd ml md dp w hh e0 ks sh].
  cbn [set_err].
  unfold_root.
  destruct s.
  all: cbn [state history menu progList mapList progDetail mapDetail mapDump
       showHelp keys progSvc mapsSvc set_err err set_state set_history
       set_menu set_progList set_progDetail set_mapList set_mapDetail
       set_mapDump set_showHelp width height ViewState_eqb andb negb].
  all: repeat break_step; cbn; repeat split; auto.
Qed.
End RootUnits.

(* ===================================================================== *)
(** ** Messages that are not key presses *)

Section Frames.
Context {VW : bubbles_viewport.Widget} {TH : Theme}.

Lemma progDetail_updateViewport_frame (m : progDetailModel.t) :
  let m' := progDetailModel.updateViewport m in
  progDetailModel.program m' = progDetailModel.program m
  /\ progDetailModel.mapIDs m' = progDetailModel.mapIDs m
  /\ progDetailModel.cursor m' = progDetailModel.cursor m
  /\ progDetailModel.width m' = progDetailModel.width m
  /\ progDetailModel.height m' = progDetailModel.height m
  /\ progDetailModel.ready m'
     = match progDetailModel.program m with
       | Some _ => true
       | None => progDetailModel.ready m
       end.
Proof.
  unfold progDetailModel.updateViewport.
  destruct (progDetailModel.program m) eqn:P; cbn zeta.
  - destruct (progDetailModel.ready m) eqn:R; cbn; rewrite ?P; auto 10.
  - rewrite P. auto 10.
Qed.

Lemma mapDetail_updateViewport_frame (m : mapDetailModel.t) :
  let m' := mapDetailModel.updateViewport m in
  mapDetailModel.mapInfo m' = mapDetailModel.mapInfo m
  /\ mapDetailModel.cursor m' = mapDetailModel.cursor m
  /\ mapDetailModel.width m' = mapDetailModel.width m
  /\ mapDetailModel.height m' = mapDetailModel.height m
  /\ mapDetailModel.ready m'
     = match mapDetailModel.mapInfo m with
       | Some _ => true
       | None => mapDetailModel.ready m
       end.
Proof.
  unfold mapDetailModel.updateViewport.
  destruct (mapDetailModel.mapInfo m) eqn:P; cbn zeta.
  - destruct (mapDetailModel.ready m) eqn:R; cbn; rewrite ?P; auto 10.
  - rewrite P. auto 10.
Qed.

Lemma mapDump_updateViewport_frame (m : mapDumpModel.t) :
  let m' := mapDumpModel.updateViewport m in
  mapDumpModel.mapID m' = mapDumpModel.mapID m
  /\ mapDumpModel.mapName m' = mapDumpModel.mapName m
  /\ mapDumpModel.entries m' = mapDumpModel.entries m
  /\ mapDumpModel.width m' = mapDumpModel.width m
  /\ mapDumpModel.height m' = mapDumpModel.height m
  /\ mapDumpModel.loading m' = mapDumpModel.loading m
  /\ mapDumpModel.err m' = mapDumpModel.err m
  /\ mapDumpModel.ready m' = true.
Proof.
  unfold mapDumpModel.updateViewport.
  destruct (mapDumpModel.ready m) eqn:R; cbn; auto 10.
Qed.

End Frames.

Section NonKeyMessages.
Context {LW : bubbles_list.Widget} {VW : bubbles_viewport.Widget} {TH : Theme}.

(** X4 -- A window-size message issues no command and changes sizes
    only: the root model and the three viewport models take the new
    width and height; view, history, top-level error, help flag, key map
    and services stay; so do the records, errors and cursors of the list
    and detail models and identity, name, entries, loading flag and error
    of the dump model, hence the content rendered for each viewport.
    The dump viewport is set up afterwards. *)
Theorem resize_changes_sizes_only (m : Model) (w h : Z) :
  let m' := fst (Update m (tea.WindowSizeMsg w h)) in
  snd (Update m (tea.WindowSizeMsg w h)) = tea.Nil
  /\ (width m' = w /\ height m' = h
      /\ progDetailModel.width (progDetail m') = w
      /\ progDetailModel.height (progDetail m') = h
      /\ mapDetailModel.width (mapDetail m') = w
      /\ mapDetailModel.height (mapDetail m') = h
      /\ mapDumpModel.width (mapDump m') = w
      /\ mapDumpModel.height (mapDump m') = h)
  /\ (state m' = state m /\ history m' = history m /\ err m' = err m
      /\ showHelp m' = showHelp m /\ keys m' = keys m
      /\ progSvc m' = progSvc m /\ mapsSvc m' = mapsSvc m)
  /\ (progListModel.programs (progList m') = progListModel.programs (progList m)
      /\ progListModel.err (progList m') = progListModel.err (progList m)
      /\ mapListModel.maps (mapList m') = mapListModel.maps (mapList m)
      /\ mapListModel.err (mapList m') = mapListModel.err (mapList m))
  /\ (progDetailModel.program (progDetail m') = progDetailModel.program (progDetail m)
      /\ progDetailModel.mapIDs (progDetail m') = progDetailModel.mapIDs (progDetail m)
      /\ progDetailModel.cursor (progDetail m') = progDetailModel.cursor (progDetail m)
      /\ progDetailModel.renderContent (progDetail m')
         = progDetailModel.renderContent (progDetail m))
  /\ (mapDetailModel.mapInfo (mapDetail m') = mapDetailModel.mapInfo (mapDetail m)
      /\ mapDetailModel.cursor (mapDetail m') = mapDetailModel.cursor (mapDetail m)
      /\ mapDetailModel.renderContent (mapDetail m')
         = mapDetailModel.renderContent (mapDetail m))
  /\ (mapDumpModel.mapID (mapDump m') = mapDumpModel.mapID (mapDump m)
      /\ mapDumpModel.mapName (mapDump m') = mapDumpModel.mapName (mapDump m)
      /\ mapDumpModel.entries (mapDump m') = mapDumpModel.entries (mapDump m)
      /\ mapDumpModel.loading (mapDump m') = mapDumpModel.loading (mapDump m)
      /\ mapDumpModel.err (mapDump m') = mapDumpModel.err (mapDump m)
      /\ mapDumpModel.renderContent (mapDump m')
         = mapDumpModel.renderContent (mapDump m)
      /\ mapDumpModel.ready (mapDump m') = true).
Proof.
  cbv zeta. unfold Update.
  cbn [fst snd state history err showHelp keys progSvc mapsSvc width height
       progList mapList progDetail mapDetail mapDump].
  split; [reflexivity|].
  split.
  { unfold progDetailModel.SetSize, mapDetailModel.SetSize, mapDumpModel.SetSize.
    repeat match goal with
    | |- context [progDetailModel.updateViewport ?x] =>
        let F := fresh in
        pose proof (progDetail_updateViewport_frame x) as F; cbv zeta in F;
        destruct F as (_ & _ & _ & -> & -> & _)
    | |- context [mapDetailModel.updateViewport ?x] =>
        let F := fresh in
        pose proof (mapDetail_updateViewport_frame x) as F; cbv zeta in F;
        destruct F as (_ & _ & -> & -> & _)
    | |- context [mapDumpModel.updateViewport ?x] =>
        let F := fresh in
        pose proof (mapDump_updateViewport_frame x) as F; cbv zeta in F;
        destruct F as (_ & _ & _ & -> & -> & _)
    end.
    cbn. auto 10. }
  split; [auto 10|].
  split; [cbn; auto|].
  split.
  { unfold progDetailModel.SetSize.
    match goal with
    | |- context [progDetailModel.updateViewport ?x] =>
        pose proof (progDetail_updateViewport_frame x) as F; cbv zeta in F;
        destruct F as (F1 & F2 & F3 & _)
    end.
    cbn [progDetailModel.program progDetailModel.mapIDs progDetailModel.cursor] in F1, F2, F3.
    unfold progDetailModel.renderContent.
    rewrite F1, F2, F3. auto. }
  split.
  { unfold mapDetailModel.SetSize.
    match goal with
    | |- context [mapDetailModel.updateViewport ?x] =>
        pose proof (mapDetail_updateViewport_frame x) as F; cbv zeta in F;
        destruct F as (F1 & F2 & _)
    end.
    cbn [mapDetailModel.mapInfo mapDetailModel.cursor] in F1, F2.
    unfold mapDetailModel.renderContent.
    rewrite F1, F2. auto. }
  unfold mapDumpModel.SetSize.
  match goal with
  | |- context [mapDumpModel.updateViewport ?x] =>
      pose proof (mapDump_updateViewport_frame x) as F; cbv zeta in F;
      destruct F as (F1 & F2 & F3 & _ & _ & F4 & F5 & F6)
  end.
  cbn [mapDumpModel.mapID mapDumpModel.mapName mapDumpModel.entries
       mapDumpModel.loading mapDumpModel.err] in F1, F2, F3, F4, F5.
  unfold mapDumpModel.renderContent.
  rewrite F1, F2, F3, F4, F5, F6. auto 10.
Qed.

(** X5 -- A message that is neither a key press nor a resize never
    navigates: view, history, top-level error and help flag stay.  It is
    handed to the widget of the view on screen when that is one of the
    two lists or the dump, and its command is the widget's; in the menu
    and in the two detail views it is dropped: the model is returned as
    it is, with no command.  The records and errors the sub-models hold
    stay in every case. *)
Theorem other_messages_reach_the_shown_widget_only (m : Model) (tag : nat) :
  let r := Update m (tea.OtherMsg tag) in
  (state (fst r) = state m /\ history (fst r) = history m
   /\ err (fst r) = err m /\ showHelp (fst r) = showHelp m
   /\ menu (fst r) = menu m /\ progDetail (fst r) = progDetail m
   /\ mapDetail (fst r) = mapDetail m)
  /\ (state m <> ViewProgList -> progList (fst r) = progList m)
  /\ (state m <> ViewMapList -> mapList (fst r) = mapList m)
  /\ (state m <> ViewMapDump -> mapDump (fst r) = mapDump m)
  /\ (state m = ViewMenu \/ state m = ViewProgDetail \/ state m = ViewMapDetail ->
      r = (m, tea.Nil))
  /\ snd r = match state m with
             | ViewProgList | ViewMapList | ViewMapDump =>
                 widgetCmd m (tea.OtherMsg tag)
             | _ => tea.Nil
             end
  /\ (progListModel.programs (progList (fst r)) = progListModel.programs (progList m)
      /\ progListModel.err (progList (fst r)) = progListModel.err (progList m)
      /\ mapListModel.maps (mapList (fst r)) = mapListModel.maps (mapList m)
      /\ mapListModel.err (mapList (fst r)) = mapListModel.err (mapList m)
      /\ mapDumpModel.entries (mapDump (fst r)) = mapDumpModel.entries (mapDump m)
      /\ mapDumpModel.err (mapDump (fst r)) = mapDumpModel.err (mapDump m)
      /\ mapDumpModel.loading (mapDump (fst r)) = mapDumpModel.loading (mapDump m)).
Proof.
  cbv zeta. unfold Update, handleOtherMsg, widgetCmd.
  unfold progListModel.Update, progListModel.toList,
    mapListModel.Update, mapListModel.toList, mapDumpModel.Update.
  destruct (state m) eqn:S.
  all: repeat match goal with
       | |- context [bubbles_list.Update ?a ?b] =>
           destruct (bubbles_list.Update a b) as [? ?]
       | |- context [bubbles_viewport.Update ?a ?b] =>
           destruct (bubbles_viewport.Update a b) as [? ?]
       end.
  all: cbn; rewrite ?S.
  all: repeat split; try reflexivity; try congruence.
  all: intros [H|[H|H]]; discriminate H.
Qed.

End NonKeyMessages.

(* ===================================================================== *)
(** ** Where the top-level error comes from *)

Section DetailSelection.
Context {VW : bubbles_viewport.Widget} {TH : Theme}.

(** [Update] reports a map ID for the Enter key only, and then it is
    the ID under the cursor; the model is returned as it is. *)
Lemma progDetailModel_Update_sel (pd pd' : progDetailModel.t) msg c sel :
  progDetailModel.Update pd msg = (pd', c, sel) ->
  match sel with
  | Some id =>
      pd' = pd /\ c = tea.Nil /\ msg = tea.KeyMsg "enter"
      /\ progDetailModel.SelectedMapID pd = Some id
  | None =>
      msg = tea.KeyMsg "enter" -> progDetailModel.SelectedMapID pd = None
  end.
Proof.
  unfold progDetailModel.Update, progDetailModel.toViewport,
    progDetailModel.SelectedMapID.
  destruct (bubbles_viewport.Update (progDetailModel.viewport pd) msg) as [v c'].
  destruct msg as [k| |].
  2,3: intro E; inversion E; subst; intro D; discriminate D.
  destruct (String.eqb k "up" || String.eqb k "k") eqn:U.
  { destruct (_ && _); intro E; inversion E; subst; intro D;
      inversion D; subst; discriminate U. }
  destruct (String.eqb k "down" || String.eqb k "j") eqn:D.
  { destruct (_ && _); intro E; inversion E; subst; intro D';
      inversion D'; subst; discriminate D. }
  destruct (String.eqb k "enter") eqn:K.
  - apply String.eqb_eq in K. subst k.
    destruct (_ && _ && _); intro E; inversion E; subst; auto.
  - intro E; inversion E; subst. intro D'. inversion D'; subst.
    discriminate K.
Qed.

End DetailSelection.

Section ErrorSources.
Context {LW : bubbles_list.Widget} {VW : bubbles_viewport.Widget} {TH : Theme}.

(** X6 -- The ways the top-level error changes in a step.  [Update]
    leaves [m.err] as it is, or a back key that navigates backward (help
    hidden, no filter being typed, view not the menu) clears it, or the
    Enter key in the program detail view, on a selected map ID whose
    fetch [Get] fails, stores that failure; the view entered is then the
    map detail view, and the map detail model is left untouched. *)
Theorem top_level_error_changes (m : Model) (msg : tea.Msg) :
  let m' := fst (Update m msg) in
  err m' = err m
  \/ (err m' = None
      /\ exists k, msg = tea.KeyMsg k
           /\ key.Matches k (Back (keys m)) = true
           /\ showHelp m = false /\ filterEntry m = false
           /\ state m <> ViewMenu)
  \/ (exists svc id e,
        msg = tea.KeyMsg "enter"
        /\ state m = ViewProgDetail /\ showHelp m = false
        /\ progDetailModel.SelectedMapID (progDetail m) = Some id
        /\ mapsSvc m = Some svc
        /\ snd (MapsService.Get svc id) = Some e
        /\ err m' = Some e
        /\ state m' = ViewMapDetail
        /\ mapDetail m' = mapDetail m).
Proof.
  destruct m as [s h ps ms mn pl pd ml md dp w hh e0 ks sh].
  unfold filterEntry. unfold_root.
  destruct s.
  all: cbn [state history menu progList mapList progDetail mapDetail mapDump
       showHelp keys progSvc mapsSvc set_err err set_state set_history
       set_menu set_progList set_progDetail set_mapList set_mapDetail
       set_mapDump set_showHelp width height ViewState_eqb andb negb orb].
  all: repeat break_step; cbn [fst snd err set_err set_state set_history
       set_menu set_progList set_progDetail set_mapList set_mapDetail
       set_mapDump set_showHelp state mapDetail].
  all: try (left; reflexivity).
  all: try (right; left; split; [reflexivity|]; eexists; split; [reflexivity|];
            bool_rw; cbn; repeat split; try assumption;
            try reflexivity; discriminate).
  all: right; right.
  all: match goal with
       | H : progDetailModel.Update _ _ = (_, _, Some _) |- _ =>
           apply progDetailModel_Update_sel in H;
           destruct H as (-> & -> & -> & Hsel)
       end.
  all: do 3 eexists; repeat split; try eassumption; try reflexivity.
  all: match goal with H : _ = ?p |- snd ?p' = _ => rewrite H end; reflexivity.
Qed.

End ErrorSources.

(* ===================================================================== *)
(** ** The data of the views *)

Section SubModelData.
Context {VW : bubbles_viewport.Widget} {TH : Theme}.

Lemma progDetailOK_new w h : progDetailOK (progDetailModel.newProgDetailModel w h).
Proof.
  unfold progDetailOK, cursorOK. cbn. repeat split; congruence.
Qed.

Lemma progDetailOK_updateViewport pd :
  cursorOK pd ->
  progDetailModel.mapIDs pd
  = match progDetailModel.program pd with
    | Some p => ProgramInfo.MapIDs p
    | None => []
    end ->
  progDetailOK (progDetailModel.updateViewport pd).
Proof.
  intros C M.
  pose proof (progDetail_updateViewport_frame pd) as F. cbv zeta in F.
  destruct F as (F1 & F2 & F3 & _ & _ & F6).
  unfold progDetailOK, cursorOK. rewrite F1, F2, F3, F6.
  split; [exact C|]. split; [exact M|].
  destruct (progDetailModel.program pd); [reflexivity|congruence].
Qed.

Lemma progDetailOK_SetProgram prog pd :
  progDetailOK (progDetailModel.SetProgram prog pd).
Proof.
  unfold progDetailModel.SetProgram.
  apply progDetailOK_updateViewport.
  - unfold cursorOK, len. cbn.
    destruct prog as [p|]; [|reflexivity].
    destruct (ProgramInfo.MapIDs p); cbn; [reflexivity|]. lia.
  - cbn. destruct prog as [p|]; [|reflexivity].
    unfold len. destruct (ProgramInfo.MapIDs p); reflexivity.
Qed.

Lemma progDetailOK_SetSize w h pd :
  progDetailOK pd -> progDetailOK (progDetailModel.SetSize w h pd).
Proof.
  intros (C & M & R). unfold progDetailModel.SetSize.
  apply progDetailOK_updateViewport; assumption.
Qed.

Lemma progDetailOK_set_cursor z pd :
  progDetailOK pd -> 0 <= z < len (progDetailModel.mapIDs pd) ->
  progDetailOK (progDetailModel.updateViewport (progDetailModel.set_cursor z pd)).
Proof.
  intros (C & M & R) Hz. apply progDetailOK_updateViewport; [|exact M].
  unfold cursorOK. cbn.
  destruct (progDetailModel.mapIDs pd); [unfold len in Hz; cbn in Hz; lia|].
  exact Hz.
Qed.

Lemma progDetailModel_Update_frame pd pd' msg c sel :
  progDetailModel.Update pd msg = (pd', c, sel) ->
  progDetailModel.program pd' = progDetailModel.program pd
  /\ (progDetailOK pd -> progDetailOK pd').
Proof.
  unfold progDetailModel.Update, progDetailModel.toViewport.
  destruct (bubbles_viewport.Update (progDetailModel.viewport pd) msg) as [v c'].
  assert (U : forall z x,
    x = progDetailModel.updateViewport (progDetailModel.set_cursor z pd) ->
    (progDetailOK pd -> 0 <= z < len (progDetailModel.mapIDs pd)) ->
    (x, tea.Nil, @None N) = (pd', c, sel) ->
    progDetailModel.program pd' = progDetailModel.program pd
    /\ (progDetailOK pd -> progDetailOK pd')).
  { intros z x X Hz [= <- <- <-]. subst x. split.
    - pose proof (progDetail_updateViewport_frame
                    (progDetailModel.set_cursor z pd)) as F.
      cbv zeta in F. destruct F as (F1 & _). exact F1.
    - intro OK. apply progDetailOK_set_cursor; auto. }
  assert (V : (progDetailModel.set_viewport v pd, c', @None N) = (pd', c, sel) ->
    progDetailModel.program pd' = progDetailModel.program pd
    /\ (progDetailOK pd -> progDetailOK pd')).
  { intros [= <- <- <-]. split; [reflexivity|]. intro OK; exact OK. }
  assert (L : forall a b,
    progDetailOK pd -> (0 <? len (progDetailModel.mapIDs pd)) && a = true ->
    (a = true -> b) ->
    0 <= progDetailModel.cursor pd < len (progDetailModel.mapIDs pd) /\ b).
  { intros a b (C & _) B Hb. apply andb_prop in B. destruct B as [B1 B2].
    unfold cursorOK in C.
    destruct (progDetailModel.mapIDs pd); [discriminate B1|]. auto. }
  destruct msg as [k| |]; try exact V.
  destruct (String.eqb k "up" || String.eqb k "k").
  { destruct (_ && _) eqn:B; [|intros [= <- <- <-]; auto].
    apply (U _ _ eq_refl). intro OK.
    destruct (L _ (0 < progDetailModel.cursor pd) OK B) as [H1 H2];
      [apply Z.ltb_lt|lia]. }
  destruct (String.eqb k "down" || String.eqb k "j").
  { destruct (_ && _) eqn:B; [|intros [= <- <- <-]; auto].
    apply (U _ _ eq_refl). intro OK.
    destruct (L _ (progDetailModel.cursor pd
                   < len (progDetailModel.mapIDs pd) - 1) OK B) as [H1 H2];
      [apply Z.ltb_lt|lia]. }
  destruct (String.eqb k "enter"); [|exact V].
  destruct (_ && _ && _); intros [= <- <- <-]; auto.
Qed.

Lemma mapDetailOK_new w h : mapDetailOK (mapDetailModel.newMapDetailModel w h).
Proof. unfold mapDetailOK. cbn. split; congruence. Qed.

Lemma mapDetailOK_updateViewport md :
  mapDetailModel.cursor md = 0 -> mapDetailOK (mapDetailModel.updateViewport md).
Proof.
  intro C.
  pose proof (mapDetail_updateViewport_frame md) as F. cbv zeta in F.
  destruct F as (F1 & F2 & _ & _ & F5).
  unfold mapDetailOK. rewrite F1, F2, F5. split; [exact C|].
  destruct (mapDetailModel.mapInfo md); [reflexivity|congruence].
Qed.

Lemma mapDetailOK_SetMap mi md : mapDetailOK (mapDetailModel.SetMap mi md).
Proof. apply mapDetailOK_updateViewport. reflexivity. Qed.

Lemma mapDetailOK_SetSize w h md :
  mapDetailOK md -> mapDetailOK (mapDetailModel.SetSize w h md).
Proof. intros [C _]. apply mapDetailOK_updateViewport. exact C. Qed.

(** [Update] of the map detail model changes the viewport only, and
    requests the dump for the Enter key when a map is held and the
    cursor is on the action. *)
Lemma mapDetailModel_Update_frame md md' msg c sel :
  mapDetailModel.Update md msg = (md', c, sel) ->
  mapDetailModel.mapInfo md' = mapDetailModel.mapInfo md
  /\ mapDetailModel.cursor md' = mapDetailModel.cursor md
  /\ mapDetailModel.ready md' = mapDetailModel.ready md
  /\ (sel = true ->
      md' = md /\ c = tea.Nil /\ msg = tea.KeyMsg "enter"
      /\ mapDetailModel.mapInfo md <> None /\ mapDetailModel.cursor md = 0)
  /\ (msg = tea.KeyMsg "enter" ->
      md' = md /\ c = tea.Nil
      /\ sel = match mapDetailModel.mapInfo md with
               | Some _ => mapDetailModel.cursor md =? 0
               | None => false
               end).
Proof.
  unfold mapDetailModel.Update, mapDetailModel.toViewport.
  destruct (bubbles_viewport.Update (mapDetailModel.viewport md) msg) as [v c'].
  assert (V : forall x y,
    (msg = tea.KeyMsg "enter" -> False) ->
    (x, y, false) = (md', c, sel) ->
    mapDetailModel.mapInfo x = mapDetailModel.mapInfo md ->
    mapDetailModel.cursor x = mapDetailModel.cursor md ->
    mapDetailModel.ready x = mapDetailModel.ready md ->
    mapDetailModel.mapInfo md' = mapDetailModel.mapInfo md
    /\ mapDetailModel.cursor md' = mapDetailModel.cursor md
    /\ mapDetailModel.ready md' = mapDetailModel.ready md
    /\ (sel = true ->
        md' = md /\ c = tea.Nil /\ msg = tea.KeyMsg "enter"
        /\ mapDetailModel.mapInfo md <> None /\ mapDetailModel.cursor md = 0)
    /\ (msg = tea.KeyMsg "enter" ->
        md' = md /\ c = tea.Nil
        /\ sel = match mapDetailModel.mapInfo md with
                 | Some _ => mapDetailModel.cursor md =? 0
                 | None => false
                 end)).
  { intros x y N [= <- <- <-] H1 H2 H3.
    split; [exact H1|]. split; [exact H2|]. split; [exact H3|].
    split; [intro D; discriminate D | intro D; destruct (N D)]. }
  destruct msg as [k| |].
  2,3: intro E; apply (V _ _ ltac:(intro D; discriminate D) E); reflexivity.
  destruct (String.eqb k "up" || String.eqb k "k") eqn:U.
  { intro E; refine (V _ _ _ E eq_refl eq_refl eq_refl).
    intros [= ->]. discriminate U. }
  destruct (String.eqb k "down" || String.eqb k "j") eqn:D.
  { intro E; refine (V _ _ _ E eq_refl eq_refl eq_refl).
    intros [= ->]. discriminate D. }
  destruct (String.eqb k "enter") eqn:K.
  - apply String.eqb_eq in K. subst k.
    destruct (mapDetailModel.mapInfo md) as [mi|] eqn:Mi;
      [destruct (mapDetailModel.cursor md =? 0) eqn:C|];
      intros [= <- <- <-]; rewrite ?Mi;
      (split; [reflexivity|]); (split; [reflexivity|]);
      (split; [reflexivity|]);
      (split; [|intros _; auto]).
    + intros _. repeat split; try congruence. apply Z.eqb_eq, C.
    + intro H; discriminate H.
    + intro H; discriminate H.
  - intro E; refine (V _ _ _ E eq_refl eq_refl eq_refl).
    intros [= ->]. discriminate K.
Qed.

Lemma mapDetailOK_Update md md' msg c sel :
  mapDetailModel.Update md msg = (md', c, sel) ->
  mapDetailOK md -> mapDetailOK md'.
Proof.
  intros E [C R]. apply mapDetailModel_Update_frame in E.
  destruct E as (E1 & E2 & E3 & _).
  unfold mapDetailOK. rewrite E1, E2, E3. auto.
Qed.

Lemma mapDumpModel_Update_frame dp dp' msg c :
  mapDumpModel.Update dp msg = (dp', c) ->
  mapDumpModel.mapID dp' = mapDumpModel.mapID dp
  /\ mapDumpModel.mapName dp' = mapDumpModel.mapName dp
  /\ mapDumpModel.entries dp' = mapDumpModel.entries dp
  /\ mapDumpModel.loading dp' = mapDumpModel.loading dp
  /\ mapDumpModel.err dp' = mapDumpModel.err dp
  /\ mapDumpModel.ready dp' = mapDumpModel.ready dp.
Proof.
  unfold mapDumpModel.Update.
  destruct (bubbles_viewport.Update (mapDumpModel.viewport dp) msg) as [v c'].
  intro E; inversion E; subst. cbn. auto 10.
Qed.

Lemma SetProgram_program prog (pd : progDetailModel.t) :
  progDetailModel.program (progDetailModel.SetProgram prog pd) = prog.
Proof.
  unfold progDetailModel.SetProgram.
  match goal with |- context [progDetailModel.updateViewport ?x] =>
    pose proof (progDetail_updateViewport_frame x) as F end.
  cbv zeta in F. destruct F as (F1 & _). exact F1.
Qed.

Lemma SetSize_program w h (pd : progDetailModel.t) :
  progDetailModel.program (progDetailModel.SetSize w h pd)
  = progDetailModel.program pd.
Proof.
  unfold progDetailModel.SetSize.
  match goal with |- context [progDetailModel.updateViewport ?x] =>
    pose proof (progDetail_updateViewport_frame x) as F end.
  cbv zeta in F. destruct F as (F1 & _). exact F1.
Qed.

Lemma SetMap_mapInfo mi (md : mapDetailModel.t) :
  mapDetailModel.mapInfo (mapDetailModel.SetMap mi md) = mi.
Proof.
  unfold mapDetailModel.SetMap.
  match goal with |- context [mapDetailModel.updateViewport ?x] =>
    pose proof (mapDetail_updateViewport_frame x) as F end.
  cbv zeta in F. destruct F as (F1 & _). exact F1.
Qed.

Lemma SetSize_mapInfo w h (md : mapDetailModel.t) :
  mapDetailModel.mapInfo (mapDetailModel.SetSize w h md)
  = mapDetailModel.mapInfo md.
Proof.
  unfold mapDetailModel.SetSize.
  match goal with |- context [mapDetailModel.updateViewport ?x] =>
    pose proof (mapDetail_updateViewport_frame x) as F end.
  cbv zeta in F. destruct F as (F1 & _). exact F1.
Qed.

(** A successful load replaces identity, name and entries and clears
    the error; the viewport is set up. *)
Lemma SetMapDump_frame id name es (dp : mapDumpModel.t) :
  let dp' := mapDumpModel.SetMapDump id name es dp in
  mapDumpModel.mapID dp' = id /\ mapDumpModel.mapName dp' = name
  /\ mapDumpModel.entries dp' = es /\ mapDumpModel.loading dp' = false
  /\ mapDumpModel.err dp' = None /\ mapDumpModel.ready dp' = true.
Proof.
  cbv zeta. unfold mapDumpModel.SetMapDump.
  match goal with |- context [mapDumpModel.updateViewport ?x] =>
    pose proof (mapDump_updateViewport_frame x) as F end.
  cbv zeta in F. destruct F as (F1 & F2 & F3 & _ & _ & F6 & F7 & F8).
  auto 10.
Qed.

(** A failed load stores the error and keeps identity, name and
    entries of the dump loaded before. *)
Lemma mapDump_SetError_frame e (dp : mapDumpModel.t) :
  let dp' := mapDumpModel.SetError e dp in
  mapDumpModel.mapID dp' = mapDumpModel.mapID dp
  /\ mapDumpModel.mapName dp' = mapDumpModel.mapName dp
  /\ mapDumpModel.entries dp' = mapDumpModel.entries dp
  /\ mapDumpModel.loading dp' = false
  /\ mapDumpModel.err dp' = e /\ mapDumpModel.ready dp' = true.
Proof.
  cbv zeta. unfold mapDumpModel.SetError.
  match goal with |- context [mapDumpModel.updateViewport ?x] =>
    pose proof (mapDump_updateViewport_frame x) as F end.
  cbv zeta in F. destruct F as (F1 & F2 & F3 & _ & _ & F6 & F7 & F8).
  auto 10.
Qed.

Lemma mapDump_SetSize_frame w h (dp : mapDumpModel.t) :
  let dp' := mapDumpModel.SetSize w h dp in
  mapDumpModel.loading dp' = mapDumpModel.loading dp
  /\ mapDumpModel.ready dp' = true
  /\ mapDumpModel.mapID dp' = mapDumpModel.mapID dp
  /\ mapDumpModel.mapName dp' = mapDumpModel.mapName dp
  /\ mapDumpModel.entries dp' = mapDumpModel.entries dp
  /\ mapDumpModel.err dp' = mapDumpModel.err dp.
Proof.
  cbv zeta. unfold mapDumpModel.SetSize.
  match goal with |- context [mapDumpModel.updateViewport ?x] =>
    pose proof (mapDump_updateViewport_frame x) as F end.
  cbv zeta in F. destruct F as (F1 & F2 & F3 & _ & _ & F6 & F7 & F8).
  auto 10.
Qed.

End SubModelData.

Ltac use_frames :=
  repeat match goal with
  | H : progDetailModel.Update _ _ = _ |- _ =>
      apply progDetailModel_Update_frame in H; destruct H as [? ?]
  | H : mapDetailModel.Update _ _ = _ |- _ =>
      try (let F := fresh in
           pose proof H as F; apply mapDetailOK_Update in F; [|assumption]);
      apply mapDetailModel_Update_frame in H;
      destruct H as (? & ? & ? & ? & ?)
  | H : mapDumpModel.Update _ _ = _ |- _ =>
      apply mapDumpModel_Update_frame in H;
      destruct H as (? & ? & ? & ? & ? & ?)
  end.

Section DataSteps.
Context {LW : bubbles_list.Widget} {VW : bubbles_viewport.Widget} {TH : Theme}.
Context {LL : bubbles_list.Laws LW}.

Lemma dataInv_NewModel ps ms : dataInv (NewModel ps ms).
Proof.
  constructor; cbn.
  - apply bubbles_list.New_Items.
  - apply bubbles_list.New_Items.
  - apply progDetailOK_new.
  - intros [H|[]]; discriminate H.
  - apply mapDetailOK_new.
  - reflexivity.
  - intro H; discriminate H.
Qed.

Lemma dataInv_RunWithServices ps ms : dataInv (RunWithServices ps ms).
Proof.
  unfold RunWithServices.
  destruct (checkPermissions (NewModel ps ms)); [|apply dataInv_NewModel].
  destruct (dataInv_NewModel ps ms) as [D1 D2 D3 D4 D5 D6 D7].
  constructor; assumption.
Qed.

Lemma dataInv_Update m msg :
  navInv m -> dataInv m -> dataInv (fst (Update m msg)).
Proof.
  intros [I1 I2 I3 I4 I5] [D1 D2 D3 D4 D5 D6 D7].
  destruct m as [s h ps ms mn pl pd ml md dp w hh e ks sh].
  cbn [state history menu progList mapList showHelp progDetail mapDetail
       mapDump] in *.
  apply trail_cases in I1.
  destruct I1 as
    [[-> ->]|[[-> ->]|[[-> ->]|[[-> ->]|[[-> ->]|[[-> ->]|[[-> ->]|[-> ->]]]]]]]].
  all: unfold_root;
    cbn [state history menu progList mapList showHelp keys progSvc mapsSvc
         progDetail mapDetail mapDump ViewState_eqb andb negb].
  all: repeat break_step.
  all: use_specs; use_frames.
  all: constructor;
    cbn [fst snd state history menu progList mapList showHelp keys progSvc
         mapsSvc progDetail mapDetail mapDump set_err set_state set_history
         set_menu set_progList set_progDetail set_mapList set_mapDetail
         set_mapDump set_showHelp app].
  all: try assumption.
  all: rewrite ?SetProgram_program, ?SetSize_program, ?SetMap_mapInfo,
         ?SetSize_mapInfo.
  all: repeat match goal with
    | H : progDetailModel.program ?t = _
      |- context [progDetailModel.program ?t] => rewrite H
    | H : mapDetailModel.mapInfo ?t = _
      |- context [mapDetailModel.mapInfo ?t] => rewrite H
    | H : mapDumpModel.ready ?t = _
      |- context [mapDumpModel.ready ?t] => rewrite H
    end.
  all: try match goal with
    | |- progDetailOK (progDetailModel.SetProgram _ _) =>
        apply progDetailOK_SetProgram
    | |- progDetailOK (progDetailModel.SetSize _ _ _) =>
        apply progDetailOK_SetSize; assumption
    | |- progDetailOK _ => solve [auto]
    | |- mapDetailOK (mapDetailModel.SetMap _ _) => apply mapDetailOK_SetMap
    | |- mapDetailOK (mapDetailModel.SetSize _ _ _) =>
        apply mapDetailOK_SetSize; assumption
    | |- mapDetailOK _ => solve [auto]
    | |- mapDumpModel.loading (mapDumpModel.SetMapDump _ _ _ _) = false =>
        apply (SetMapDump_frame _ _ _ _)
    | |- mapDumpModel.loading (mapDumpModel.SetError _ _) = false =>
        apply (mapDump_SetError_frame _ _)
    | |- mapDumpModel.loading (mapDumpModel.SetSize _ _ _) = false =>
        rewrite (proj1 (mapDump_SetSize_frame _ _ _)); assumption
    | |- mapDumpModel.loading _ = false => congruence
    | |- bubbles_list.Items _ = _ =>
        unfold progListModel.SetPrograms, progListModel.SetError,
          progListModel.ResetFilter, progListModel.SetSize,
          mapListModel.SetMaps, mapListModel.SetError,
          mapListModel.ResetFilter, mapListModel.SetSize;
        cbn [progListModel.list_ progListModel.programs
             mapListModel.list_ mapListModel.maps];
        rewrite ?bubbles_list.SetItems_Items, ?bubbles_list.ResetFilter_Items,
          ?bubbles_list.SetSize_Items;
        first [reflexivity | assumption | congruence]
    end.
  all: try match goal with
    | |- In ViewProgDetail _ -> Some _ <> None => intros _ D; discriminate D
    | |- In ViewProgDetail _ -> _ =>
        let HIn := fresh in
        intro HIn; vm_compute in HIn;
        first [ exfalso; clear - HIn; intuition congruence
              | apply D4; cbn [app In]; clear - HIn; intuition congruence ]
    | |- ViewMapDump = ViewMapDump -> _ =>
        intros _; split;
        [ first [ apply (SetMapDump_frame _ _ _ _)
                | apply (mapDump_SetError_frame _ _)
                | apply (mapDump_SetSize_frame _ _ _)
                | apply D7; reflexivity ]
        | first [ apply D7; reflexivity
                | match goal with
                  | H : true = true -> _ |- _ => apply (H eq_refl)
                  end ] ]
    | |- _ = ViewMapDump -> _ =>
        let Hs := fresh in
        intro Hs; cbn in Hs; discriminate Hs
    end.
  all: exfalso;
    match goal with
    | H : _ /\ _ /\ (exists item : menuItem, _) |- _ =>
        destruct H as (_ & _ & H)
    end;
    menu_absurd.
Qed.
End DataSteps.

Section DataReach.
Context {LW : bubbles_list.Widget} {VW : bubbles_viewport.Widget} {TH : Theme}.
Context {LL : bubbles_list.Laws LW}.

Lemma dataInv_runMsgs msgs :
  forall m : Model, navInv m -> dataInv m ->
  navInv (runMsgs m msgs) /\ dataInv (runMsgs m msgs).
Proof.
  induction msgs as [|msg msgs IH]; intros m N D; [split; assumption|].
  cbn [runMsgs fold_left]. fold (runMsgs (fst (Update m msg)) msgs).
  apply IH; [apply navInv_Update, N | apply dataInv_Update; assumption].
Qed.

Lemma dataInv_reachable ps ms msgs :
  navInv (runMsgs (RunWithServices ps ms) msgs)
  /\ dataInv (runMsgs (RunWithServices ps ms) msgs).
Proof.
  apply dataInv_runMsgs;
    [apply navInv_RunWithServices | apply dataInv_RunWithServices].
Qed.

End DataReach.

(* ===================================================================== *)
(** ** Keys handled by the view on screen *)

Section ViewKeys.
Context {LW : bubbles_list.Widget} {VW : bubbles_viewport.Widget} {TH : Theme}.

(** A key bound to neither quit, help nor back goes to the handler of
    the view on screen when the help overlay is hidden. *)
Lemma Update_view_key (m : Model) k :
  key.Matches k (Quit (keys m)) = false ->
  key.Matches k (Help (keys m)) = false ->
  key.Matches k (Back (keys m)) = false ->
  showHelp m = false ->
  Update m (tea.KeyMsg k) = handleViewKeys m (tea.KeyMsg k).
Proof.
  intros Q H B S.
  unfold Update, handleKeyMsg, handleHelpKey, handleHelpShowing, handleBackKey.
  rewrite Q, H, S, B. reflexivity.
Qed.

Lemma Update_enter ps ms msgs :
  let m := runMsgs (RunWithServices ps ms) msgs in
  showHelp m = false ->
  Update m (tea.KeyMsg "enter") = handleViewKeys m (tea.KeyMsg "enter").
Proof.
  intros m S. apply Update_view_key; try exact S.
  all: unfold m; rewrite keys_reachable; reflexivity.
Qed.

(** While a filter is being typed every key goes to the handler of the
    list on screen. *)
Lemma filterEntry_Update (m : Model) k :
  filterEntry m = true -> showHelp m = false ->
  Update m (tea.KeyMsg k)
  = match state m with
    | ViewProgList => handleProgListKeys m (tea.KeyMsg k)
    | _ => handleMapListKeys m (tea.KeyMsg k)
    end.
Proof.
  unfold filterEntry. intros F S.
  unfold Update, handleKeyMsg, handleHelpKey, handleHelpShowing, handleBackKey,
    handleViewKeys.
  rewrite S.
  destruct (state m); cbn [ViewState_eqb andb orb] in *; try discriminate F;
    rewrite ?orb_false_r in F.
  - rewrite F. repeat match goal with |- context [if ?b then _ else _] =>
      destruct b end; reflexivity.
  - rewrite F. repeat match goal with |- context [if ?b then _ else _] =>
      destruct b end; reflexivity.
Qed.

End ViewKeys.

Section FilterEntry.
Context {LW : bubbles_list.Widget} {VW : bubbles_viewport.Widget} {TH : Theme}.
Context {LL : bubbles_list.Laws LW}.

(** X7 -- While a filter is being typed, every key press, the quit, help
    and back keys included, is handed to the list widget of the list on
    screen: the list model takes the widget's new state, the command is
    the widget's, and view, history, top-level error and every other
    sub-model stay; the help overlay is hidden. *)
Theorem filter_entry_captures_every_key (ps : option ProgService.t)
    (ms : option MapsService.t) (msgs : list tea.Msg) (k : string) :
  let m := runMsgs (RunWithServices ps ms) msgs in
  filterEntry m = true ->
  let r := Update m (tea.KeyMsg k) in
  (state (fst r) = state m /\ history (fst r) = history m
   /\ err (fst r) = err m /\ showHelp (fst r) = false
   /\ menu (fst r) = menu m /\ progDetail (fst r) = progDetail m
   /\ mapDetail (fst r) = mapDetail m /\ mapDump (fst r) = mapDump m)
  /\ snd r = widgetCmd m (tea.KeyMsg k)
  /\ ((state m = ViewProgList
       /\ progList (fst r)
          = {| progListModel.list_ :=
                 fst (bubbles_list.Update (progListModel.list_ (progList m))
                                          (tea.KeyMsg k));
               progListModel.programs := progListModel.programs (progList m);
               progListModel.err := progListModel.err (progList m) |}
       /\ mapList (fst r) = mapList m)
      \/ (state m = ViewMapList
          /\ mapList (fst r)
             = {| mapListModel.list_ :=
                    fst (bubbles_list.Update (mapListModel.list_ (mapList m))
                                             (tea.KeyMsg k));
                  mapListModel.maps := mapListModel.maps (mapList m);
                  mapListModel.err := mapListModel.err (mapList m) |}
          /\ progList (fst r) = progList m)).
Proof.
  intros m F r.
  pose proof (navInv_reachable ps ms msgs) as [_ _ _ _ I5]. fold m in I5.
  assert (S : showHelp m = false).
  { rewrite F in I5. destruct (showHelp m); [discriminate I5|reflexivity]. }
  subst r. rewrite (filterEntry_Update m k F S).
  unfold filterEntry in F. unfold widgetCmd.
  destruct (state m) eqn:St; cbn [ViewState_eqb andb orb] in F;
    try discriminate F; rewrite ?orb_false_r in F.
  - unfold handleProgListKeys, progListModel.Update, progListModel.toList.
    unfold progListModel.IsFiltering in F. rewrite F.
    destruct (bubbles_list.Update _ _) as [l c]. cbn.
    rewrite St. auto 20.
  - unfold handleMapListKeys, mapListModel.Update, mapListModel.toList.
    unfold mapListModel.IsFiltering in F. rewrite F.
    destruct (bubbles_list.Update _ _) as [l c]. cbn.
    rewrite St. auto 20.
Qed.

End FilterEntry.

(* ===================================================================== *)
(** ** Entering a view and coming back *)

Section ThereAndBack.
Context {LW : bubbles_list.Widget} {VW : bubbles_viewport.Widget} {TH : Theme}.
Context {LL : bubbles_list.Laws LW}.

(** A step that pushes the view it leaves changes no sub-model but the
    one of the view it enters; the help overlay is hidden and no
    filter is being typed afterwards. *)
Lemma forward_step (m : Model) msg :
  navInv m ->
  let m1 := fst (Update m msg) in
  history m1 = (history m ++ [state m])%list ->
  showHelp m1 = false /\ filterEntry m1 = false
  /\ negb (ViewState_eqb (state m1) ViewMenu) = true
  /\ menu m1 = menu m
  /\ (state m1 <> ViewProgList -> progList m1 = progList m)
  /\ (state m1 <> ViewProgDetail -> progDetail m1 = progDetail m)
  /\ (state m1 <> ViewMapList -> mapList m1 = mapList m)
  /\ (state m1 <> ViewMapDetail -> mapDetail m1 = mapDetail m)
  /\ (state m1 <> ViewMapDump -> mapDump m1 = mapDump m).
Proof.
  intros [I1 I2 I3 I4 I5].
  destruct m as [s h ps ms mn pl pd ml md dp w hh e ks sh].
  cbn [state history menu progList mapList showHelp] in *.
  unfold filterEntry in *.
  apply trail_cases in I1.
  destruct I1 as
    [[-> ->]|[[-> ->]|[[-> ->]|[[-> ->]|[[-> ->]|[[-> ->]|[[-> ->]|[-> ->]]]]]]]].
  all: unfold_root;
    cbn [state history menu progList mapList showHelp keys progSvc mapsSvc
         progDetail mapDetail mapDump ViewState_eqb andb negb].
  all: repeat break_step.
  all: cbn [fst snd state history menu progList mapList showHelp keys progSvc
         mapsSvc progDetail mapDetail mapDump set_err set_state set_history
         set_menu set_progList set_progDetail set_mapList set_mapDetail
         set_mapDump set_showHelp app].
  all: intro Hpush; try discriminate Hpush.
  all: repeat match goal with
       | H : progDetailModel.Update _ _ = (_, _, Some _) |- _ =>
           apply progDetailModel_Update_sel in H;
           destruct H as (-> & -> & _ & _)
       | H : mapDetailModel.Update _ _ = (_, _, true) |- _ =>
           apply mapDetailModel_Update_frame in H;
           destruct H as (_ & _ & _ & H & _);
           destruct (H eq_refl) as (-> & -> & _)
       end.
  all: use_specs.
  all: repeat match goal with
       | H : _ /\ _ |- _ => destruct H
       end; subst.
  all: try (exfalso; menu_absurd).
  all: unfold progListModel.IsFiltering, mapListModel.IsFiltering,
         progListModel.SetPrograms, progListModel.SetError,
         progListModel.ResetFilter, mapListModel.SetMaps,
         mapListModel.SetError, mapListModel.ResetFilter in *;
       cbn [progListModel.list_ mapListModel.list_ ViewState_eqb andb orb negb]
         in *;
       rewrite ?bubbles_list.SetItems_FilterState,
         ?bubbles_list.ResetFilter_FilterState in *;
       cbn [bubbles_list.FilterState_eqb andb orb negb] in *.
  all: repeat split; try reflexivity; try congruence.
Qed.

(** X8 -- Entering a view and going back.  After a step that pushed the
    view it left, a back key returns to that view with the history as it
    was, clears the top-level error and issues no command; the menu
    model and every sub-model other than the one of the view entered
    are what they were before the step. *)
Theorem entering_a_view_and_going_back (ps : option ProgService.t)
    (ms : option MapsService.t) (msgs : list tea.Msg) (msg : tea.Msg)
    (b : string) :
  let m := runMsgs (RunWithServices ps ms) msgs in
  let m1 := fst (Update m msg) in
  let m2 := fst (Update m1 (tea.KeyMsg b)) in
  history m1 = (history m ++ [state m])%list ->
  backKey m b = true ->
  (state m2 = state m /\ history m2 = history m /\ err m2 = None
   /\ showHelp m2 = false /\ snd (Update m1 (tea.KeyMsg b)) = tea.Nil)
  /\ menu m2 = menu m
  /\ (state m1 <> ViewProgList -> progList m2 = progList m)
  /\ (state m1 <> ViewProgDetail -> progDetail m2 = progDetail m)
  /\ (state m1 <> ViewMapList -> mapList m2 = mapList m)
  /\ (state m1 <> ViewMapDetail -> mapDetail m2 = mapDetail m)
  /\ (state m1 <> ViewMapDump -> mapDump m2 = mapDump m).
Proof.
  intros m m1 m2 Hpush Hb.
  pose proof (navInv_reachable ps ms msgs) as I. fold m in I.
  destruct (@forward_step m msg I Hpush)
    as (S1 & F1 & N1 & Mn & Pl & Pd & Ml & Md & Dp).
  fold m1 in S1, F1, N1, Mn, Pl, Pd, Ml, Md, Dp.
  assert (Hb1 : backKey m1 b = true).
  { unfold m1. rewrite backKey_Update. exact Hb. }
  assert (E : Update m1 (tea.KeyMsg b)
              = (set_err None (set_state (state m) (set_history (history m) m1)),
                 tea.Nil)).
  { rewrite (back_press m1 b Hb1 S1 F1), N1.
    rewrite popState_app with (h := history m) (s := state m) by exact Hpush.
    reflexivity. }
  unfold m2. rewrite E. cbn. auto 10.
Qed.

End ThereAndBack.

(* ===================================================================== *)
(** ** Loading the lists *)

Section ListLoad.
Context {LW : bubbles_list.Widget} {VW : bubbles_viewport.Widget} {TH : Theme}.
Context {LL : bubbles_list.Laws LW}.

Lemma IsFiltering_ResetFilter_prog (pl : progListModel.t) :
  progListModel.IsFiltering (progListModel.ResetFilter pl) = false.
Proof.
  unfold progListModel.IsFiltering, progListModel.ResetFilter.
  cbn [progListModel.list_]. now rewrite bubbles_list.ResetFilter_FilterState.
Qed.

Lemma IsFiltering_ResetFilter_map (ml : mapListModel.t) :
  mapListModel.IsFiltering (mapListModel.ResetFilter ml) = false.
Proof.
  unfold mapListModel.IsFiltering, mapListModel.ResetFilter.
  cbn [mapListModel.list_]. now rewrite bubbles_list.ResetFilter_FilterState.
Qed.

Lemma IsFiltering_SetPrograms l (pl : progListModel.t) :
  progListModel.IsFiltering (progListModel.SetPrograms l pl)
  = progListModel.IsFiltering pl.
Proof.
  unfold progListModel.IsFiltering, progListModel.SetPrograms.
  cbn [progListModel.list_]. now rewrite bubbles_list.SetItems_FilterState.
Qed.

Lemma IsFiltering_SetMaps l (ml : mapListModel.t) :
  mapListModel.IsFiltering (mapListModel.SetMaps l ml)
  = mapListModel.IsFiltering ml.
Proof.
  unfold mapListModel.IsFiltering, mapListModel.SetMaps.
  cbn [mapListModel.list_]. now rewrite bubbles_list.SetItems_FilterState.
Qed.

(** The outcome of [loadPrograms] by the answer of the service. *)
Lemma loadPrograms_outcome (m : Model) :
  let pl' := progList (loadPrograms m) in
  loadPrograms m = set_progList pl' m
  /\ progListModel.IsFiltering pl' = false
  /\ match progSvc m with
     | None =>
         progListModel.programs pl' = []
         /\ bubbles_list.Items (progListModel.list_ pl') = []
         /\ progListModel.err pl' = progListModel.err (progList m)
     | Some svc =>
         match ProgService.List svc with
         | (l, None) =>
             progListModel.programs pl' = l
             /\ bubbles_list.Items (progListModel.list_ pl')
                = map (fun prog => {| progItem_info := prog |}) l
             /\ progListModel.err pl' = progListModel.err (progList m)
         | (_, Some e) =>
             progListModel.programs pl' = progListModel.programs (progList m)
             /\ bubbles_list.Items (progListModel.list_ pl')
                = bubbles_list.Items (progListModel.list_ (progList m))
             /\ progListModel.err pl' = Some e
         end
     end.
Proof.
  cbv zeta. unfold loadPrograms.
  cbn [progSvc progList set_progList].
  destruct (progSvc m) as [svc|].
  - destruct (ProgService.List svc) as [l [e|]];
      cbn [progList set_progList].
    + split; [reflexivity|]. split.
      * unfold progListModel.SetError, progListModel.IsFiltering.
        cbn [progListModel.list_].
        apply IsFiltering_ResetFilter_prog.
      * unfold progListModel.SetError, progListModel.ResetFilter.
        cbn [progListModel.list_ progListModel.programs progListModel.err].
        rewrite bubbles_list.ResetFilter_Items. auto.
    + split; [reflexivity|]. split.
      * rewrite IsFiltering_SetPrograms. apply IsFiltering_ResetFilter_prog.
      * unfold progListModel.SetPrograms, progListModel.ResetFilter.
        cbn [progListModel.list_ progListModel.programs progListModel.err].
        rewrite bubbles_list.SetItems_Items. auto.
  - cbn [progList set_progList]. split; [reflexivity|]. split.
    + rewrite IsFiltering_SetPrograms. apply IsFiltering_ResetFilter_prog.
    + unfold progListModel.SetPrograms, progListModel.ResetFilter.
      cbn [progListModel.list_ progListModel.programs progListModel.err].
      rewrite bubbles_list.SetItems_Items. auto.
Qed.

Lemma loadMaps_outcome (m : Model) :
  let ml' := mapList (loadMaps m) in
  loadMaps m = set_mapList ml' m
  /\ mapListModel.IsFiltering ml' = false
  /\ match mapsSvc m with
     | None =>
         mapListModel.maps ml' = []
         /\ bubbles_list.Items (mapListModel.list_ ml') = []
         /\ mapListModel.err ml' = mapListModel.err (mapList m)
     | Some svc =>
         match MapsService.List svc with
         | (l, None) =>
             mapListModel.maps ml' = l
             /\ bubbles_list.Items (mapListModel.list_ ml')
                = map (fun mapInfo => {| mapItem_info := mapInfo |}) l
             /\ mapListModel.err ml' = mapListModel.err (mapList m)
         | (_, Some e) =>
             mapListModel.maps ml' = mapListModel.maps (mapList m)
             /\ bubbles_list.Items (mapListModel.list_ ml')
                = bubbles_list.Items (mapListModel.list_ (mapList m))
             /\ mapListModel.err ml' = Some e
         end
     end.
Proof.
  cbv zeta. unfold loadMaps.
  cbn [mapsSvc mapList set_mapList].
  destruct (mapsSvc m) as [svc|].
  - destruct (MapsService.List svc) as [l [e|]];
      cbn [mapList set_mapList].
    + split; [reflexivity|]. split.
      * unfold mapListModel.SetError, mapListModel.IsFiltering.
        cbn [mapListModel.list_].
        apply IsFiltering_ResetFilter_map.
      * unfold mapListModel.SetError, mapListModel.ResetFilter.
        cbn [mapListModel.list_ mapListModel.maps mapListModel.err].
        rewrite bubbles_list.ResetFilter_Items. auto.
    + split; [reflexivity|]. split.
      * rewrite IsFiltering_SetMaps. apply IsFiltering_ResetFilter_map.
      * unfold mapListModel.SetMaps, mapListModel.ResetFilter.
        cbn [mapListModel.list_ mapListModel.maps mapListModel.err].
        rewrite bubbles_list.SetItems_Items. auto.
  - cbn [mapList set_mapList]. split; [reflexivity|]. split.
    + rewrite IsFiltering_SetMaps. apply IsFiltering_ResetFilter_map.
    + unfold mapListModel.SetMaps, mapListModel.ResetFilter.
      cbn [mapListModel.list_ mapListModel.maps mapListModel.err].
      rewrite bubbles_list.SetItems_Items. auto.
Qed.

(** X9 -- The outcome of loading a list.  [loadPrograms] changes the
    program list model only and leaves it out of filter entry.  When the
    service answers with a list, the list becomes the records held and
    the rows of the widget, and the error stored stays: [SetPrograms]
    does not clear it, so that after an earlier failure the error page
    is still what the list renders.  When the service fails, the failure
    is stored and rendered, and the records and rows of the previous
    load are kept.  Without a service the list is empty.  [loadMaps]
    does the same for the map list. *)
Theorem list_load_outcomes (m : Model) :
  (loadPrograms m = set_progList (progList (loadPrograms m)) m
   /\ progListModel.IsFiltering (progList (loadPrograms m)) = false
   /\ (forall svc l,
         progSvc m = Some svc -> ProgService.List svc = (l, None) ->
         progListModel.programs (progList (loadPrograms m)) = l
         /\ bubbles_list.Items (progListModel.list_ (progList (loadPrograms m)))
            = map (fun prog => {| progItem_info := prog |}) l
         /\ progListModel.err (progList (loadPrograms m))
            = progListModel.err (progList m))
   /\ (forall svc l e,
         progSvc m = Some svc -> ProgService.List svc = (l, Some e) ->
         progListModel.programs (progList (loadPrograms m))
         = progListModel.programs (progList m)
         /\ bubbles_list.Items (progListModel.list_ (progList (loadPrograms m)))
            = bubbles_list.Items (progListModel.list_ (progList m))
         /\ progListModel.err (progList (loadPrograms m)) = Some e
         /\ progListModel.View (progList (loadPrograms m))
            = titleStyle "BPF Programs" ++ nl ++ nl
              ++ errorStyle ("Error: " ++ Error e))
   /\ (progSvc m = None ->
       progListModel.programs (progList (loadPrograms m)) = []
       /\ progListModel.err (progList (loadPrograms m))
          = progListModel.err (progList m))
   /\ (forall svc l e0,
         progSvc m = Some svc -> ProgService.List svc = (l, None) ->
         progListModel.err (progList m) = Some e0 ->
         progListModel.View (progList (loadPrograms m))
         = titleStyle "BPF Programs" ++ nl ++ nl
           ++ errorStyle ("Error: " ++ Error e0)))
  /\ (loadMaps m = set_mapList (mapList (loadMaps m)) m
      /\ mapListModel.IsFiltering (mapList (loadMaps m)) = false
      /\ (forall svc l,
            mapsSvc m = Some svc -> MapsService.List svc = (l, None) ->
            mapListModel.maps (mapList (loadMaps m)) = l
            /\ bubbles_list.Items (mapListModel.list_ (mapList (loadMaps m)))
               = map (fun mapInfo => {| mapItem_info := mapInfo |}) l
            /\ mapListModel.err (mapList (loadMaps m))
               = mapListModel.err (mapList m))
      /\ (forall svc l e,
            mapsSvc m = Some svc -> MapsService.List svc = (l, Some e) ->
            mapListModel.maps (mapList (loadMaps m))
            = mapListModel.maps (mapList m)
            /\ bubbles_list.Items (mapListModel.list_ (mapList (loadMaps m)))
               = bubbles_list.Items (mapListModel.list_ (mapList m))
            /\ mapListModel.err (mapList (loadMaps m)) = Some e
            /\ mapListModel.View (mapList (loadMaps m))
               = titleStyle "BPF Maps" ++ nl ++ nl
                 ++ errorStyle ("Error: " ++ Error e))
      /\ (mapsSvc m = None ->
          mapListModel.maps (mapList (loadMaps m)) = []
          /\ mapListModel.err (mapList (loadMaps m))
             = mapListModel.err (mapList m))
      /\ (forall svc l e0,
            mapsSvc m = Some svc -> MapsService.List svc = (l, None) ->
            mapListModel.err (mapList m) = Some e0 ->
            mapListModel.View (mapList (loadMaps m))
            = titleStyle "BPF Maps" ++ nl ++ nl
              ++ errorStyle ("Error: " ++ Error e0))).
Proof.
  split.
  - pose proof (loadPrograms_outcome m) as O. cbv zeta in O.
    destruct O as (O1 & O2 & O3).
    split; [exact O1|]. split; [exact O2|].
    split; [|split; [|split]].
    + intros svc l Hs Hl. rewrite Hs, Hl in O3. exact O3.
    + intros svc l e Hs Hl. rewrite Hs, Hl in O3.
      destruct O3 as (P & I & E). repeat split; try assumption.
      unfold progListModel.View. rewrite E, andb_false_r. reflexivity.
    + intros Hs. rewrite Hs in O3. destruct O3 as (P & _ & E). auto.
    + intros svc l e0 Hs Hl He. rewrite Hs, Hl in O3.
      destruct O3 as (_ & _ & E).
      unfold progListModel.View. rewrite E, He, andb_false_r. reflexivity.
  - pose proof (loadMaps_outcome m) as O. cbv zeta in O.
    destruct O as (O1 & O2 & O3).
    split; [exact O1|]. split; [exact O2|].
    split; [|split; [|split]].
    + intros svc l Hs Hl. rewrite Hs, Hl in O3. exact O3.
    + intros svc l e Hs Hl. rewrite Hs, Hl in O3.
      destruct O3 as (P & I & E). repeat split; try assumption.
      unfold mapListModel.View. rewrite E, andb_false_r. reflexivity.
    + intros Hs. rewrite Hs in O3. destruct O3 as (P & _ & E). auto.
    + intros svc l e0 Hs Hl He. rewrite Hs, Hl in O3.
      destruct O3 as (_ & _ & E).
      unfold mapListModel.View. rewrite E, He, andb_false_r. reflexivity.
Qed.

End ListLoad.

(* ===================================================================== *)
(** ** The forward transitions *)

Section Forward.
Context {LW : bubbles_list.Widget} {VW : bubbles_viewport.Widget} {TH : Theme}.
Context {LL : bubbles_list.Laws LW}.

(** X10 -- The Enter key in the menu, with the help overlay hidden.  The
    selected entry leads to the program list or to the map list, and to
    no other view: the menu is pushed on the empty history, the list is
    loaded and left out of filter entry, and no command is issued.  With
    no entry selected the key goes to the list widget of the menu. *)
Theorem menu_enter_opens_a_list (ps : option ProgService.t)
    (ms : option MapsService.t) (msgs : list tea.Msg) :
  let m := runMsgs (RunWithServices ps ms) msgs in
  let r := Update m (tea.KeyMsg "enter") in
  state m = ViewMenu -> showHelp m = false ->
  match menuModel.SelectedItem (menu m) with
  | Some item =>
      (target item = ViewProgList
       /\ r = (loadPrograms (pushState ViewProgList m), tea.Nil)
       /\ state (fst r) = ViewProgList /\ history (fst r) = [ViewMenu]
       /\ progListModel.IsFiltering (progList (fst r)) = false)
      \/ (target item = ViewMapList
          /\ r = (loadMaps (pushState ViewMapList m), tea.Nil)
          /\ state (fst r) = ViewMapList /\ history (fst r) = [ViewMenu]
          /\ mapListModel.IsFiltering (mapList (fst r)) = false)
  | None =>
      r = (set_menu {| menuModel.list_ :=
                         fst (bubbles_list.Update (menuModel.list_ (menu m))
                                                  (tea.KeyMsg "enter")) |} m,
           snd (bubbles_list.Update (menuModel.list_ (menu m))
                                    (tea.KeyMsg "enter")))
  end.
Proof.
  intros m r St Sh.
  pose proof (Update_enter ps ms msgs Sh) as UE.
  change (r = handleViewKeys m (tea.KeyMsg "enter")) in UE.
  rewrite UE. clear UE. clearbody r. clear r.
  pose proof (navInv_reachable ps ms msgs) as [I1 I2 _ _ _]. fold m in I1, I2.
  assert (Hh : history m = []).
  { rewrite St in I1. apply trail_cases in I1.
    destruct I1 as [[H _]|[[_ H]|[[_ H]|[[_ H]|[[_ H]|[[_ H]|[[_ H]|[_ H]]]]]]]];
      [exact H | discriminate H ..]. }
  unfold handleViewKeys, handleMenuKeys. rewrite St.
  unfold menuModel.Update, menuModel.toList, menuModel.SelectedItem.
  cbn [String.eqb Ascii.eqb Bool.eqb andb].
  destruct (bubbles_list.SelectedItem (menuModel.list_ (menu m)))
    as [item|] eqn:Sel.
  - apply bubbles_list.SelectedItem_In in Sel. rewrite I2 in Sel.
    cbn in Sel. destruct Sel as [<-|[<-|[]]]; cbn [target fst].
    + left. split; [reflexivity|]. split; [reflexivity|].
      destruct (loadPrograms_outcome
                  (pushState ViewProgList (set_menu (menu m) m)))
        as (O1 & O2 & _).
      rewrite O1 at 1 2. cbn [state history set_progList pushState set_state
        set_history set_menu]. rewrite St, Hh. auto.
    + right. split; [reflexivity|]. split; [reflexivity|].
      destruct (loadMaps_outcome
                  (pushState ViewMapList (set_menu (menu m) m)))
        as (O1 & O2 & _).
      rewrite O1 at 1 2. cbn [state history set_mapList pushState set_state
        set_history set_menu]. rewrite St, Hh. auto.
  - destruct (bubbles_list.Update _ _) as [l c]. reflexivity.
Qed.

(** X11 -- The Enter key in the program list, with the help overlay
    hidden and no filter being typed, on a selected program: the program
    is one of the records the list model holds; the program list is
    pushed, the list model stays, and the detail model holds that
    program with its map IDs, the cursor on the first of them (none when
    there is no map) and its viewport set up; no command is issued. *)
Theorem program_selection_opens_its_detail (ps : option ProgService.t)
    (ms : option MapsService.t) (msgs : list tea.Msg) (p : ProgramInfo.t) :
  let m := runMsgs (RunWithServices ps ms) msgs in
  let r := Update m (tea.KeyMsg "enter") in
  state m = ViewProgList -> showHelp m = false ->
  progListModel.IsFiltering (progList m) = false ->
  progListModel.SelectedItem (progList m) = Some p ->
  In p (progListModel.programs (progList m))
  /\ r = (set_progDetail
            (progDetailModel.SetProgram (Some p) (progDetail m))
            (pushState ViewProgDetail m), tea.Nil)
  /\ progDetailModel.program (progDetail (fst r)) = Some p
  /\ progDetailModel.mapIDs (progDetail (fst r)) = ProgramInfo.MapIDs p
  /\ progDetailModel.cursor (progDetail (fst r))
     = match ProgramInfo.MapIDs p with [] => -1 | _ :: _ => 0 end
  /\ progDetailModel.ready (progDetail (fst r)) = true
  /\ progList (fst r) = progList m.
Proof.
  intros m r St Sh Fl Sel.
  pose proof (Update_enter ps ms msgs Sh) as UE.
  change (r = handleViewKeys m (tea.KeyMsg "enter")) in UE.
  rewrite UE. clear UE. clearbody r. clear r.
  destruct (dataInv_reachable ps ms msgs) as [_ [D1 _ _ _ _ _ _]]. fold m in D1.
  unfold progListModel.SelectedItem in Sel.
  destruct (bubbles_list.SelectedItem (progListModel.list_ (progList m)))
    as [item|] eqn:SI; [|discriminate Sel].
  injection Sel as <-.
  split.
  { apply bubbles_list.SelectedItem_In in SI. rewrite D1 in SI.
    apply in_map_iff in SI. destruct SI as (q & <- & Hq). exact Hq. }
  assert (E : handleViewKeys m (tea.KeyMsg "enter")
              = (set_progDetail
                   (progDetailModel.SetProgram (Some (progItem_info item))
                                               (progDetail m))
                   (pushState ViewProgDetail m), tea.Nil)).
  { unfold handleViewKeys, handleProgListKeys. rewrite St.
    unfold progListModel.Update. unfold progListModel.IsFiltering in Fl.
    rewrite Fl, SI. cbn [String.eqb Ascii.eqb Bool.eqb andb].
    destruct m; reflexivity. }
  rewrite E. split; [reflexivity|].
  cbn [fst progDetail progList set_progDetail pushState set_state set_history].
  rewrite SetProgram_program.
  destruct (progDetailOK_SetProgram (Some (progItem_info item)) (progDetail m))
    as (C & M & R).
  rewrite SetProgram_program in M, R.
  pose proof (SetProgram_cursor (Some (progItem_info item)) (progDetail m)) as K.
  cbv zeta in K. destruct K as [K1 K2]. rewrite K1 in K2.
  repeat split; try assumption. apply R. discriminate.
Qed.

(** X12 -- The Enter key in the map list, with the help overlay hidden
    and no filter being typed, on a selected map: the map is one of the
    records the list model holds; the map list is pushed, the list model
    stays, and the detail model holds that map with the cursor on its
    action and its viewport set up; no command is issued. *)
Theorem map_selection_opens_its_detail (ps : option ProgService.t)
    (ms : option MapsService.t) (msgs : list tea.Msg) (mi : MapInfo.t) :
  let m := runMsgs (RunWithServices ps ms) msgs in
  let r := Update m (tea.KeyMsg "enter") in
  state m = ViewMapList -> showHelp m = false ->
  mapListModel.IsFiltering (mapList m) = false ->
  mapListModel.SelectedItem (mapList m) = Some mi ->
  In mi (mapListModel.maps (mapList m))
  /\ r = (set_mapDetail
            (mapDetailModel.SetMap (Some mi) (mapDetail m))
            (pushState ViewMapDetail m), tea.Nil)
  /\ mapDetailModel.mapInfo (mapDetail (fst r)) = Some mi
  /\ mapDetailModel.cursor (mapDetail (fst r)) = 0
  /\ mapDetailModel.ready (mapDetail (fst r)) = true
  /\ mapList (fst r) = mapList m.
Proof.
  intros m r St Sh Fl Sel.
  pose proof (Update_enter ps ms msgs Sh) as UE.
  change (r = handleViewKeys m (tea.KeyMsg "enter")) in UE.
  rewrite UE. clear UE. clearbody r. clear r.
  destruct (dataInv_reachable ps ms msgs) as [_ [_ D2 _ _ _ _ _]]. fold m in D2.
  unfold mapListModel.SelectedItem in Sel.
  destruct (bubbles_list.SelectedItem (mapListModel.list_ (mapList m)))
    as [item|] eqn:SI; [|discriminate Sel].
  injection Sel as <-.
  split.
  { apply bubbles_list.SelectedItem_In in SI. rewrite D2 in SI.
    apply in_map_iff in SI. destruct SI as (q & <- & Hq). exact Hq. }
  assert (E : handleViewKeys m (tea.KeyMsg "enter")
              = (set_mapDetail
                   (mapDetailModel.SetMap (Some (mapItem_info item))
                                          (mapDetail m))
                   (pushState ViewMapDetail m), tea.Nil)).
  { unfold handleViewKeys, handleMapListKeys. rewrite St.
    unfold mapListModel.Update. unfold mapListModel.IsFiltering in Fl.
    rewrite Fl, SI. cbn [String.eqb Ascii.eqb Bool.eqb andb].
    destruct m; reflexivity. }
  rewrite E. split; [reflexivity|].
  cbn [fst mapDetail mapList set_mapDetail pushState set_state set_history].
  rewrite SetMap_mapInfo.
  destruct (mapDetailOK_SetMap (Some (mapItem_info item)) (mapDetail m))
    as (C & R).
  rewrite SetMap_mapInfo in R.
  repeat split; try assumption. apply R. discriminate.
Qed.

End Forward.

(* ===================================================================== *)
(** ** Following a cross-reference and requesting a dump *)

Section DetailEnter.
Context {LW : bubbles_list.Widget} {VW : bubbles_viewport.Widget} {TH : Theme}.
Context {LL : bubbles_list.Laws LW}.

(** With a consistent cursor, a map is selected exactly when the
    program has associated maps, and it is the one under the cursor. *)
Lemma SelectedMapID_cursorOK (pd : progDetailModel.t) :
  cursorOK pd ->
  progDetailModel.SelectedMapID pd
  = nth_error (progDetailModel.mapIDs pd) (Z.to_nat (progDetailModel.cursor pd)).
Proof.
  unfold cursorOK, progDetailModel.SelectedMapID, len.
  destruct (progDetailModel.mapIDs pd) as [|i ids] eqn:Ids.
  - intros ->. reflexivity.
  - intros C. set (l := i :: ids) in *.
    replace (0 <? Z.of_nat (List.length l)) with true
      by (symmetry; apply Z.ltb_lt; lia).
    replace (0 <=? progDetailModel.cursor pd) with true
      by (symmetry; apply Z.leb_le; lia).
    replace (progDetailModel.cursor pd <? Z.of_nat (List.length l)) with true
      by (symmetry; apply Z.ltb_lt; lia).
    cbn [andb]. symmetry. apply nth_error_nth'. lia.
Qed.

(** The Enter key leaves the model as it is and reports the selected
    map. *)
Lemma progDetailModel_Update_enter (pd : progDetailModel.t) :
  progDetailModel.Update pd (tea.KeyMsg "enter")
  = (pd, tea.Nil, progDetailModel.SelectedMapID pd).
Proof.
  unfold progDetailModel.Update, progDetailModel.SelectedMapID.
  cbn [String.eqb Ascii.eqb Bool.eqb andb orb].
  destruct (_ && _ && _); reflexivity.
Qed.

(** X13 -- The Enter key in the program detail view, with the help
    overlay hidden.  The view holds a program.  Without associated maps
    nothing is selected and the model is returned as it is.  Otherwise
    the selected map ID is one of the program's; the program detail view
    is pushed and the map detail view entered in every case: when the
    fetch succeeds the map detail model holds what was fetched, with the
    cursor on its action; when it fails the failure becomes the
    top-level error and the map detail model keeps the map shown before;
    without a maps service nothing is fetched. *)
Theorem cross_reference_follow (ps : option ProgService.t)
    (ms : option MapsService.t) (msgs : list tea.Msg) :
  let m := runMsgs (RunWithServices ps ms) msgs in
  let r := Update m (tea.KeyMsg "enter") in
  state m = ViewProgDetail -> showHelp m = false ->
  exists p,
    progDetailModel.program (progDetail m) = Some p
    /\ match progDetailModel.SelectedMapID (progDetail m) with
       | None => ProgramInfo.MapIDs p = [] /\ r = (m, tea.Nil)
       | Some id =>
           In id (ProgramInfo.MapIDs p)
           /\ r = (loadMapByID id (pushState ViewMapDetail m), tea.Nil)
           /\ state (fst r) = ViewMapDetail
           /\ history (fst r) = (history m ++ [ViewProgDetail])%list
           /\ progDetail (fst r) = progDetail m
           /\ match mapsSvc m with
              | None => err (fst r) = err m /\ mapDetail (fst r) = mapDetail m
              | Some svc =>
                  match MapsService.Get svc id with
                  | (mi, None) =>
                      err (fst r) = err m
                      /\ mapDetailModel.mapInfo (mapDetail (fst r)) = mi
                      /\ mapDetailModel.cursor (mapDetail (fst r)) = 0
                  | (_, Some e) =>
                      err (fst r) = Some e
                      /\ mapDetail (fst r) = mapDetail m
                  end
              end
       end.
Proof.
  intros m r St Sh.
  pose proof (Update_enter ps ms msgs Sh) as UE.
  change (r = handleViewKeys m (tea.KeyMsg "enter")) in UE.
  rewrite UE. clear UE. clearbody r. clear r.
  destruct (dataInv_reachable ps ms msgs) as [_ [_ _ (C & M & R) D4 _ _ _]].
  fold m in C, M, R, D4.
  destruct (progDetailModel.program (progDetail m)) as [p|] eqn:P.
  2:{ exfalso. apply D4; [|reflexivity]. rewrite St.
      apply in_or_app. right. left. reflexivity. }
  exists p. split; [reflexivity|].
  pose proof C as S. apply SelectedMapID_cursorOK in S.
  unfold handleViewKeys, handleProgDetailKeys. rewrite St.
  rewrite progDetailModel_Update_enter.
  destruct (progDetailModel.SelectedMapID (progDetail m)) as [id|] eqn:Sel.
  - split.
    { symmetry in S. apply nth_error_In in S. rewrite M in S. exact S. }
    split; [reflexivity|].
    unfold loadMapByID, pushState.
    cbn [fst mapsSvc set_progDetail set_state set_history].
    destruct (mapsSvc m) as [svc|].
    + destruct (MapsService.Get svc id) as [mi [e|]];
        cbn [state history progDetail mapDetail err set_err set_mapDetail
             set_progDetail set_state set_history];
        rewrite St; repeat split.
      * apply SetMap_mapInfo.
      * apply mapDetailOK_SetMap.
    + cbn [state history progDetail mapDetail err set_progDetail set_state
           set_history]. rewrite St. repeat split.
  - split; [|reflexivity].
    symmetry in S. apply nth_error_None in S. rewrite M in S.
    unfold cursorOK in C. rewrite M in C.
    destruct (ProgramInfo.MapIDs p) as [|i ids]; [reflexivity|].
    exfalso. unfold len in C. cbn [List.length] in *. lia.
Qed.

(** X14 -- The Enter key in the map detail view, with the help overlay
    hidden.  Without a map the model is returned as it is.  With a map
    the dump is requested for the ID of that map: the map detail view is
    pushed and the dump view entered, its viewport set up and not
    loading.  When the fetch succeeds the dump model holds the ID and
    the name of the map and the entries fetched, with no error; when it
    fails the failure is stored and rendered, and ID, name and entries
    of the dump shown before are kept; without a maps service the dump
    is empty and unnamed. *)
Theorem dump_request (ps : option ProgService.t)
    (ms : option MapsService.t) (msgs : list tea.Msg) :
  let m := runMsgs (RunWithServices ps ms) msgs in
  let r := Update m (tea.KeyMsg "enter") in
  state m = ViewMapDetail -> showHelp m = false ->
  match mapDetailModel.mapInfo (mapDetail m) with
  | None => r = (m, tea.Nil)
  | Some mi =>
      r = (loadMapDump (MapInfo.ID mi) (pushState ViewMapDump m), tea.Nil)
      /\ state (fst r) = ViewMapDump
      /\ history (fst r) = (history m ++ [ViewMapDetail])%list
      /\ err (fst r) = err m /\ mapDetail (fst r) = mapDetail m
      /\ mapDumpModel.loading (mapDump (fst r)) = false
      /\ mapDumpModel.ready (mapDump (fst r)) = true
      /\ match mapsSvc m with
         | None =>
             mapDumpModel.mapID (mapDump (fst r)) = MapInfo.ID mi
             /\ mapDumpModel.mapName (mapDump (fst r)) = ""
             /\ mapDumpModel.entries (mapDump (fst r)) = []
             /\ mapDumpModel.err (mapDump (fst r)) = None
         | Some svc =>
             match MapsService.Dump svc (MapInfo.ID mi) with
             | (es, None) =>
                 mapDumpModel.mapID (mapDump (fst r)) = MapInfo.ID mi
                 /\ mapDumpModel.mapName (mapDump (fst r)) = MapInfo.Name mi
                 /\ mapDumpModel.entries (mapDump (fst r)) = es
                 /\ mapDumpModel.err (mapDump (fst r)) = None
             | (_, Some e) =>
                 mapDumpModel.err (mapDump (fst r)) = Some e
                 /\ mapDumpModel.mapID (mapDump (fst r))
                    = mapDumpModel.mapID (mapDump m)
                 /\ mapDumpModel.mapName (mapDump (fst r))
                    = mapDumpModel.mapName (mapDump m)
                 /\ mapDumpModel.entries (mapDump (fst r))
                    = mapDumpModel.entries (mapDump m)
                 /\ mapDumpModel.renderContent (mapDump (fst r))
                    = errorStyle ("Error: " ++ Error e)
             end
         end
  end.
Proof.
  intros m r St Sh.
  pose proof (Update_enter ps ms msgs Sh) as UE.
  change (r = handleViewKeys m (tea.KeyMsg "enter")) in UE.
  rewrite UE. clear UE. clearbody r. clear r.
  destruct (dataInv_reachable ps ms msgs) as [_ [_ _ _ _ (C & R) _ _]].
  fold m in C, R.
  unfold handleViewKeys, handleMapDetailKeys. rewrite St.
  unfold mapDetailModel.Update.
  cbn [String.eqb Ascii.eqb Bool.eqb andb orb].
  destruct (mapDetailModel.mapInfo (mapDetail m)) as [mi|] eqn:Mi;
    [|reflexivity].
  rewrite C. cbn [Z.eqb].
  assert (G : mapDetailModel.GetMapID
                (mapDetail (pushState ViewMapDump
                              (set_mapDetail (mapDetail m) m)))
              = MapInfo.ID mi).
  { unfold mapDetailModel.GetMapID. cbn [mapDetail pushState set_state
      set_history set_mapDetail]. rewrite Mi. reflexivity. }
  rewrite G. split; [reflexivity|].
  unfold loadMapDump, pushState, mapDetailModel.GetMapInfo.
  cbn [fst mapsSvc mapDetail mapDump set_mapDetail set_state set_history].
  rewrite Mi, N.eqb_refl.
  destruct (mapsSvc m) as [svc|].
  - destruct (MapsService.Dump svc (MapInfo.ID mi)) as [es [e|]];
      cbn [state history mapDetail mapDump err set_mapDump set_state
           set_history set_mapDetail]; rewrite St.
    + pose proof (mapDump_SetError_frame (Some e) (mapDump m)) as F.
      cbv zeta in F. destruct F as (F1 & F2 & F3 & F4 & F5 & F6).
      repeat split; try assumption.
      unfold mapDumpModel.renderContent. rewrite F5. reflexivity.
    + pose proof (SetMapDump_frame (MapInfo.ID mi) (MapInfo.Name mi) es
                    (mapDump m)) as F.
      cbv zeta in F. destruct F as (F1 & F2 & F3 & F4 & F5 & F6).
      repeat split; assumption.
  - cbn [state history mapDetail mapDump err set_mapDump set_state
         set_history set_mapDetail]. rewrite St.
    pose proof (SetMapDump_frame (MapInfo.ID mi) "" [] (mapDump m)) as F.
    cbv zeta in F. destruct F as (F1 & F2 & F3 & F4 & F5 & F6).
    repeat split; assumption.
Qed.

End DetailEnter.

(* ===================================================================== *)
(** ** The cursor of the program detail view *)

Section CursorMoves.
Context {VW : bubbles_viewport.Widget} {TH : Theme}.

Lemma concat_nil_cons (s : string) (l : list string) :
  String.concat "" (s :: l) = s ++ String.concat "" l.
Proof.
  destruct l as [|t l]; cbn [String.concat].
  - symmetry. apply string_app_nil_r.
  - reflexivity.
Qed.

Lemma renderMapIDs_plain (ids : list N) : forall i c,
  c < i \/ i + len ids <= c ->
  progDetailModel.renderMapIDs i ids c = plainRows ids.
Proof.
  induction ids as [|id ids IH]; intros i c H; [reflexivity|].
  cbn [progDetailModel.renderMapIDs]. unfold plainRows. cbn [map].
  rewrite concat_nil_cons. fold (plainRows ids).
  unfold len in *. cbn [List.length] in H.
  replace (i =? c) with false by (symmetry; apply Z.eqb_neq; lia).
  rewrite (IH (i + 1) c) by lia.
  unfold plainRow. rewrite string_app_assoc. reflexivity.
Qed.

Lemma renderMapIDs_marked (ids : list N) : forall i (n : nat),
  (n < List.length ids)%nat ->
  progDetailModel.renderMapIDs i ids (i + Z.of_nat n)
  = plainRows (firstn n ids) ++ markedRow (nth n ids 0%N)
    ++ plainRows (skipn (S n) ids).
Proof.
  induction ids as [|id ids IH]; intros i n H; [cbn in H; lia|].
  cbn [progDetailModel.renderMapIDs].
  destruct n as [|n].
  - rewrite Z.add_0_r, Z.eqb_refl. cbn [firstn nth skipn].
    rewrite renderMapIDs_plain by lia.
    unfold plainRows at 1. cbn [map String.concat].
    unfold markedRow. rewrite string_app_assoc. reflexivity.
  - replace (i =? i + Z.of_nat (S n)) with false
      by (symmetry; apply Z.eqb_neq; lia).
    replace (i + Z.of_nat (S n)) with ((i + 1) + Z.of_nat n) by lia.
    cbn [List.length] in H. rewrite IH by lia.
    cbn [firstn nth skipn]. unfold plainRows at 3. cbn [map].
    rewrite concat_nil_cons. fold (plainRows (firstn n ids)).
    unfold plainRow. rewrite !string_app_assoc. reflexivity.
Qed.

(** X15 -- The rows of the associated maps.  With the cursor on an index
    of the list, the row at that index, and no other, is rendered as
    selected; with the cursor outside the list (as the value -1 for "no
    map") no row is. *)
Theorem associated_maps_mark_the_cursor_row (ids : list N) (c : Z) :
  (0 <= c < len ids ->
   progDetailModel.renderMapIDs 0 ids c
   = plainRows (firstn (Z.to_nat c) ids)
     ++ markedRow (nth (Z.to_nat c) ids 0%N)
     ++ plainRows (skipn (S (Z.to_nat c)) ids))
  /\ (c < 0 \/ len ids <= c ->
      progDetailModel.renderMapIDs 0 ids c = plainRows ids).
Proof.
  split.
  - intros H. unfold len in H.
    replace c with (0 + Z.of_nat (Z.to_nat c)) at 1 by lia.
    apply renderMapIDs_marked. lia.
  - intros H. apply renderMapIDs_plain. lia.
Qed.

Lemma progDetail_down_step (m : progDetailModel.t) k :
  k = "down" \/ k = "j" ->
  let m' := fst (fst (progDetailModel.Update m (tea.KeyMsg k))) in
  progDetailModel.mapIDs m' = progDetailModel.mapIDs m
  /\ progDetailModel.cursor m'
     = if (0 <? len (progDetailModel.mapIDs m))
          && (progDetailModel.cursor m <? len (progDetailModel.mapIDs m) - 1)
       then progDetailModel.cursor m + 1
       else progDetailModel.cursor m.
Proof.
  intros Hk. cbv zeta. unfold progDetailModel.Update.
  assert (U : String.eqb k "up" || String.eqb k "k" = false)
    by (destruct Hk as [-> | ->]; reflexivity).
  assert (D : String.eqb k "down" || String.eqb k "j" = true)
    by (destruct Hk as [-> | ->]; reflexivity).
  rewrite U, D.
  destruct (_ && _); cbn [fst]; [|split; reflexivity].
  match goal with |- context [progDetailModel.updateViewport ?x] =>
    destruct (updateViewport_frame x) as [-> ->] end.
  split; reflexivity.
Qed.

Lemma progDetail_up_step (m : progDetailModel.t) k :
  k = "up" \/ k = "k" ->
  let m' := fst (fst (progDetailModel.Update m (tea.KeyMsg k))) in
  progDetailModel.mapIDs m' = progDetailModel.mapIDs m
  /\ progDetailModel.cursor m'
     = if (0 <? len (progDetailModel.mapIDs m))
          && (0 <? progDetailModel.cursor m)
       then progDetailModel.cursor m - 1
       else progDetailModel.cursor m.
Proof.
  intros Hk. cbv zeta. unfold progDetailModel.Update.
  assert (U : String.eqb k "up" || String.eqb k "k" = true)
    by (destruct Hk as [-> | ->]; reflexivity).
  rewrite U.
  destruct (_ && _); cbn [fst]; [|split; reflexivity].
  match goal with |- context [progDetailModel.updateViewport ?x] =>
    destruct (updateViewport_frame x) as [-> ->] end.
  split; reflexivity.
Qed.

Lemma progDetail_downs (k : string) (n : nat) :
  k = "down" \/ k = "j" ->
  forall m : progDetailModel.t,
    0 <= progDetailModel.cursor m < len (progDetailModel.mapIDs m) ->
    progDetailModel.mapIDs (detailAfter m (presses k n))
    = progDetailModel.mapIDs m
    /\ progDetailModel.cursor (detailAfter m (presses k n))
       = Z.min (progDetailModel.cursor m + Z.of_nat n)
               (len (progDetailModel.mapIDs m) - 1).
Proof.
  intros Hk. induction n as [|n IH]; intros m C.
  - cbn. split; [reflexivity|lia].
  - cbn [presses repeat detailAfter fold_left].
    fold (presses k n).
    fold (detailAfter (fst (fst (progDetailModel.Update m (tea.KeyMsg k))))
                      (presses k n)).
    destruct (progDetail_down_step m Hk) as [M K].
    set (m' := fst (fst (progDetailModel.Update m (tea.KeyMsg k)))) in *.
    assert (K' : progDetailModel.cursor m'
                 = Z.min (progDetailModel.cursor m + 1)
                         (len (progDetailModel.mapIDs m) - 1)).
    { rewrite K.
      destruct (0 <? len (progDetailModel.mapIDs m)) eqn:A;
        [|apply Z.ltb_ge in A; lia].
      destruct (progDetailModel.cursor m <? len (progDetailModel.mapIDs m) - 1)
        eqn:B; cbn [andb];
        [apply Z.ltb_lt in B | apply Z.ltb_ge in B]; lia. }
    destruct (IH m') as [IM IK]; [rewrite M, K'; lia|].
    rewrite IM, IK, M, K'. split; [reflexivity|lia].
Qed.

Lemma progDetail_ups (k : string) (n : nat) :
  k = "up" \/ k = "k" ->
  forall m : progDetailModel.t,
    0 <= progDetailModel.cursor m < len (progDetailModel.mapIDs m) ->
    progDetailModel.mapIDs (detailAfter m (presses k n))
    = progDetailModel.mapIDs m
    /\ progDetailModel.cursor (detailAfter m (presses k n))
       = Z.max (progDetailModel.cursor m - Z.of_nat n) 0.
Proof.
  intros Hk. induction n as [|n IH]; intros m C.
  - cbn. split; [reflexivity|lia].
  - cbn [presses repeat detailAfter fold_left].
    fold (presses k n).
    fold (detailAfter (fst (fst (progDetailModel.Update m (tea.KeyMsg k))))
                      (presses k n)).
    destruct (progDetail_up_step m Hk) as [M K].
    set (m' := fst (fst (progDetailModel.Update m (tea.KeyMsg k)))) in *.
    assert (K' : progDetailModel.cursor m'
                 = Z.max (progDetailModel.cursor m - 1) 0).
    { rewrite K.
      destruct (0 <? len (progDetailModel.mapIDs m)) eqn:A;
        [|apply Z.ltb_ge in A; lia].
      destruct (0 <? progDetailModel.cursor m)
        eqn:B; cbn [andb];
        [apply Z.ltb_lt in B | apply Z.ltb_ge in B]; lia. }
    destruct (IH m') as [IM IK]; [rewrite M, K'; lia|].
    rewrite IM, IK, M, K'. split; [reflexivity|lia].
Qed.

Lemma detailAfter_app (m : progDetailModel.t) a b :
  detailAfter m (a ++ b)%list = detailAfter (detailAfter m a) b.
Proof. unfold detailAfter. apply fold_left_app. Qed.

(** X16 -- The cursor of the program detail view after [j] presses of a
    down key followed by [i] presses of an up key, from a cursor [c] on
    the list of [n] map IDs: it is [max (min (c + j) (n - 1) - i) 0];
    the list is unchanged, the selected map ID is the one at that index,
    and it is what the Enter key reports, with the model left as it is. *)
Theorem cursor_after_key_presses (m : progDetailModel.t)
    (dn up : string) (j i : nat) :
  dn = "down" \/ dn = "j" -> up = "up" \/ up = "k" ->
  0 <= progDetailModel.cursor m < len (progDetailModel.mapIDs m) ->
  let m' := detailAfter m (presses dn j ++ presses up i)%list in
  let c' := Z.max (Z.min (progDetailModel.cursor m + Z.of_nat j)
                         (len (progDetailModel.mapIDs m) - 1)
                   - Z.of_nat i) 0 in
  progDetailModel.mapIDs m' = progDetailModel.mapIDs m
  /\ progDetailModel.cursor m' = c'
  /\ progDetailModel.SelectedMapID m'
     = nth_error (progDetailModel.mapIDs m) (Z.to_nat c')
  /\ progDetailModel.Update m' (tea.KeyMsg "enter")
     = (m', tea.Nil, nth_error (progDetailModel.mapIDs m) (Z.to_nat c')).
Proof.
  intros Hd Hu C m' c'. subst m'. rewrite detailAfter_app.
  destruct (progDetail_downs j Hd m C) as [M1 K1].
  set (m1 := detailAfter m (presses dn j)) in *.
  assert (C1 : 0 <= progDetailModel.cursor m1
               < len (progDetailModel.mapIDs m1)) by (rewrite M1, K1; lia).
  destruct (progDetail_ups i Hu m1 C1) as [M2 K2].
  set (m2 := detailAfter m1 (presses up i)) in *.
  assert (E : progDetailModel.cursor m2 = c').
  { rewrite K2, K1. reflexivity. }
  assert (S : progDetailModel.SelectedMapID m2
              = nth_error (progDetailModel.mapIDs m) (Z.to_nat c')).
  { rewrite <- E, <- M1, <- M2. apply SelectedMapID_cursorOK.
    assert (C2 : 0 <= progDetailModel.cursor m2
                 < len (progDetailModel.mapIDs m2)) by (rewrite M2, K2; lia).
    unfold cursorOK.
    destruct (progDetailModel.mapIDs m2); [unfold len in C2; cbn in C2; lia|].
    exact C2. }
  split; [rewrite M2; exact M1|]. split; [exact E|]. split; [exact S|].
  rewrite progDetailModel_Update_enter, S. reflexivity.
Qed.

End CursorMoves.

(* ===================================================================== *)
(** ** The map detail view *)

Section MapDetailView.
Context {VW : bubbles_viewport.Widget} {TH : Theme}.

Lemma mapDetailAfter_frame msgs : forall m : mapDetailModel.t,
  mapDetailModel.mapInfo (mapDetailAfter m msgs) = mapDetailModel.mapInfo m
  /\ mapDetailModel.cursor (mapDetailAfter m msgs) = mapDetailModel.cursor m
  /\ mapDetailModel.ready (mapDetailAfter m msgs) = mapDetailModel.ready m.
Proof.
  induction msgs as [|msg msgs IH]; intro m; [auto|].
  cbn [mapDetailAfter fold_left].
  fold (mapDetailAfter (fst (fst (mapDetailModel.Update m msg))) msgs).
  destruct (IH (fst (fst (mapDetailModel.Update m msg)))) as (-> & -> & ->).
  destruct (mapDetailModel.Update m msg) as [[m' c] sel] eqn:U.
  apply mapDetailModel_Update_frame in U. cbn [fst].
  destruct U as (-> & -> & -> & _). auto.
Qed.

(** X17 -- The cursor of the map detail view never moves.  After
    [SetMap] and any messages the model holds the map that was set, the
    cursor is 0 and the content is the one rendered by [SetMap]; the up
    and down keys return the model as it is; the Enter key requests the
    dump exactly when a map is held, and [GetMapID] is the ID of that
    map, or 0. *)
Theorem map_detail_cursor_is_fixed (m0 : mapDetailModel.t)
    (mi : option MapInfo.t) (msgs : list tea.Msg) :
  let m := mapDetailAfter (mapDetailModel.SetMap mi m0) msgs in
  mapDetailModel.mapInfo m = mi
  /\ mapDetailModel.cursor m = 0
  /\ mapDetailModel.renderContent m
     = mapDetailModel.renderContent (mapDetailModel.SetMap mi m0)
  /\ (forall k, k = "up" \/ k = "k" \/ k = "down" \/ k = "j" ->
      mapDetailModel.Update m (tea.KeyMsg k) = (m, tea.Nil, false))
  /\ mapDetailModel.Update m (tea.KeyMsg "enter")
     = (m, tea.Nil, match mi with Some _ => true | None => false end)
  /\ mapDetailModel.GetMapID m
     = match mi with Some x => MapInfo.ID x | None => 0%N end.
Proof.
  intro m.
  destruct (mapDetailAfter_frame msgs (mapDetailModel.SetMap mi m0))
    as (F1 & F2 & _).
  fold m in F1, F2.
  rewrite SetMap_mapInfo in F1.
  destruct (mapDetailOK_SetMap mi m0) as [C _]. rewrite C in F2.
  split; [exact F1|]. split; [exact F2|].
  split.
  { unfold mapDetailModel.renderContent.
    rewrite F1, F2, SetMap_mapInfo, C. reflexivity. }
  split.
  { intros k Hk. unfold mapDetailModel.Update.
    destruct Hk as [-> | [-> | [-> | ->]]]; reflexivity. }
  split.
  { unfold mapDetailModel.Update.
    cbn [String.eqb Ascii.eqb Bool.eqb andb orb].
    rewrite F1, F2. destruct mi; reflexivity. }
  unfold mapDetailModel.GetMapID. rewrite F1. reflexivity.
Qed.

End MapDetailView.

(* ===================================================================== *)
(** ** The map dump view *)

Section MapDumpView.
Context {VW : bubbles_viewport.Widget} {TH : Theme}.


End MapDumpView.

(* ===================================================================== *)
(** ** The error of a list *)

Section ListError.
Context {LW : bubbles_list.Widget} {VW : bubbles_viewport.Widget} {TH : Theme}.

Lemma progListModel_Update_err (pl pl' : progListModel.t) msg c sel :
  progListModel.Update pl msg = (pl', c, sel) ->
  progListModel.err pl' = progListModel.err pl.
Proof.
  unfold progListModel.Update, progListModel.toList.
  destruct (bubbles_list.Update (progListModel.list_ pl) msg) as [l c'].
  repeat break_step; intros [= <- <- <-]; reflexivity.
Qed.

Lemma mapListModel_Update_err (ml ml' : mapListModel.t) msg c sel :
  mapListModel.Update ml msg = (ml', c, sel) ->
  mapListModel.err ml' = mapListModel.err ml.
Proof.
  unfold mapListModel.Update, mapListModel.toList.
  destruct (bubbles_list.Update (mapListModel.list_ ml) msg) as [l c'].
  repeat break_step; intros [= <- <- <-]; reflexivity.
Qed.

(** A step changes the error of a list only by storing the failure of
    a load. *)
Lemma list_err_Update (m : Model) msg :
  let m' := fst (Update m msg) in
  (progListModel.err (progList m') = progListModel.err (progList m)
   \/ exists svc e,
        progSvc m = Some svc /\ snd (ProgService.List svc) = Some e
        /\ progListModel.err (progList m') = Some e)
  /\ (mapListModel.err (mapList m') = mapListModel.err (mapList m)
      \/ exists svc e,
           mapsSvc m = Some svc /\ snd (MapsService.List svc) = Some e
           /\ mapListModel.err (mapList m') = Some e).
Proof.
  destruct m as [s h ps ms mn pl pd ml md dp w hh e0 ks sh].
  unfold_root.
  destruct s.
  all: cbn [state history menu progList mapList progDetail mapDetail mapDump
       showHelp keys progSvc mapsSvc set_err err set_state set_history
       set_menu set_progList set_progDetail set_mapList set_mapDetail
       set_mapDump set_showHelp width height ViewState_eqb andb negb].
  all: repeat break_step.
  all: repeat match goal with
       | H : progListModel.Update _ _ = _ |- _ =>
           apply progListModel_Update_err in H
       | H : mapListModel.Update _ _ = _ |- _ =>
           apply mapListModel_Update_err in H
       end.
  all: cbn [fst progList mapList set_err set_state set_history
       set_menu set_progList set_progDetail set_mapList set_mapDetail
       set_mapDump set_showHelp progListModel.err mapListModel.err
       progListModel.SetPrograms progListModel.SetError
       progListModel.ResetFilter progListModel.SetSize
       mapListModel.SetMaps mapListModel.SetError
       mapListModel.ResetFilter mapListModel.SetSize].
  all: split; try (left; first [reflexivity | assumption]).
  all: right; do 2 eexists; split; [reflexivity|];
    match goal with H : _ = (_, Some _) |- _ => rewrite H end;
    split; reflexivity.
Qed.

Lemma list_err_runMsgs msgs : forall m : Model,
  (progListModel.err (progList m) <> None ->
   progListModel.err (progList (runMsgs m msgs)) <> None)
  /\ (mapListModel.err (mapList m) <> None ->
      mapListModel.err (mapList (runMsgs m msgs)) <> None).
Proof.
  induction msgs as [|msg msgs IH]; intro m; [split; auto|].
  cbn [runMsgs fold_left]. fold (runMsgs (fst (Update m msg)) msgs).
  destruct (IH (fst (Update m msg))) as [IP IM].
  destruct (list_err_Update m msg) as [P M].
  split; intro H.
  - apply IP. destruct P as [-> | (svc & e & _ & _ & ->)];
      [exact H | discriminate].
  - apply IM. destruct M as [-> | (svc & e & _ & _ & ->)];
      [exact H | discriminate].
Qed.

(** X19 -- The error of a list is never cleared.  Once the program list
    model stores an error, it stores one after any messages, and the
    error page is what the list renders; the same holds of the map
    list. *)
Theorem list_error_is_never_cleared (m : Model) (msgs : list tea.Msg) :
  (progListModel.err (progList m) <> None ->
   exists e,
     progListModel.err (progList (runMsgs m msgs)) = Some e
     /\ progListModel.View (progList (runMsgs m msgs))
        = titleStyle "BPF Programs" ++ nl ++ nl
          ++ errorStyle ("Error: " ++ Error e))
  /\ (mapListModel.err (mapList m) <> None ->
      exists e,
        mapListModel.err (mapList (runMsgs m msgs)) = Some e
        /\ mapListModel.View (mapList (runMsgs m msgs))
           = titleStyle "BPF Maps" ++ nl ++ nl
             ++ errorStyle ("Error: " ++ Error e)).
Proof.
  destruct (list_err_runMsgs msgs m) as [P M].
  split; intro H.
  - specialize (P H).
    destruct (progListModel.err (progList (runMsgs m msgs))) as [e|] eqn:E;
      [|congruence].
    exists e. split; [reflexivity|].
    unfold progListModel.View. rewrite E, andb_false_r. reflexivity.
  - specialize (M H).
    destruct (mapListModel.err (mapList (runMsgs m msgs))) as [e|] eqn:E;
      [|congruence].
    exists e. split; [reflexivity|].
    unfold mapListModel.View. rewrite E, andb_false_r. reflexivity.
Qed.

End ListError.

(* ===================================================================== *)
(** ** What the views show *)

Section Shown.
Context {LW : bubbles_list.Widget} {VW : bubbles_viewport.Widget} {TH : Theme}.
Context {LL : bubbles_list.Laws LW}.

(** X20 -- What the views show in the states the program reaches.  The
    program detail view on screen holds a program and renders its
    viewport; the map detail view renders its viewport, or "No map
    selected" when it holds none; the dump view on screen has its
    viewport set up and was requested for a map the map detail model
    holds.  The dump model is never loading, so that its content is the
    error, the "no entries" line or the entries.  The cursor of the map
    detail view is 0, and the rows of each list widget are the records
    the list model holds. *)
Theorem views_never_show_loading (ps : option ProgService.t)
    (ms : option MapsService.t) (msgs : list tea.Msg) :
  let m := runMsgs (RunWithServices ps ms) msgs in
  (state m = ViewProgDetail ->
   exists p,
     progDetailModel.program (progDetail m) = Some p
     /\ progDetailModel.View (progDetail m)
        = titleStyle ("Program: " ++ ProgramInfo.Name p) ++ nl ++ nl
          ++ bubbles_viewport.View (progDetailModel.viewport (progDetail m)))
  /\ (state m = ViewMapDetail ->
      mapDetailModel.View (mapDetail m)
      = match mapDetailModel.mapInfo (mapDetail m) with
        | None => titleStyle "Map Details" ++ nl ++ nl
                  ++ dimStyle "No map selected"
        | Some mi =>
            titleStyle ("Map: " ++ MapInfo.Name mi) ++ nl ++ nl
            ++ bubbles_viewport.View (mapDetailModel.viewport (mapDetail m))
        end)
  /\ (state m = ViewMapDump ->
      mapDumpModel.ready (mapDump m) = true
      /\ exists mi, mapDetailModel.mapInfo (mapDetail m) = Some mi)
  /\ mapDumpModel.loading (mapDump m) = false
  /\ mapDumpModel.renderContent (mapDump m)
     = match mapDumpModel.err (mapDump m) with
       | Some e => errorStyle ("Error: " ++ Error e)
       | None =>
           if len (mapDumpModel.entries (mapDump m)) =? 0
           then dimStyle "Map contains no entries"
           else mapDumpModel.renderEntries
                  (len (mapDumpModel.entries (mapDump m))) 0
                  (mapDumpModel.entries (mapDump m))
       end
  /\ mapDetailModel.cursor (mapDetail m) = 0
  /\ bubbles_list.Items (progListModel.list_ (progList m))
     = map (fun prog => {| progItem_info := prog |})
           (progListModel.programs (progList m))
  /\ bubbles_list.Items (mapListModel.list_ (mapList m))
     = map (fun mapInfo => {| mapItem_info := mapInfo |})
           (mapListModel.maps (mapList m)).
Proof.
  intro m.
  destruct (dataInv_reachable ps ms msgs)
    as [_ [D1 D2 (C & M & R) D4 (MC & MR) D6 D7]].
  fold m in D1, D2, C, M, R, D4, MC, MR, D6, D7.
  split.
  { intro St.
    destruct (progDetailModel.program (progDetail m)) as [p|] eqn:P.
    2:{ exfalso. apply D4; [|reflexivity]. rewrite St.
        apply in_or_app. right. left. reflexivity. }
    exists p. split; [reflexivity|].
    unfold progDetailModel.View. rewrite P, R by discriminate. reflexivity. }
  split.
  { intros _. unfold mapDetailModel.View.
    destruct (mapDetailModel.mapInfo (mapDetail m)) as [mi|]; [|reflexivity].
    rewrite MR by discriminate. reflexivity. }
  split.
  { intro St. destruct (D7 St) as [Rd Mi]. split; [exact Rd|].
    destruct (mapDetailModel.mapInfo (mapDetail m)) as [mi|];
      [exists mi; reflexivity | congruence]. }
  split; [exact D6|].
  split.
  { unfold mapDumpModel.renderContent. rewrite D6. reflexivity. }
  auto.
Qed.

End Shown.

(* ===================================================================== *)
(** ** Running without a service *)

Section AbsentServiceSteps.
Context {LW : bubbles_list.Widget} {VW : bubbles_viewport.Widget} {TH : Theme}.
Context {LL : bubbles_list.Laws LW}.

Ltac no_selection :=
  match goal with
  | H : exists k item, _ /\ bubbles_list.SelectedItem ?l = Some item /\ _,
    R : bubbles_list.Items ?l = [] |- _ =>
      let k := fresh in
      let item := fresh in
      let S := fresh in
      destruct H as (k & item & _ & S & _);
      apply bubbles_list.SelectedItem_In in S; rewrite R in S; destruct S
  end.

Lemma noProgInv_Update m msg :
  navInv m -> noProgInv m -> noProgInv (fst (Update m msg)).
Proof.
  intros [I1 I2 I3 I4 I5] [P1 P2 P3 P4 P5 P6 P7].
  destruct m as [s h ps ms mn pl pd ml md dp w hh e ks sh].
  cbn [state history menu progList mapList showHelp progDetail mapDetail
       mapDump progSvc err] in *.
  subst ps e.
  apply trail_cases in I1.
  destruct I1 as
    [[-> ->]|[[-> ->]|[[-> ->]|[[-> ->]|[[-> ->]|[[-> ->]|[[-> ->]|[-> ->]]]]]]]].
  all: try (exfalso; apply P7; cbn; tauto).
  all: unfold_root;
    cbn [state history menu progList mapList showHelp keys progSvc mapsSvc
         progDetail mapDetail mapDump ViewState_eqb andb negb].
  all: repeat (break_step;
    cbn [state history menu progList mapList showHelp keys progSvc mapsSvc
         progDetail mapDetail mapDump set_err set_state set_history
         set_menu set_progList set_progDetail set_mapList set_mapDetail
         set_mapDump set_showHelp]).
  all: use_specs; use_frames.
  all: repeat match goal with H : _ /\ _ |- _ => destruct H end; subst.
  all: try (exfalso; menu_absurd).
  all: try (exfalso; no_selection).
  all: constructor;
    cbn [fst snd state history menu progList mapList showHelp keys progSvc
         mapsSvc progDetail mapDetail mapDump set_err set_state set_history
         set_menu set_progList set_progDetail set_mapList set_mapDetail
         set_mapDump set_showHelp app err].
  all: rewrite ?SetSize_program.
  all: try reflexivity; try assumption; try congruence.
  all: try (unfold progListModel.SetPrograms, progListModel.SetError,
              progListModel.ResetFilter, progListModel.SetSize;
            cbn [progListModel.list_ progListModel.programs progListModel.err];
            rewrite ?bubbles_list.SetItems_Items,
              ?bubbles_list.ResetFilter_Items, ?bubbles_list.SetSize_Items;
            first [reflexivity | assumption | congruence]).
  all: try (vm_compute; intuition congruence).
Qed.

Lemma noMapsInv_Update m msg :
  navInv m -> noMapsInv m -> noMapsInv (fst (Update m msg)).
Proof.
  intros [I1 I2 I3 I4 I5] [P1 P2 P3 P4 P5 P6 P7 P8 P9].
  destruct m as [s h ps ms mn pl pd ml md dp w hh e ks sh].
  cbn [state history menu progList mapList showHelp progDetail mapDetail
       mapDump mapsSvc err] in *.
  subst ms.
  apply trail_cases in I1.
  destruct I1 as
    [[-> ->]|[[-> ->]|[[-> ->]|[[-> ->]|[[-> ->]|[[-> ->]|[[-> ->]|[-> ->]]]]]]]].
  all: try (exfalso; apply P8; reflexivity).
  all: try (exfalso; vm_compute in P9; clear - P9; intuition congruence).
  all: unfold_root;
    cbn [state history menu progList mapList showHelp keys progSvc mapsSvc
         progDetail mapDetail mapDump ViewState_eqb andb negb].
  all: repeat (break_step;
    cbn [state history menu progList mapList showHelp keys progSvc mapsSvc
         progDetail mapDetail mapDump set_err set_state set_history
         set_menu set_progList set_progDetail set_mapList set_mapDetail
         set_mapDump set_showHelp]).
  all: use_specs; use_frames.
  all: repeat match goal with H : _ /\ _ |- _ => destruct H end; subst.
  all: try (exfalso; menu_absurd).
  all: try (exfalso; no_selection).
  all: try (exfalso;
            match goal with H : true = true -> _ |- _ =>
              destruct (H eq_refl) as (_ & _ & _ & Hm & _) end;
            congruence).
  all: constructor;
    cbn [fst snd state history menu progList mapList showHelp keys progSvc
         mapsSvc progDetail mapDetail mapDump set_err set_state set_history
         set_menu set_progList set_progDetail set_mapList set_mapDetail
         set_mapDump set_showHelp app err].
  all: rewrite ?SetSize_mapInfo.
  all: try match goal with
       | |- mapDumpModel.entries (mapDumpModel.SetSize ?w ?h ?dp) = _ =>
           destruct (mapDump_SetSize_frame w h dp) as (_ & _ & _ & _ & -> & _)
       | |- mapDumpModel.err (mapDumpModel.SetSize ?w ?h ?dp) = _ =>
           destruct (mapDump_SetSize_frame w h dp) as (_ & _ & _ & _ & _ & ->)
       end.
  all: try reflexivity; try assumption; try congruence.
  all: try (unfold mapListModel.SetMaps, mapListModel.SetError,
              mapListModel.ResetFilter, mapListModel.SetSize;
            cbn [mapListModel.list_ mapListModel.maps mapListModel.err];
            rewrite ?bubbles_list.SetItems_Items,
              ?bubbles_list.ResetFilter_Items, ?bubbles_list.SetSize_Items;
            first [reflexivity | assumption | congruence]).
  all: try (intro Hs; discriminate Hs).
  all: try (vm_compute; clear; intuition congruence).
Qed.

Lemma absent_runMsgs msgs :
  forall m : Model, navInv m ->
  (noProgInv m -> noProgInv (runMsgs m msgs))
  /\ (noMapsInv m -> noMapsInv (runMsgs m msgs)).
Proof.
  induction msgs as [|msg msgs IH]; intros m N; [split; auto|].
  cbn [runMsgs fold_left]. fold (runMsgs (fst (Update m msg)) msgs).
  destruct (IH (fst (Update m msg)) (navInv_Update msg N)) as [IP IM].
  split; intro H.
  - apply IP, noProgInv_Update; assumption.
  - apply IM, noMapsInv_Update; assumption.
Qed.

Lemma noProgInv_reachable ms msgs :
  noProgInv (runMsgs (RunWithServices None ms) msgs).
Proof.
  apply absent_runMsgs; [apply navInv_RunWithServices|].
  constructor; cbn; try reflexivity.
  - apply bubbles_list.New_Items.
  - intros [H|[]]; discriminate H.
Qed.

Lemma noMapsInv_reachable ps msgs :
  noMapsInv (runMsgs (RunWithServices ps None) msgs).
Proof.
  apply absent_runMsgs; [apply navInv_RunWithServices|].
  unfold RunWithServices.
  assert (B : noMapsInv (NewModel ps None)).
  { constructor; cbn; try reflexivity.
    - apply bubbles_list.New_Items.
    - discriminate.
    - intros [H|[]]; discriminate H. }
  destruct (checkPermissions (NewModel ps None)); [|exact B].
  destruct B. constructor; assumption.
Qed.

(** X21 -- Without a program service, in every state the program
    reaches: there is no top-level error; the program list is empty,
    stores no error, selects nothing and renders "No BPF programs
    loaded"; no program is held, and the program detail view is neither
    on screen nor in the history. *)
Theorem without_program_service (ms : option MapsService.t)
    (msgs : list tea.Msg) :
  let m := runMsgs (RunWithServices None ms) msgs in
  err m = None
  /\ progListModel.programs (progList m) = []
  /\ progListModel.err (progList m) = None
  /\ progListModel.SelectedItem (progList m) = None
  /\ progListModel.View (progList m)
     = titleStyle "BPF Programs" ++ nl ++ nl
       ++ dimStyle "No BPF programs loaded"
  /\ progDetailModel.program (progDetail m) = None
  /\ ~ In ViewProgDetail (history m ++ [state m])%list.
Proof.
  intro m.
  destruct (noProgInv_reachable ms msgs) as [P1 P2 P3 P4 P5 P6 P7].
  fold m in P1, P2, P3, P4, P5, P6, P7.
  repeat split; try assumption.
  - unfold progListModel.SelectedItem.
    destruct (bubbles_list.SelectedItem (progListModel.list_ (progList m)))
      as [item|] eqn:S; [|reflexivity].
    apply bubbles_list.SelectedItem_In in S. rewrite P3 in S. destruct S.
  - unfold progListModel.View. rewrite P2, P4. reflexivity.
Qed.

(** X22 -- Without a maps service, in every state the program reaches:
    the map list is empty, stores no error, selects nothing and renders
    "No BPF maps loaded"; no map is held, the map detail view renders
    "No map selected" and is only reached through a program; nothing
    was dumped, and the dump view is never on screen. *)
Theorem without_maps_service (ps : option ProgService.t)
    (msgs : list tea.Msg) :
  let m := runMsgs (RunWithServices ps None) msgs in
  mapListModel.maps (mapList m) = []
  /\ mapListModel.err (mapList m) = None
  /\ mapListModel.SelectedItem (mapList m) = None
  /\ mapListModel.View (mapList m)
     = titleStyle "BPF Maps" ++ nl ++ nl ++ dimStyle "No BPF maps loaded"
  /\ mapDetailModel.mapInfo (mapDetail m) = None
  /\ mapDetailModel.View (mapDetail m)
     = titleStyle "Map Details" ++ nl ++ nl ++ dimStyle "No map selected"
  /\ mapDumpModel.entries (mapDump m) = []
  /\ mapDumpModel.err (mapDump m) = None
  /\ state m <> ViewMapDump
  /\ (state m = ViewMapDetail -> In ViewProgDetail (history m)).
Proof.
  intro m.
  destruct (noMapsInv_reachable ps msgs) as [P1 P2 P3 P4 P5 P6 P7 P8 P9].
  fold m in P1, P2, P3, P4, P5, P6, P7, P8, P9.
  repeat split; try assumption.
  - unfold mapListModel.SelectedItem.
    destruct (bubbles_list.SelectedItem (mapListModel.list_ (mapList m)))
      as [item|] eqn:S; [|reflexivity].
    apply bubbles_list.SelectedItem_In in S. rewrite P3 in S. destruct S.
  - unfold mapListModel.View. rewrite P2, P4. reflexivity.
  - unfold mapDetailModel.View. rewrite P5. reflexivity.
  - intro St. apply P9. rewrite St. apply in_or_app. right. left. reflexivity.
Qed.

(** X23 -- [Run] starts the program without services.  In every state
    it reaches there is no top-level error, and the view is the menu,
    the program list or the map list, entered from the menu; what is
    rendered is the help overlay, the menu, or the empty-state line of
    the list, each above the help bar. *)
Theorem limited_mode (msgs : list tea.Msg) :
  let m := runMsgs Run msgs in
  err m = None
  /\ (state m = ViewMenu /\ history m = []
      \/ state m = ViewProgList /\ history m = [ViewMenu]
      \/ state m = ViewMapList /\ history m = [ViewMenu])
  /\ View m
     = if showHelp m then renderHelp m
       else match state m with
            | ViewProgList =>
                titleStyle "BPF Programs" ++ nl ++ nl
                ++ dimStyle "No BPF programs loaded" ++ nl ++ renderHelpBar m
            | ViewMapList =>
                titleStyle "BPF Maps" ++ nl ++ nl
                ++ dimStyle "No BPF maps loaded" ++ nl ++ renderHelpBar m
            | _ => menuModel.View (menu m) ++ nl ++ renderHelpBar m
            end.
Proof.
  intro m. unfold Run in m.
  destruct (noProgInv_reachable None msgs) as [P1 P2 P3 P4 P5 P6 P7].
  destruct (noMapsInv_reachable None msgs) as [Q1 Q2 Q3 Q4 Q5 Q6 Q7 Q8 Q9].
  destruct (navInv_reachable None None msgs) as [I1 _ _ _ _].
  fold m in P1, P2, P3, P4, P5, P6, P7, Q1, Q2, Q3, Q4, Q5, Q6, Q7, Q8, Q9, I1.
  assert (T : state m = ViewMenu /\ history m = []
              \/ state m = ViewProgList /\ history m = [ViewMenu]
              \/ state m = ViewMapList /\ history m = [ViewMenu]).
  { apply trail_cases in I1.
    destruct I1 as
      [[H S]|[[H S]|[[H S]|[[H S]|[[H S]|[[H S]|[[H S]|[H S]]]]]]]].
    all: try (left; split; assumption).
    all: try (right; left; split; assumption).
    all: try (right; right; split; assumption).
    all: exfalso; rewrite H, S in *.
    all: first [ apply P7; vm_compute; tauto
               | apply Q8; reflexivity
               | vm_compute in Q9; clear - Q9; intuition congruence ]. }
  split; [exact P6|]. split; [exact T|].
  unfold View. rewrite P6.
  destruct (showHelp m); [reflexivity|].
  destruct T as [[-> _]|[[-> _]|[-> _]]].
  - reflexivity.
  - unfold renderProgList, progListModel.View. rewrite P2, P4.
    cbn [List.length Nat.eqb andb]. rewrite !string_app_assoc. reflexivity.
  - unfold renderMapList, mapListModel.View. rewrite Q2, Q4.
    cbn [List.length Nat.eqb andb]. rewrite !string_app_assoc. reflexivity.
Qed.

End AbsentServiceSteps.

(* ===================================================================== *)
(** ** The hex rendering, on every input *)

Lemma formatHex_first_digit (b : byte) (bs : list byte) :
  exists h rest, formatHex (b :: bs) = String h rest /\ isHexDigit h = true.
Proof.
  rewrite formatHex_cons.
  destruct (unhexByte_sprintf b) as (h & l & E & _ & Hh & _).
  rewrite E. exists h. eexists. split; [reflexivity | exact Hh].
Qed.

(** X24 -- [formatHex] is injective on all byte sequences, the empty one
    included: the marker ["(empty)"] written for the empty sequence
    begins with a character that is not a hexadecimal digit, so that it
    is the rendering of no other sequence, and two non-empty sequences
    with the same rendering are equal. *)
Theorem formatHex_injective (a b : list byte) :
  formatHex a = formatHex b -> a = b.
Proof.
  intro E.
  destruct a as [|x xs], b as [|y ys].
  - reflexivity.
  - exfalso. destruct (formatHex_first_digit y ys) as (h & rest & F & D).
    rewrite F in E. change (formatHex []) with "(empty)" in E.
    injection E as <- _. discriminate D.
  - exfalso. destruct (formatHex_first_digit x xs) as (h & rest & F & D).
    rewrite F in E. change (formatHex []) with "(empty)" in E.
    injection E as -> _. discriminate D.
  - assert (D : decodeHex (formatHex (x :: xs)) = decodeHex (formatHex (y :: ys)))
      by (rewrite E; reflexivity).
    rewrite !decodeHex_formatHex in D. congruence.
Qed.

(* ===================================================================== *)
(** ** The further theorems on the scenarios *)

Section OnWalks.
#[local] Existing Instance refList.widget.
#[local] Existing Instance refViewport.widget.
#[local] Existing Instance plainTheme.

(** ["q"] typed into the filter of the program list stays in the list. *)
Lemma filter_entry_captures_every_key_witness :
  filterEntry Scenario.atFilterEntry = true
  /\ state (fst (Update Scenario.atFilterEntry (tea.KeyMsg "q"))) = ViewProgList
  /\ snd (Update Scenario.atFilterEntry (tea.KeyMsg "q")) = tea.Nil.
Proof.
  assert (F : filterEntry Scenario.atFilterEntry = true)
    by (vm_compute; reflexivity).
  destruct (@filter_entry_captures_every_key refList.widget
              refViewport.widget plainTheme refList_laws
              (Some Scenario.progs) (Some Scenario.maps)
              [Scenario.enter; tea.KeyMsg "/"] "q" F)
    as ((S & _) & C & _).
  split; [exact F|]. split.
  - exact (eq_trans S ltac:(vm_compute; reflexivity)).
  - exact (eq_trans C ltac:(vm_compute; reflexivity)).
Defined.

(** From the program list into the detail of the program and back. *)
Lemma entering_a_view_and_going_back_witness :
  state (fst (Update Walk.atProgList Scenario.enter)) = ViewProgDetail
  /\ state (fst (Update (fst (Update Walk.atProgList Scenario.enter))
                        Scenario.esc)) = ViewProgList
  /\ progList (fst (Update (fst (Update Walk.atProgList Scenario.enter))
                           Scenario.esc)) = progList Walk.atProgList.
Proof.
  destruct (@entering_a_view_and_going_back refList.widget
              refViewport.widget plainTheme refList_laws
              (Some Scenario.progs) (Some Scenario.maps)
              [Scenario.enter] Scenario.enter "esc"
              ltac:(vm_compute; reflexivity) ltac:(vm_compute; reflexivity))
    as ((S & _) & _ & Pl & _).
  split; [vm_compute; reflexivity|]. split.
  - exact (eq_trans S ltac:(vm_compute; reflexivity)).
  - apply Pl. vm_compute. discriminate.
Defined.

(** The one program of the service is what a load leaves in the list. *)
Lemma list_load_outcomes_witness :
  progListModel.programs
    (progList (loadPrograms (NewModel (Some Scenario.progs) None)))
  = [Scenario.test_prog].
Proof.
  destruct (@list_load_outcomes refList.widget refViewport.widget plainTheme
              refList_laws (NewModel (Some Scenario.progs) None))
    as ((_ & _ & H & _) & _).
  exact (proj1 (H Scenario.progs [Scenario.test_prog] eq_refl eq_refl)).
Defined.

(** Enter on the first entry of the menu opens the program list. *)
Lemma menu_enter_opens_a_list_witness :
  state (fst (Update (RunWithServices (Some Scenario.progs)
                                      (Some Scenario.maps))
                     Scenario.enter)) = ViewProgList
  /\ history (fst (Update (RunWithServices (Some Scenario.progs)
                                           (Some Scenario.maps))
                          Scenario.enter)) = [ViewMenu].
Proof.
  pose proof (@menu_enter_opens_a_list refList.widget refViewport.widget
                plainTheme refList_laws (Some Scenario.progs)
                (Some Scenario.maps) []
                ltac:(vm_compute; reflexivity) ltac:(vm_compute; reflexivity))
    as H.
  cbv zeta in H.
  change (menuModel.SelectedItem
            (menu (runMsgs (RunWithServices (Some Scenario.progs)
                                            (Some Scenario.maps)) [])))
    with (Some {| title := "Programs";
                  description := "Browse loaded BPF programs";
                  target := ViewProgList |}) in H.
  cbv iota in H.
  destruct H as [(_ & _ & S & Hh & _) | (T & _)]; [|discriminate T].
  split; [exact S | exact Hh].
Defined.

(** Enter on the listed program opens its detail. *)
Lemma program_selection_opens_its_detail_witness :
  progListModel.SelectedItem (progList Walk.atProgList)
  = Some Scenario.test_prog
  /\ state (fst (Update Walk.atProgList Scenario.enter)) = ViewProgDetail
  /\ progDetailModel.program
       (progDetail (fst (Update Walk.atProgList Scenario.enter)))
     = Some Scenario.test_prog
  /\ progDetailModel.cursor
       (progDetail (fst (Update Walk.atProgList Scenario.enter))) = 0.
Proof.
  assert (Sel : progListModel.SelectedItem (progList Walk.atProgList)
                = Some Scenario.test_prog) by (vm_compute; reflexivity).
  destruct (@program_selection_opens_its_detail refList.widget
              refViewport.widget plainTheme refList_laws
              (Some Scenario.progs) (Some Scenario.maps) [Scenario.enter]
              Scenario.test_prog
              ltac:(vm_compute; reflexivity) ltac:(vm_compute; reflexivity)
              ltac:(vm_compute; reflexivity) Sel)
    as (_ & R & P & _ & C & _).
  split; [exact Sel|]. split; [|split; [exact P | exact C]].
  exact (f_equal (fun r => state (fst r)) R).
Defined.

(** Enter on the listed map opens its detail. *)
Lemma map_selection_opens_its_detail_witness :
  mapListModel.SelectedItem (mapList Walk.atMapList)
  = Some Scenario.associated_map
  /\ state (fst (Update Walk.atMapList Scenario.enter)) = ViewMapDetail
  /\ mapDetailModel.mapInfo
       (mapDetail (fst (Update Walk.atMapList Scenario.enter)))
     = Some Scenario.associated_map.
Proof.
  assert (Sel : mapListModel.SelectedItem (mapList Walk.atMapList)
                = Some Scenario.associated_map) by (vm_compute; reflexivity).
  destruct (@map_selection_opens_its_detail refList.widget
              refViewport.widget plainTheme refList_laws
              None (Some Scenario.mapsDumpFailing)
              [Scenario.down; Scenario.enter] Scenario.associated_map
              ltac:(vm_compute; reflexivity) ltac:(vm_compute; reflexivity)
              ltac:(vm_compute; reflexivity) Sel)
    as (_ & R & P & _).
  split; [exact Sel|]. split; [|exact P].
  exact (f_equal (fun r => state (fst r)) R).
Defined.

(** Enter on the associated map of the program follows it. *)
Lemma cross_reference_follow_witness :
  progDetailModel.SelectedMapID (progDetail Walk.atProgDetail) = Some 10%N
  /\ state (fst (Update Walk.atProgDetail Scenario.enter)) = ViewMapDetail
  /\ history (fst (Update Walk.atProgDetail Scenario.enter))
     = [ViewMenu; ViewProgList; ViewProgDetail].
Proof.
  destruct (@cross_reference_follow refList.widget refViewport.widget
              plainTheme refList_laws (Some Scenario.progs)
              (Some Scenario.maps) [Scenario.enter; Scenario.enter]
              ltac:(vm_compute; reflexivity) ltac:(vm_compute; reflexivity))
    as (p & _ & H).
  change (progDetailModel.SelectedMapID
            (progDetail (runMsgs (RunWithServices (Some Scenario.progs)
                                                  (Some Scenario.maps))
                                 [Scenario.enter; Scenario.enter])))
    with (Some 10%N) in H.
  cbv iota in H.
  destruct H as (_ & _ & S & Hh & _).
  split; [vm_compute; reflexivity|]. split; [exact S|].
  exact (eq_trans Hh ltac:(vm_compute; reflexivity)).
Defined.

(** Enter on the map whose dump fails enters the dump view, which
    stores the failure. *)
Lemma dump_request_witness :
  state (fst (Update Walk.atMapDetail Scenario.enter)) = ViewMapDump
  /\ mapDumpModel.err (mapDump (fst (Update Walk.atMapDetail Scenario.enter)))
     = Some (errors_New "failed to dump map contents")
  /\ err (fst (Update Walk.atMapDetail Scenario.enter)) = None.
Proof.
  pose proof (@dump_request refList.widget refViewport.widget
                plainTheme refList_laws None (Some Scenario.mapsDumpFailing)
                [Scenario.down; Scenario.enter; Scenario.enter]
                ltac:(vm_compute; reflexivity) ltac:(vm_compute; reflexivity))
    as H.
  cbv zeta in H.
  change (mapDetailModel.mapInfo
            (mapDetail (runMsgs (RunWithServices None
                                   (Some Scenario.mapsDumpFailing))
                          [Scenario.down; Scenario.enter; Scenario.enter])))
    with (Some Scenario.associated_map) in H.
  cbv iota in H.
  destruct H as (_ & S & _ & E & _ & _ & _ & D).
  change (mapsSvc (runMsgs (RunWithServices None
                              (Some Scenario.mapsDumpFailing))
                     [Scenario.down; Scenario.enter; Scenario.enter]))
    with (Some Scenario.mapsDumpFailing) in D.
  cbv iota in D.
  change (MapsService.Dump Scenario.mapsDumpFailing
            (MapInfo.ID Scenario.associated_map))
    with (@nil MapEntry.t, Some (errors_New "failed to dump map contents"))
    in D.
  cbv iota in D. destruct D as (De & _).
  split; [exact S|]. split; [exact De|].
  exact (eq_trans E ltac:(vm_compute; reflexivity)).
Defined.

(** Five times down and once up on three maps: the second map. *)
Lemma cursor_after_key_presses_witness :
  progDetailModel.cursor
    (detailAfter Walk.detailOfThree (presses "down" 5 ++ presses "k" 1)%list)
  = 1
  /\ progDetailModel.SelectedMapID
       (detailAfter Walk.detailOfThree
                    (presses "down" 5 ++ presses "k" 1)%list)
     = Some 20%N.
Proof.
  destruct (@cursor_after_key_presses refViewport.widget plainTheme
              Walk.detailOfThree "down" "k" 5 1
              (or_introl eq_refl) (or_intror eq_refl)
              ltac:(vm_compute; split; [discriminate | reflexivity]))
    as (_ & C & S & _).
  split.
  - exact (eq_trans C ltac:(vm_compute; reflexivity)).
  - exact (eq_trans S ltac:(vm_compute; reflexivity)).
Defined.

(** The dump view entered by the failing request has its viewport set
    up. *)
Lemma views_never_show_loading_witness :
  state Scenario.atFailedDump = ViewMapDump
  /\ mapDumpModel.ready (mapDump Scenario.atFailedDump) = true
  /\ mapDumpModel.loading (mapDump Scenario.atFailedDump) = false.
Proof.
  destruct (@views_never_show_loading refList.widget refViewport.widget
              plainTheme refList_laws None (Some Scenario.mapsDumpFailing)
              [Scenario.down; Scenario.enter; Scenario.enter; Scenario.enter])
    as (_ & _ & H & L & _).
  assert (St : state Scenario.atFailedDump = ViewMapDump)
    by (vm_compute; reflexivity).
  split; [exact St|]. split; [exact (proj1 (H St)) | exact L].
Defined.

(** The program list of a program that has a maps service only. *)
Lemma without_program_service_witness :
  progListModel.programs
    (progList (runMsgs (RunWithServices None (Some Scenario.maps))
                       [Scenario.enter])) = []
  /\ progListModel.View
       (progList (runMsgs (RunWithServices None (Some Scenario.maps))
                          [Scenario.enter]))
     = "BPF Programs" ++ nl ++ nl ++ "No BPF programs loaded".
Proof.
  destruct (@without_program_service refList.widget refViewport.widget
              plainTheme refList_laws (Some Scenario.maps) [Scenario.enter])
    as (_ & P & _ & _ & V & _).
  split; [exact P | exact V].
Defined.

(** The map list of a program that has a program service only. *)
Lemma without_maps_service_witness :
  mapListModel.maps
    (mapList (runMsgs (RunWithServices (Some Scenario.progs) None)
                      [Scenario.down; Scenario.enter])) = []
  /\ mapListModel.View
       (mapList (runMsgs (RunWithServices (Some Scenario.progs) None)
                         [Scenario.down; Scenario.enter]))
     = "BPF Maps" ++ nl ++ nl ++ "No BPF maps loaded".
Proof.
  destruct (@without_maps_service refList.widget refViewport.widget
              plainTheme refList_laws (Some Scenario.progs)
              [Scenario.down; Scenario.enter])
    as (M & _ & _ & V & _).
  split; [exact M | exact V].
Defined.

(** The map list of the program started by [Run]. *)
Lemma limited_mode_witness :
  err (runMsgs Run [Scenario.down; Scenario.enter]) = None
  /\ View (runMsgs Run [Scenario.down; Scenario.enter])
     = "BPF Maps" ++ nl ++ nl ++ "No BPF maps loaded" ++ nl
       ++ renderHelpBar (runMsgs Run [Scenario.down; Scenario.enter]).
Proof.
  destruct (@limited_mode refList.widget refViewport.widget plainTheme
              refList_laws [Scenario.down; Scenario.enter])
    as (E & _ & V).
  split; [exact E|].
  exact (eq_trans V ltac:(vm_compute; reflexivity)).
Defined.

End OnWalks.

(** Two bytes with the rendering ["de ad"]. *)
Lemma formatHex_injective_witness :
  formatHex [Byte.xde; Byte.xad] = "de ad"
  /\ [Byte.xde; Byte.xad] = [Byte.xde; Byte.xad].
Proof.
  split; [reflexivity|].
  apply (@formatHex_injective [Byte.xde; Byte.xad] [Byte.xde; Byte.xad]).
  reflexivity.
Defined.
